(** * comparador.py: the summarizer, the catalog client and the local loader

    A shallow embedding of [src/comparador.py].  The script loads two tables
    with [pd.read_csv] (one from an uploaded file, one from a CKAN catalog) and
    shows, for each, [resumen_general] and [resumen_por_tipo].

    Conventions of the embedding.
    - A pandas [Series] is a typed array: one constructor per dtype; the cells
      of a dtype that can hold a missing value are [option]s ([None] is
      NaN / None / NA).
    - A binary64 value is idealised as a real number, with one extra value
      [nan]; infinities are left out.  [R] is used for the statistics of the
      numeric columns only; everything else computes.  The rounding of the
      reductions ([mean], [std], [median], and [float] of a large integer)
      is not part of the embedding: what is proved of a numeric row is its
      count, which of its statistics are NaN, and the order of its minimum
      and maximum, none of which rounding changes.
    - The pandas operations the script calls ([isna], [count], [mean], [std],
      [min], [median], [max], [dropna], [unique], [value_counts], [head],
      [is_numeric_dtype], [is_string_dtype]) are written out in
      [Module Pandas] from their documented behaviour, with the dtype tests
      of pandas 2 and later.
    - The order [value_counts] leaves among values of equal count belongs to
      the installed pandas, which the script does not pin: the sort of the
      counts is a parameter, the class [CountSort].  Its instance
      [stable_sort] is the sort of pandas 3 and is the one a statement gets
      when it names none.
    - [requests], [Response.json] and [pd.read_csv] are an environment of
      outcomes (a value or a raised exception); [st.warning], [st.info] and
      [st.error] append to a log ([Module Catalog]).
    - [Module Store] gives the two functions of the summarizer again, on a
      store of Python objects, to speak of what they mutate.

    The functions of the script keep their names. *)

From Stdlib Require Import String Ascii List Bool Arith ZArith QArith Reals.
From Stdlib Require Import Qround Lia Lra Permutation Sorted DecimalString.
Import ListNotations.
Local Close Scope Q_scope.
Local Close Scope R_scope.
Local Open Scope string_scope.
Local Open Scope list_scope.
Local Open Scope nat_scope.

(** The value bound to a key in a list of items with distinct keys (the
    items of a [dict], the labelled columns of a table). *)
Fixpoint lookup {B : Type} (key : string) (items : list (string * B)) : option B :=
  match items with
  | [] => None
  | (k, v) :: t => if String.eqb k key then Some v else lookup key t
  end.

(* ================================================================= *)
(** ** The part of pandas the script relies on *)

Module Pandas.

(** A non-null Python object held by an [object] column: read_csv leaves
    [str] values there, and [int] values when a column mixes both. *)
Inductive pyobj : Type :=
| PyStr (s : string)
| PyInt (z : Z).

Definition pyobj_eqb (a b : pyobj) : bool :=
  match a, b with
  | PyStr s, PyStr t => String.eqb s t
  | PyInt x, PyInt y => Z.eqb x y
  | _, _ => false
  end.

(** [str(v)], which is what the f-string [f"{v}"] prints. *)
Definition py_str (v : pyobj) : string :=
  match v with
  | PyStr s => s
  | PyInt z => NilZero.string_of_int (Z.to_int z)
  end.

Definition str_of_nat (n : nat) : string :=
  NilZero.string_of_uint (Nat.to_uint n).

(** A Python [float]: [np.nan] or a finite value. *)
Inductive pyfloat : Type :=
| nan
| Fin (x : R).

(** A column.  [Int64] and [Bool_] cannot hold a missing value; [Float64]
    holds NaN for one; [Object] holds NaN / None; [StringArray] (the
    [string] / [str] extension dtype) holds NA. *)
Inductive Series : Type :=
| Int64 (v : list Z)
| Float64 (v : list (option R))
| Bool_ (v : list bool)
| Object (v : list (option pyobj))
| StringArray (v : list (option string))
| Datetime64 (v : list (option Z)).

Definition isnull {A : Type} (c : option A) : bool :=
  match c with
  | None => true
  | Some _ => false
  end.

(** [serie.isna()] *)
Definition isna (s : Series) : list bool :=
  match s with
  | Int64 v => map (fun _ => false) v
  | Float64 v => map isnull v
  | Bool_ v => map (fun _ => false) v
  | Object v => map isnull v
  | StringArray v => map isnull v
  | Datetime64 v => map isnull v
  end.

(** [len(serie)] *)
Definition len (s : Series) : nat :=
  match s with
  | Int64 v => length v
  | Float64 v => length v
  | Bool_ v => length v
  | Object v => length v
  | StringArray v => length v
  | Datetime64 v => length v
  end.

(** [.sum()] of a boolean array: the number of [True]. *)
Definition sum_bool (l : list bool) : nat :=
  fold_right (fun (b : bool) n => if b then S n else n) 0%nat l.

(** [serie.empty] *)
Definition empty (s : Series) : bool := (len s =? 0)%nat.

(** [serie.count()]: the number of non-null cells. *)
Definition count (s : Series) : nat :=
  sum_bool (map negb (isna s)).

(** [dropna] on an array of cells. *)
Fixpoint dropna {A : Type} (l : list (option A)) : list A :=
  match l with
  | [] => []
  | None :: t => dropna t
  | Some a :: t => a :: dropna t
  end.

(** *** dtype tests *)

(** The cells of a numeric-dtype column as floats (what the reductions work
    on); [None] for every other dtype.  [bool] is a numeric dtype for
    pandas: [True] is 1 and [False] is 0. *)
Definition numeric_values (s : Series) : option (list (option R)) :=
  match s with
  | Int64 v => Some (map (fun z => Some (IZR z)) v)
  | Float64 v => Some v
  | Bool_ v => Some (map (fun b : bool => Some (if b then 1%R else 0%R)) v)
  | Object _ | StringArray _ | Datetime64 _ => None
  end.

(** [pd.api.types.is_numeric_dtype(serie)] *)
Definition is_numeric_dtype (s : Series) : bool :=
  match s with
  | Int64 _ | Float64 _ | Bool_ _ => true
  | Object _ | StringArray _ | Datetime64 _ => false
  end.

Definition is_str (c : option pyobj) : bool :=
  match c with
  | Some (PyStr _) => true
  | _ => false
  end.

(** pandas' [is_all_strings] for an [object] array (pandas 2 and later): an
    empty array passes; otherwise every cell must be a [str], and a missing
    cell is not one ([skipna=False]). *)
Definition is_all_strings (v : list (option pyobj)) : bool :=
  match v with
  | [] => true
  | _ => forallb is_str v
  end.

(** [pd.api.types.is_string_dtype(serie)] *)
Definition is_string_dtype (s : Series) : bool :=
  match s with
  | Object v => is_all_strings v
  | StringArray _ => true
  | Int64 _ | Float64 _ | Bool_ _ | Datetime64 _ => false
  end.

(** The cells of a string-dtype column as Python objects; [None] for a
    column that is not of string dtype. *)
Definition string_values (s : Series) : option (list (option pyobj)) :=
  match s with
  | Object v => if is_all_strings v then Some v else None
  | StringArray v => Some (map (option_map PyStr) v)
  | Int64 _ | Float64 _ | Bool_ _ | Datetime64 _ => None
  end.

(** *** unique and value_counts *)

(** What [sort_values(ascending=False)] makes of a table of counts.  It
    belongs to the installed library: the counts come out in descending
    order, and entries of equal count in an order that depends on the sort
    it uses ([kind="stable"] since pandas 3, numpy's default one before). *)
Class CountSort : Type :=
  sort_values : forall A : Type, list (A * nat) -> list (A * nat).

Section Hashing.
Context {A : Type} (eqb : A -> A -> bool).

(** [unique()]: the distinct values, in order of first appearance. *)
Definition add_unique (seen : list A) (x : A) : list A :=
  if existsb (eqb x) seen then seen else seen ++ [x].

Definition unique (xs : list A) : list A :=
  fold_left add_unique xs [].

(** One step of the counting table: bump the entry of [x], or append a new
    entry with count 1. *)
Fixpoint bump (x : A) (tbl : list (A * nat)) : list (A * nat) :=
  match tbl with
  | [] => [(x, 1%nat)]
  | (k, c) :: t => if eqb x k then (k, S c) :: t else (k, c) :: bump x t
  end.

Definition value_count (xs : list A) : list (A * nat) :=
  fold_left (fun tbl x => bump x tbl) xs [].

(** A stable sort of the counts in descending order: an entry goes before
    the entries of the same count that came after it. *)
Fixpoint insert_desc (e : A * nat) (l : list (A * nat)) : list (A * nat) :=
  match l with
  | [] => [e]
  | h :: t => if (snd e <? snd h)%nat then h :: insert_desc e t else e :: h :: t
  end.

Definition sort_desc (l : list (A * nat)) : list (A * nat) :=
  fold_right insert_desc [] l.

(** [value_counts()] (with [dropna=True], [sort=True]) on an array of
    cells: index value and count, most frequent first. *)
Definition value_counts {orden : CountSort} (cells : list (option A))
  : list (A * nat) :=
  sort_values A (value_count (dropna cells)).
End Hashing.

(** The library whose sort is stable. *)
#[global] Instance stable_sort : CountSort := fun A => @sort_desc A.


(** [.head(n)] *)
Definition head {A : Type} (n : nat) (l : list A) : list A := firstn n l.

(** *** Reductions of a numeric column ([skipna=True]) *)

(** Written in exact arithmetic.  The library computes them in binary64,
    with sums in an order of its own, and converts an integer result with
    [float]: the figures of a row can differ from these in their last
    digits.  Which of them are NaN, and the order of the minimum and the
    maximum, are the same. *)

Definition Rsum (xs : list R) : R := fold_right Rplus 0%R xs.

(** [mean()]: NaN when there is no value. *)
Definition mean (x : list (option R)) : pyfloat :=
  match dropna x with
  | [] => nan
  | xs => Fin (Rsum xs / INR (length xs))
  end.

(** [std()] with [ddof=1]: NaN when [count - ddof <= 0]. *)
Definition std (x : list (option R)) : pyfloat :=
  let xs := dropna x in
  let n := length xs in
  if (n <=? 1)%nat then nan
  else
    let avg := (Rsum xs / INR n)%R in
    Fin (sqrt (Rsum (map (fun v => (avg - v) * (avg - v))%R xs) / (INR n - 1))).

(** [min()] and [max()]: NaN when there is no value. *)
Definition min (x : list (option R)) : pyfloat :=
  match dropna x with
  | [] => nan
  | h :: t => Fin (fold_left Rmin t h)
  end.

Definition max (x : list (option R)) : pyfloat :=
  match dropna x with
  | [] => nan
  | h :: t => Fin (fold_left Rmax t h)
  end.

Definition Rleb (a b : R) : bool := if Rle_dec a b then true else false.

Fixpoint insert_asc (a : R) (l : list R) : list R :=
  match l with
  | [] => [a]
  | h :: t => if Rleb a h then a :: h :: t else h :: insert_asc a t
  end.

Definition sort_asc (l : list R) : list R := fold_right insert_asc [] l.

(** [median()]: the middle value of the sorted values, the mean of the two
    middle ones when their number is even, NaN when there is none. *)
Definition median (x : list (option R)) : pyfloat :=
  let s := sort_asc (dropna x) in
  let n := length s in
  if (n =? 0)%nat then nan
  else if Nat.even n
       then Fin ((nth (n / 2 - 1) s 0 + nth (n / 2) s 0) / 2)%R
       else Fin (nth (n / 2) s 0%R).

(** *** DataFrame *)

(** A table: the length of its row index and its labelled columns.
    [pd.read_csv] gives the columns distinct labels. *)
Record DataFrame : Type := {
  index_len : nat;
  data : list (string * Series)
}.

(** [df.columns] *)
Definition columns (df : DataFrame) : list string := map fst (data df).

(** [len(df)] *)
Definition len_df (df : DataFrame) : nat := index_len df.

(** The table is rectangular and its labels are distinct. *)
Definition wf (df : DataFrame) : Prop :=
  Forall (fun c => len (snd c) = index_len df) (data df) /\ NoDup (columns df).

(** [pd.DataFrame()] *)
Definition empty_df : DataFrame := {| index_len := 0; data := [] |}.

End Pandas.

Import Pandas.

(* ================================================================= *)
(** ** The summarizer *)

(** The single row [resumen_general] returns. *)
Record ResumenGeneral : Type := {
  Filas : nat;
  Columnas : nat;
  Nulos_totales : nat
}.

Definition list_sum_nat (l : list nat) : nat := fold_right Nat.add 0%nat l.

(** [df.isna().sum()]: the number of missing cells of each column. *)
Definition isna_sum (df : DataFrame) : list nat :=
  map (fun c => sum_bool (isna (snd c))) (data df).

Definition resumen_general (df : DataFrame) : ResumenGeneral :=
  {| Filas := len_df df;
     Columnas := length (columns df);
     Nulos_totales := list_sum_nat (isna_sum df) |}.

(** The rows of the three tables [resumen_por_tipo] returns. *)
Record FilaNumerica : Type := {
  num_Columna : string;
  num_count : nat;
  num_mean : pyfloat;
  num_std : pyfloat;
  num_min : pyfloat;
  num_median : pyfloat;
  num_max : pyfloat
}.

Record FilaTextoRepetido : Type := {
  rep_Columna : string;
  rep_Categorias_unicas : nat;
  rep_Top_5_valores : string
}.

Record FilaTextoUnico : Type := {
  uni_Columna : string;
  uni_Valores_no_nulos : nat;
  uni_Nulos : nat;
  uni_Valores_unicos : nat
}.

Record Resumen : Type := {
  df_num : list FilaNumerica;
  df_text_rep : list FilaTextoRepetido;
  df_text_uni : list FilaTextoUnico
}.

(** [n_unicos < (n_total * 0.8)].  The product is a binary64 in the script;
    against an integer the comparison agrees with the exact one for every
    row count below 2^50. *)
Definition criterio_repetidos (n_unicos n_total : nat) : bool :=
  negb (Qle_bool (inject_Z (Z.of_nat n_total) * (8 # 10))
                 (inject_Z (Z.of_nat n_unicos))).

(** [f"{v} ({c})"] *)
Definition formato_valor (e : pyobj * nat) : string :=
  (py_str (fst e) ++ " (" ++ str_of_nat (snd e) ++ ")")%string.

(** The body of the loop of [resumen_por_tipo], for the column [col]. *)
Definition resumen_columna {orden : CountSort} (acc : Resumen) (c : string * Series)
  : Resumen :=
  let col := fst c in
  let serie := snd c in
  let nulos := sum_bool (isna serie) in
  let no_nulos := (len serie - nulos)%nat in
  match numeric_values serie with
  | Some x =>
      let guard (f : pyfloat) := if negb (empty serie) then f else nan in
      {| df_num := df_num acc ++
           [ {| num_Columna := col;
                num_count := count serie;
                num_mean := guard (mean x);
                num_std := guard (std x);
                num_min := guard (min x);
                num_median := guard (median x);
                num_max := guard (max x) |} ];
         df_text_rep := df_text_rep acc;
         df_text_uni := df_text_uni acc |}
  | None =>
      match string_values serie with
      | Some v =>
          let valores_unicos := unique pyobj_eqb (dropna v) in
          let n_unicos := length valores_unicos in
          let n_total := len serie in
          if criterio_repetidos n_unicos n_total then
            let top_values := head 5 (value_counts pyobj_eqb v) in
            let top_str := String.concat ", " (map formato_valor top_values) in
            {| df_num := df_num acc;
               df_text_rep := df_text_rep acc ++
                 [ {| rep_Columna := col;
                      rep_Categorias_unicas := n_unicos;
                      rep_Top_5_valores := top_str |} ];
               df_text_uni := df_text_uni acc |}
          else
            {| df_num := df_num acc;
               df_text_rep := df_text_rep acc;
               df_text_uni := df_text_uni acc ++
                 [ {| uni_Columna := col;
                      uni_Valores_no_nulos := no_nulos;
                      uni_Nulos := nulos;
                      uni_Valores_unicos := n_unicos |} ] |}
      | None => acc
      end
  end.

Definition resumen_vacio : Resumen :=
  {| df_num := []; df_text_rep := []; df_text_uni := [] |}.

(** The loop over [df.columns].  [df[col]] is the column of the label [col]
    in a table whose labels are distinct ([wf]), as [pd.read_csv] makes
    them; under a label that is repeated [df[col]] is a table, not a column,
    and the script appends nothing for it: the statements that count the
    rows of a table carry [wf]. *)
Definition resumen_por_tipo {orden : CountSort} (df : DataFrame) : Resumen :=
  fold_left resumen_columna (data df) resumen_vacio.

(** *** Reference counts, by enumeration of the cells *)

(** Whether the cell of row [i] and column [j] is missing ([df.iat[i, j]]). *)
Definition cell_isna (df : DataFrame) (i j : nat) : bool :=
  match nth_error (data df) j with
  | Some c => nth i (isna (snd c)) false
  | None => false
  end.

Definition indicator (b : bool) : nat := if b then 1 else 0.

(** One pass over all the cells, row by row. *)
Definition brute_force_nulls (df : DataFrame) : nat :=
  list_sum_nat
    (map (fun i =>
            list_sum_nat
              (map (fun j => indicator (cell_isna df i j))
                   (seq 0 (length (data df)))))
         (seq 0 (index_len df))).

(** *** Reading the three tables *)

Definition has_num (r : Resumen) (col : string) : bool :=
  existsb (fun f => String.eqb (num_Columna f) col) (df_num r).

Definition has_rep (r : Resumen) (col : string) : bool :=
  existsb (fun f => String.eqb (rep_Columna f) col) (df_text_rep r).

Definition has_uni (r : Resumen) (col : string) : bool :=
  existsb (fun f => String.eqb (uni_Columna f) col) (df_text_uni r).

(** No row of any of the three tables is about the column [col]. *)
Definition excluded (r : Resumen) (col : string) : bool :=
  negb (has_num r col || has_rep r col || has_uni r col).

(** The rows of each table that are about the column [col]. *)
Definition rows_num (r : Resumen) (col : string) : list FilaNumerica :=
  filter (fun f => String.eqb (num_Columna f) col) (df_num r).

Definition rows_rep (r : Resumen) (col : string) : list FilaTextoRepetido :=
  filter (fun f => String.eqb (rep_Columna f) col) (df_text_rep r).

Definition rows_uni (r : Resumen) (col : string) : list FilaTextoUnico :=
  filter (fun f => String.eqb (uni_Columna f) col) (df_text_uni r).

(** Every cell of the column is missing. *)
Definition all_null (s : Series) : bool := forallb (fun b : bool => b) (isna s).

Definition pyobj_eq_dec (a b : pyobj) : {a = b} + {a <> b}.
Proof. decide equality; [apply string_dec | apply Z.eq_dec]. Defined.

(** A count as a rational, to compare it with [0.8 * n_total]. *)
Definition QN (n : nat) : Q := inject_Z (Z.of_nat n).

(** The position of the first [x] in [l] (its length when there is none). *)
Fixpoint index_of (x : pyobj) (l : list pyobj) : nat :=
  match l with
  | [] => 0
  | h :: t => if pyobj_eqb x h then 0 else S (index_of x t)
  end.

(** Two entries of a table of counts in descending order. *)
Definition desc {A : Type} (a b : A * nat) : Prop := snd b <= snd a.

(** What every library does: its sort rearranges the table of counts and
    leaves the counts in descending order. *)
Definition sorts_by_count (orden : CountSort) : Prop :=
  forall (A : Type) (l : list (A * nat)),
    Permutation (sort_values A l) l /\ StronglySorted desc (sort_values A l).

(** The table of counts of a column: each of [keys] with its number of
    occurrences among the non-null cells [xs]. *)
Definition counts_of (xs keys : list pyobj) : list (pyobj * nat) :=
  map (fun x => (x, count_occ pyobj_eq_dec xs x)) keys.

(** *** Tables used as examples *)

(** Ten rows of text, seven distinct values. *)
Definition ex_letras : Series :=
  Object (map (fun s => Some (PyStr s)) ["a"; "a"; "a"; "b"; "b"; "c"; "d"; "e"; "f"; "g"]).

Definition ex_letras_df : DataFrame :=
  {| index_len := 10; data := [("letras", ex_letras)] |}.

Definition ex_letras_fila : FilaTextoRepetido :=
  {| rep_Columna := "letras";
     rep_Categorias_unicas := 7;
     rep_Top_5_valores := "a (3), b (2), c (1), d (1), e (1)" |}.

(** A [string]-dtype column of three missing cells, a float column of three
    NaN (what read_csv makes of a blank column), and an [object] column that
    mixes a [str], a missing cell and an [int]. *)
Definition ex_nulos_df : DataFrame :=
  {| index_len := 3;
     data := [("texto", StringArray [None; None; None]);
              ("vacia", Float64 [None; None; None]);
              ("mixta", Object [Some (PyStr "x"); None; Some (PyInt 3)])] |}.



(** Ten rows of text, all distinct. *)
Definition ex_distintos_df : DataFrame :=
  {| index_len := 10;
     data := [("id", Object (map (fun s => Some (PyStr s))
                               ["a"; "b"; "c"; "d"; "e"; "f"; "g"; "h"; "i"; "j"]))] |}.

(** One integer column holding the single value 7. *)
Definition ex_siete_df : DataFrame :=
  {| index_len := 1; data := [("x", Int64 [7%Z])] |}.

(** A header and no row: read_csv gives an empty [object] column. *)
Definition ex_sin_filas_df : DataFrame :=
  {| index_len := 0; data := [("texto", Object [])] |}.

(* ================================================================= *)
(** ** The catalog client and the local loader *)

Module Catalog.

(** *** Exceptions, outcomes and the page log *)

(** The classes of the exceptions the calls of the script can raise.  All
    derive from [Exception] but [KeyboardInterrupt]. *)
Inductive exn_class : Type :=
| RequestException   (* requests: ConnectionError, Timeout, HTTPError, InvalidURL *)
| ValueError         (* JSONDecodeError, UnicodeDecodeError, int() of a bad str *)
| AttributeError
| KeyError
| TypeError
| ParserError        (* pandas.errors: ParserError, EmptyDataError *)
| KeyboardInterrupt.

Record exn : Type := {
  exn_cls : exn_class;
  exn_str : string        (* str(e) *)
}.

(** [isinstance(e, Exception)]: what [except Exception] catches. *)
Definition is_Exception (e : exn) : bool :=
  match exn_cls e with
  | KeyboardInterrupt => false
  | _ => true
  end.

Inductive outcome (A : Type) : Type :=
| Ok (a : A)
| Raise (e : exn).
Arguments Ok {A} a.
Arguments Raise {A} e.

Inductive nivel : Type := Warning | Info | Error.

(** A message shown on the page by [st.warning], [st.info] or [st.error]. *)
Record mensaje : Type := {
  msg_nivel : nivel;
  msg_texto : string
}.

(** A computation that may raise and that writes on the page. *)
Definition M (A : Type) : Type := list mensaje -> outcome A * list mensaje.

Definition ret {A : Type} (a : A) : M A := fun log => (Ok a, log).

Definition bind {A B : Type} (m : M A) (k : A -> M B) : M B :=
  fun log =>
    match m log with
    | (Ok a, log') => k a log'
    | (Raise e, log') => (Raise e, log')
    end.

Definition lift {A : Type} (o : outcome A) : M A := fun log => (o, log).

Definition raise {A : Type} (c : exn_class) (s : string) : M A :=
  lift (Raise {| exn_cls := c; exn_str := s |}).

Definition st_message (n : nivel) (s : string) : M unit :=
  fun log => (Ok tt, log ++ [ {| msg_nivel := n; msg_texto := s |} ]).

Definition st_warning : string -> M unit := st_message Warning.
Definition st_info : string -> M unit := st_message Info.
Definition st_error : string -> M unit := st_message Error.

(** [try: body  except Exception as e: handler e] *)
Definition try_except {A : Type} (body : M A) (handler : exn -> M A) : M A :=
  fun log =>
    match body log with
    | (Ok a, log') => (Ok a, log')
    | (Raise e, log') =>
        if is_Exception e then handler e log' else (Raise e, log')
    end.

Declare Scope py_scope.
Delimit Scope py_scope with py.
Notation "x <- m ;; k" := (bind m (fun x => k))
  (at level 61, m at next level, right associativity) : py_scope.
Notation "m ;;; k" := (bind m (fun _ => k))
  (at level 61, right associativity) : py_scope.
Local Open Scope py_scope.

(** *** JSON values as Python objects *)

#[local] Set Warnings "-register-all".

Inductive json : Type :=
| JNull
| JBool (b : bool)
| JInt (z : Z)
| JFloat (q : Q)                     (* a finite float *)
| JStr (s : string)
| JList (l : list json)
| JDict (items : list (string * json)). (* the items of the dict, keys distinct *)

(** [bool(v)], the test of [if v:]. *)
Definition truthy (v : json) : bool :=
  match v with
  | JNull => false
  | JBool b => b
  | JInt z => negb (z =? 0)%Z
  | JFloat q => negb (Qeq_bool q 0)
  | JStr s => negb (String.eqb s "")
  | JList l => match l with [] => false | _ => true end
  | JDict l => match l with [] => false | _ => true end
  end.

(** [v.get(key, default)]: only a dict has the method. *)
Definition py_get (v : json) (key : string) (default : json) : M json :=
  match v with
  | JDict items =>
      match lookup key items with
      | Some x => ret x
      | None => ret default
      end
  | _ => raise AttributeError "object has no attribute 'get'"
  end.

(** [v[key]] for a [str] key. *)
Definition py_getitem (v : json) (key : string) : M json :=
  match v with
  | JDict items =>
      match lookup key items with
      | Some x => ret x
      | None => raise KeyError ("'" ++ key ++ "'")%string
      end
  | _ => raise TypeError "indices must be integers or object is not subscriptable"
  end.

(** *** The world outside the script *)

(** A [requests.Response]. *)
Record Response : Type := {
  status_code : Z;
  json_ : outcome json;                 (* what [r.json()] does *)
  headers : list (string * string);
  content : string
}.

(** [r.raise_for_status()] *)
Definition raise_for_status (r : Response) : M unit :=
  if ((400 <=? status_code r) && (status_code r <? 600))%Z
  then raise RequestException "HTTPError"
  else ret tt.

Definition lower_ascii (c : ascii) : ascii :=
  let n := nat_of_ascii c in
  if (65 <=? n) && (n <=? 90) then ascii_of_nat (n + 32) else c.

Fixpoint lower (s : string) : string :=
  match s with
  | EmptyString => EmptyString
  | String c t => String (lower_ascii c) (lower t)
  end.

(** [r.headers.get(name)]: the names of headers are compared without
    regard to case. *)
Fixpoint header_get (name : string) (hs : list (string * string)) : option string :=
  match hs with
  | [] => None
  | (k, v) :: t => if String.eqb (lower k) (lower name) then Some v else header_get name t
  end.

Section World.

(** [requests.get(url, timeout=t)] and
    [requests.head(url, allow_redirects=True, timeout=t)]. *)
Variable requests_get : string -> Z -> outcome Response.
Variable requests_head : string -> Z -> outcome Response.

(** [pd.read_csv] on the bytes of a file. *)
Variable read_csv : string -> outcome DataFrame.

(** [int(s)] for a [str]; [None] stands for its [ValueError]. *)
Variable int_of_str : string -> option Z.

(** [str(v)] for a value that is not a [str]. *)
Variable py_repr : json -> string.

(** [f"{v}"] *)
Definition format_json (v : json) : string :=
  match v with
  | JStr s => s
  | _ => py_repr v
  end.

(** [int(v)] *)
Definition py_int (v : json) : outcome Z :=
  match v with
  | JInt z => Ok z
  | JBool b => Ok (if b then 1 else 0)%Z
  | JFloat q => Ok (if Qle_bool 0 q then Qfloor q else Qceiling q)
  | JStr s =>
      match int_of_str s with
      | Some z => Ok z
      | None =>
          Raise {| exn_cls := ValueError;
                   exn_str := "invalid literal for int() with base 10" |}
      end
  | JNull | JList _ | JDict _ =>
      Raise {| exn_cls := TypeError;
               exn_str := "int() argument must be a string or a real number" |}
  end.

(** [requests.get(url, ...)] where [url] is any Python value: only a [str]
    is a URL. *)
Definition get_json_url (url : json) (timeout : Z) : M Response :=
  match url with
  | JStr u => lift (requests_get u timeout)
  | _ => raise RequestException "Invalid URL"
  end.

Definition head_json_url (url : json) (timeout : Z) : M Response :=
  match url with
  | JStr u => lift (requests_head u timeout)
  | _ => raise RequestException "Invalid URL"
  end.

(** *** The functions of the script *)

Definition obtener_instituciones_try (base_url : string) : M json :=
  let url := (base_url ++ "/api/3/action/organization_list")%string in
  r <- lift (requests_get url 10) ;;
  raise_for_status r ;;;
  d <- lift (json_ r) ;;
  py_get d "result" (JList []).

Definition obtener_instituciones (base_url : string) : M json :=
  try_except (obtener_instituciones_try base_url)
    (fun e =>
       st_warning ("No se pudieron obtener instituciones: " ++ exn_str e)%string ;;;
       ret (JList [])).

Definition obtener_datasets_institucion_try (base_url org_id : string) : M json :=
  let url :=
    (base_url ++ "/api/3/action/package_search?fq=organization:" ++ org_id
     ++ "&rows=1000")%string in
  r <- lift (requests_get url 10) ;;
  raise_for_status r ;;;
  d <- lift (json_ r) ;;
  res <- py_get d "result" (JDict []) ;;
  py_get res "packages" (JList []).

Definition obtener_datasets_institucion (base_url org_id : string) : M json :=
  try_except (obtener_datasets_institucion_try base_url org_id)
    (fun e =>
       st_warning ("No se pudieron obtener datasets: " ++ exn_str e)%string ;;;
       ret (JList [])).

Definition obtener_recursos_dataset_try (base_url dataset_id : string) : M json :=
  let url := (base_url ++ "/api/3/action/package_show?id=" ++ dataset_id)%string in
  r <- lift (requests_get url 10) ;;
  raise_for_status r ;;;
  d <- lift (json_ r) ;;
  res <- py_get d "result" (JDict []) ;;
  py_get res "resources" (JList []).

Definition obtener_recursos_dataset (base_url dataset_id : string) : M json :=
  try_except (obtener_recursos_dataset_try base_url dataset_id)
    (fun e =>
       st_warning ("No se pudieron obtener recursos: " ++ exn_str e)%string ;;;
       ret (JList [])).

(** [str(n)] for an [int]. *)
Definition str_of_Z (z : Z) : string := NilZero.string_of_int (Z.to_int z).

Definition is_digit (c : ascii) : bool :=
  let n := nat_of_ascii c in (48 <=? n) && (n <=? 57).

Fixpoint all_digits (s : string) : bool :=
  match s with
  | EmptyString => true
  | String c t => is_digit c && all_digits t
  end.

(** [s.isdigit()] for an ASCII string. *)
Definition isdigit (s : string) : bool :=
  match s with
  | EmptyString => false
  | _ => all_digits s
  end.

(** The nearest integer, ties to the even one. *)
Definition round_half_even (q : Q) : Z :=
  let f := Qfloor q in
  let r := (q - inject_Z f)%Q in
  if Qle_bool r (1 # 2)
  then if Qeq_bool r (1 # 2) then (if Z.even f then f else f + 1)%Z else f
  else (f + 1)%Z.

(** [f"{mb:.2f}"] for [mb >= 0]. *)
Definition format_2f (mb : Q) : string :=
  let h := round_half_even (mb * 100)%Q in
  let d := (h mod 100)%Z in
  (str_of_Z (h / 100) ++ "." ++ (if (d <? 10)%Z then "0" else "") ++ str_of_Z d)%string.

(** The argument is the size as [obtener_tamano_recurso_ckan] returns it:
    [None] or an [int].  The quotient [int(size) / (1024 * 1024)] is a
    binary64 in the script; it is exact for a size below 2^53.  From there
    on the script rounds the quotient, and for an integer too large for a
    float the division raises [OverflowError]: what is stated of the text
    of a positive size keeps to sizes below 2^53. *)
Definition obtener_tamano_legible (size : option Z) : string :=
  match size with
  | Some n =>
      if negb (n =? 0)%Z && isdigit (str_of_Z n) then
        let mb := (inject_Z n / inject_Z (1024 * 1024))%Q in
        (format_2f mb ++ " MB")%string
      else "Tamaño desconocido"
  | None => "Tamaño desconocido"
  end.

(** [r2.headers.get("Content-Length", 0)] *)
Definition content_length (r2 : Response) : json :=
  match header_get "Content-Length" (headers r2) with
  | Some v => JStr v
  | None => JInt 0
  end.

(** The [try] block; [None] is for the path that leaves it without a
    [return] and reaches the final [return None]. *)
Definition obtener_tamano_recurso_ckan_try (resource_id base_url : string)
  : M (option Z) :=
  let url := (base_url ++ "/api/3/action/resource_show?id=" ++ resource_id)%string in
  r <- lift (requests_get url 10) ;;
  raise_for_status r ;;;
  data <- lift (json_ r) ;;
  res <- py_get data "result" (JDict []) ;;
  size <- py_get res "size" JNull ;;
  if truthy size then
    n <- lift (py_int size) ;;
    ret (Some n)
  else
    res' <- py_get data "result" (JDict []) ;;
    recurso_url <- py_get res' "url" JNull ;;
    if truthy recurso_url then
      r2 <- head_json_url recurso_url 10 ;;
      n <- lift (py_int (content_length r2)) ;;
      ret (Some n)
    else ret None.

Definition obtener_tamano_recurso_ckan (resource_id base_url : string)
  : M (option Z) :=
  try_except (obtener_tamano_recurso_ckan_try resource_id base_url)
    (fun e =>
       st_warning ("No se pudo obtener el tamaño del recurso: " ++ exn_str e)%string ;;;
       ret None).

Definition descargar_recurso_ckan_try (resource_id base_url : string)
  : M (option DataFrame) :=
  let api_url := (base_url ++ "/api/3/action/resource_show?id=" ++ resource_id)%string in
  r <- lift (requests_get api_url 10) ;;
  raise_for_status r ;;;
  data <- lift (json_ r) ;;
  res <- py_getitem data "result" ;;
  url_csv <- py_getitem res "url" ;;
  st_info ("Descargando recurso desde " ++ format_json url_csv ++ " ...")%string ;;;
  resp <- get_json_url url_csv 60 ;;
  raise_for_status resp ;;;
  df <- lift (read_csv (content resp)) ;;
  ret (Some df).

Definition descargar_recurso_ckan (resource_id base_url : string)
  : M (option DataFrame) :=
  try_except (descargar_recurso_ckan_try resource_id base_url)
    (fun e =>
       st_error ("Error al descargar o leer el recurso CKAN: " ++ exn_str e)%string ;;;
       ret None).

Definition leer_csv_local_try (archivo : string) : M (option DataFrame) :=
  df <- lift (read_csv archivo) ;;
  ret (Some df).

Definition leer_csv_local (archivo : string) : M (option DataFrame) :=
  try_except (leer_csv_local_try archivo)
    (fun e =>
       st_error ("No se pudo leer el archivo: " ++ exn_str e)%string ;;;
       ret None).

(** What the world raises is a transport failure, a payload that does not
    parse or a file that does not parse: all of them are [Exception]s. *)
Definition raises_exceptions {A : Type} (o : outcome A) : Prop :=
  forall e, o = Raise e -> is_Exception e = true.

Definition failures_are_exceptions : Prop :=
  (forall url t, raises_exceptions (requests_get url t))
  /\ (forall url t, raises_exceptions (requests_head url t))
  /\ (forall url t r, requests_get url t = Ok r -> raises_exceptions (json_ r))
  /\ (forall bytes, raises_exceptions (read_csv bytes)).

End World.

(** The catalog reports no size: the key is missing, or its value is null,
    zero or empty. *)
Definition size_absent (res : list (string * json)) : bool :=
  match lookup "size" res with
  | Some v => negb (truthy v)
  | None => true
  end.

(** The catalog gives no URL for the resource. *)
Definition url_absent (res : list (string * json)) : bool :=
  match lookup "url" res with
  | Some v => negb (truthy v)
  | None => true
  end.

(** The status of the response is not an error. *)
Definition status_ok (r : Response) : bool :=
  negb ((400 <=? status_code r) && (status_code r <? 600))%Z.

(** [op] runs [body]; when [body] raises it returns [vacio] instead, after
    a message of level [n] that starts with [prefijo]. *)
Definition catches {A : Type} (op body : M A) (vacio : A) (n : nivel) (prefijo : string)
  : Prop :=
  forall log,
    match body log with
    | (Ok a, log') => op log = (Ok a, log')
    | (Raise e, log') =>
        op log
        = (Ok vacio,
           log' ++ [ {| msg_nivel := n; msg_texto := (prefijo ++ exn_str e)%string |} ])
    end.

(** A computation that raises nothing but [Exception]s. *)
Definition safe {A : Type} (m : M A) : Prop :=
  forall log e log', m log = (Raise e, log') -> is_Exception e = true.

End Catalog.

Import Catalog.

(** *** Worlds used as examples *)

Definition ex_base_url : string := "https://www.datos.gob.mx/".

Definition ex_respuesta (status : Z) (body : outcome json)
    (hs : list (string * string)) : Response :=
  {| status_code := status; json_ := body; headers := hs; content := "" |}.

(** A catalog in trouble: the list of organizations cannot be reached, the
    search answers 500, the dataset "d1" comes with a body that is not JSON,
    and every other answer is an object with no "result". *)
Definition ex_get_roto (url : string) (t : Z) : outcome Response :=
  if String.eqb url (ex_base_url ++ "/api/3/action/organization_list") then
    Raise {| exn_cls := RequestException; exn_str := "Connection refused" |}
  else if String.eqb url
            (ex_base_url
             ++ "/api/3/action/package_search?fq=organization:inegi&rows=1000") then
    Ok (ex_respuesta 500 (Ok JNull) [])
  else if String.eqb url (ex_base_url ++ "/api/3/action/package_show?id=d1") then
    Ok (ex_respuesta 200
          (Raise {| exn_cls := ValueError; exn_str := "Expecting value" |}) [])
  else
    Ok (ex_respuesta 200 (Ok (JDict [("success", JBool false)])) []).

Definition ex_head_roto (url : string) (t : Z) : outcome Response :=
  Raise {| exn_cls := RequestException; exn_str := "Connection refused" |}.

Definition ex_read_csv_roto (bytes : string) : outcome DataFrame :=
  Raise {| exn_cls := ParserError; exn_str := "Error tokenizing data" |}.

(** A catalog that reports no size for the resource "r1", whose file is
    served without a Content-Length. *)
Definition ex_recurso_sin_tamano : list (string * json) :=
  [("id", JStr "r1"); ("size", JNull); ("url", JStr "https://example.org/r1.csv")].

Definition ex_get_sin_tamano (url : string) (t : Z) : outcome Response :=
  Ok (ex_respuesta 200
        (Ok (JDict [("success", JBool true);
                    ("result", JDict ex_recurso_sin_tamano)])) []).

Definition ex_head_sin_tamano (url : string) (t : Z) : outcome Response :=
  Ok (ex_respuesta 200
        (Raise {| exn_cls := ValueError; exn_str := "Expecting value" |})
        [("Content-Type", "text/csv")]).

(* ================================================================= *)
(** ** The summarizer on the object store *)

(** The same two functions with the Python objects they touch made
    explicit: the table they are given is an object of the store, read
    through its reference; the three lists of [resumen_por_tipo] are objects
    that [append] mutates; the tables returned are new objects. *)

Module Store.

Inductive obj : Type :=
| Tabla (df : DataFrame)                  (* a loaded table *)
| ListaNum (l : list FilaNumerica)        (* [resumen_numericas] *)
| ListaRep (l : list FilaTextoRepetido)   (* [resumen_texto_repetido] *)
| ListaUni (l : list FilaTextoUnico)      (* [resumen_texto_unico] *)
| TablaNum (l : list FilaNumerica)        (* [pd.DataFrame(resumen_numericas)] *)
| TablaRep (l : list FilaTextoRepetido)
| TablaUni (l : list FilaTextoUnico)
| TablaGeneral (r : ResumenGeneral).      (* [pd.DataFrame(data)] *)

Definition ref : Type := nat.
Definition heap : Type := list obj.

(** A computation on the store; [None] is a Python error. *)
Definition ST (A : Type) : Type := heap -> option (A * heap).

Definition unit_st {A : Type} (a : A) : ST A := fun h => Some (a, h).

Definition bind_st {A B : Type} (m : ST A) (k : A -> ST B) : ST B :=
  fun h =>
    match m h with
    | Some (a, h') => k a h'
    | None => None
    end.

Definition fail_st {A : Type} : ST A := fun _ => None.

Declare Scope st_scope.
Delimit Scope st_scope with st.
Notation "x <- m ;; k" := (bind_st m (fun x => k))
  (at level 61, m at next level, right associativity) : st_scope.
Notation "m ;;; k" := (bind_st m (fun _ => k))
  (at level 61, right associativity) : st_scope.
Local Open Scope st_scope.

Fixpoint update {A : Type} (n : nat) (x : A) (l : list A) : list A :=
  match l, n with
  | [], _ => []
  | _ :: t, 0 => x :: t
  | a :: t, S n' => a :: update n' x t
  end.

(** A new object. *)
Definition alloc (o : obj) : ST ref := fun h => Some (length h, h ++ [o]).

Definition load (r : ref) : ST obj :=
  fun h =>
    match nth_error h r with
    | Some o => Some (o, h)
    | None => None
    end.

Definition store (r : ref) (o : obj) : ST unit :=
  fun h => if r <? length h then Some (tt, update r o h) else None.

Definition load_tabla (r : ref) : ST DataFrame :=
  o <- load r ;;
  match o with
  | Tabla df => unit_st df
  | _ => fail_st
  end.

(** [lista.append(fila)] *)
Definition append_num (r : ref) (f : FilaNumerica) : ST unit :=
  o <- load r ;;
  match o with
  | ListaNum l => store r (ListaNum (l ++ [f]))
  | _ => fail_st
  end.

Definition append_rep (r : ref) (f : FilaTextoRepetido) : ST unit :=
  o <- load r ;;
  match o with
  | ListaRep l => store r (ListaRep (l ++ [f]))
  | _ => fail_st
  end.

Definition append_uni (r : ref) (f : FilaTextoUnico) : ST unit :=
  o <- load r ;;
  match o with
  | ListaUni l => store r (ListaUni (l ++ [f]))
  | _ => fail_st
  end.

(** [df[col]]: the column of that label. *)
Definition getitem (df : ref) (col : string) : ST Series :=
  d <- load_tabla df ;;
  match lookup col (data d) with
  | Some serie => unit_st serie
  | None => fail_st
  end.

Fixpoint for_each {A : Type} (xs : list A) (body : A -> ST unit) : ST unit :=
  match xs with
  | [] => unit_st tt
  | x :: t => body x ;;; for_each t body
  end.

Definition resumen_general (df : ref) : ST ref :=
  d <- load_tabla df ;;
  alloc (TablaGeneral
           {| Filas := len_df d;
              Columnas := length (columns d);
              Nulos_totales := list_sum_nat (isna_sum d) |}).

(** The body of the loop of [resumen_por_tipo]. *)
Definition cuerpo (resumen_numericas resumen_texto_repetido resumen_texto_unico : ref)
    (df : ref) (col : string) : ST unit :=
  serie <- getitem df col ;;
  let nulos := sum_bool (isna serie) in
  let no_nulos := len serie - nulos in
  match numeric_values serie with
  | Some x =>
      let guard (f : pyfloat) := if negb (empty serie) then f else nan in
      append_num resumen_numericas
        {| num_Columna := col;
           num_count := count serie;
           num_mean := guard (mean x);
           num_std := guard (std x);
           num_min := guard (min x);
           num_median := guard (median x);
           num_max := guard (max x) |}
  | None =>
      match string_values serie with
      | Some v =>
          let valores_unicos := unique pyobj_eqb (dropna v) in
          let n_unicos := length valores_unicos in
          let n_total := len serie in
          if criterio_repetidos n_unicos n_total then
            let top_values := head 5 (value_counts pyobj_eqb v) in
            let top_str := String.concat ", " (map formato_valor top_values) in
            append_rep resumen_texto_repetido
              {| rep_Columna := col;
                 rep_Categorias_unicas := n_unicos;
                 rep_Top_5_valores := top_str |}
          else
            append_uni resumen_texto_unico
              {| uni_Columna := col;
                 uni_Valores_no_nulos := no_nulos;
                 uni_Nulos := nulos;
                 uni_Valores_unicos := n_unicos |}
      | None => unit_st tt
      end
  end.

Definition resumen_por_tipo (df : ref) : ST (ref * ref * ref) :=
  resumen_numericas <- alloc (ListaNum []) ;;
  resumen_texto_repetido <- alloc (ListaRep []) ;;
  resumen_texto_unico <- alloc (ListaUni []) ;;
  d <- load_tabla df ;;
  for_each (columns d)
    (cuerpo resumen_numericas resumen_texto_repetido resumen_texto_unico df) ;;;
  o1 <- load resumen_numericas ;;
  o2 <- load resumen_texto_repetido ;;
  o3 <- load resumen_texto_unico ;;
  match o1, o2, o3 with
  | ListaNum l1, ListaRep l2, ListaUni l3 =>
      df_num <- alloc (TablaNum l1) ;;
      df_text_rep <- alloc (TablaRep l2) ;;
      df_text_uni <- alloc (TablaUni l3) ;;
      unit_st (df_num, df_text_rep, df_text_uni)
  | _, _, _ => fail_st
  end.

(** One comparison pane: both summaries of the table at [df]. *)
Definition resumir (df : ref) : ST (ref * (ref * ref * ref)) :=
  g <- resumen_general df ;;
  t <- resumen_por_tipo df ;;
  unit_st (g, t).

(** Every object of [h] is still there, unchanged, in [h']. *)
Definition unchanged (h h' : heap) : Prop :=
  forall r o, nth_error h r = Some o -> nth_error h' r = Some o.

(** The objects that hold the result of [resumir] on a table. *)
Definition holds (h : heap) (p : ref * (ref * ref * ref)) (g : ResumenGeneral)
    (t : Resumen) : Prop :=
  nth_error h (fst p) = Some (TablaGeneral g)
  /\ nth_error h (fst (fst (snd p))) = Some (TablaNum (df_num t))
  /\ nth_error h (snd (fst (snd p))) = Some (TablaRep (df_text_rep t))
  /\ nth_error h (snd (snd p)) = Some (TablaUni (df_text_uni t)).

End Store.

(** The three lists of [resumen_por_tipo], as objects. *)
Definition estado (acc : Resumen) : Store.heap :=
  [Store.ListaNum (df_num acc); Store.ListaRep (df_text_rep acc);
   Store.ListaUni (df_text_uni acc)].


From Stdlib Require DecimalPos.

(* ================================================================= *)
(** ** Further notions used to state what the code does *)

(** The number of distinct non-null values of a string-dtype column. *)
Definition distinct_non_null (s : Series) : nat :=
  match string_values s with
  | Some v => length (nodup pyobj_eq_dec (dropna v))
  | None => 0
  end.

(** A string-dtype column whose distinct values are fewer than 80% of its
    rows, in whole numbers: [5 * n_unique < 4 * n_total]. *)
Definition repeated_text (s : Series) : bool :=
  is_string_dtype s && (5 * distinct_non_null s <? 4 * len s).

Definition unique_text (s : Series) : bool :=
  is_string_dtype s && negb (5 * distinct_non_null s <? 4 * len s).

(** The labels of the columns that pass a test, in the order of the table. *)
Definition labels_where (p : Series -> bool) (df : DataFrame) : list string :=
  map fst (filter (fun c => p (snd c)) (data df)).

(** A computation that only appends to the page, at most [k] messages. *)
Definition emits {A : Type} (m : M A) (k : nat) : Prop :=
  forall log o log',
    m log = (o, log') -> exists l, log' = log ++ l /\ length l <= k.

(** The warning of [obtener_tamano_recurso_ckan] for the exception [e]. *)
Definition aviso_tamano (e : exn) : mensaje :=
  {| msg_nivel := Warning;
     msg_texto := ("No se pudo obtener el tamaño del recurso: " ++ exn_str e)%string |}.

(** What [obtener_tamano_recurso_ckan] answers once it has the value [v] to
    convert with [int]: the number, or [None] after a warning. *)
Definition respuesta_tamano (int_of_str : string -> option Z) (v : json)
    (log : list mensaje) : outcome (option Z) * list mensaje :=
  match py_int int_of_str v with
  | Ok n => (Ok (Some n), log)
  | Raise e => (Ok None, log ++ [aviso_tamano e])
  end.

(** The value of a key of a dict, or a default: [items.get(key, default)]
    once [items] is known to be a dict. *)
Definition get_or (items : list (string * json)) (key : string) (default : json)
  : json :=
  match lookup key items with
  | Some x => x
  | None => default
  end.

(** [isinstance(v, dict)] *)
Definition is_dict (v : json) : bool :=
  match v with
  | JDict _ => true
  | _ => false
  end.

(** [isinstance(v, list)] *)
Definition is_list (v : json) : bool :=
  match v with
  | JList _ => true
  | _ => false
  end.

(** [type(v).__name__] *)
Definition type_name (v : json) : string :=
  match v with
  | JNull => "NoneType"
  | JBool _ => "bool"
  | JInt _ => "int"
  | JFloat _ => "float"
  | JStr _ => "str"
  | JList _ => "list"
  | JDict _ => "dict"
  end.

(** The character of a double quote. *)
Definition comillas : string := String (Ascii.ascii_of_nat 34) EmptyString.

(** *** More worlds used as examples *)

(** A catalog that reports 2048 bytes for every resource. *)
Definition ex_get_con_tamano (url : string) (t : Z) : outcome Response :=
  Ok (ex_respuesta 200
        (Ok (JDict [("success", JBool true);
                    ("result", JDict [("size", JInt 2048);
                                      ("url", JStr "https://example.org/r1.csv")])]))
        []).

(** A file server that answers 404 to HEAD, with a Content-Length. *)
Definition ex_head_404 (url : string) (t : Z) : outcome Response :=
  Ok (ex_respuesta 404 (Ok JNull) [("content-length", "512")]).

Definition ex_int_of_str (s : string) : option Z :=
  if String.eqb s "512" then Some 512%Z else None.

(** A catalog whose answers are all the object [{"result": null}]. *)
Definition ex_get_result_null (url : string) (t : Z) : outcome Response :=
  Ok (ex_respuesta 200 (Ok (JDict [("result", JNull)])) []).

(** A catalog that gives the URL of the file of every resource, a server
    that serves it, and a parser that reads it as the table of letters. *)
Definition ex_get_descarga (url : string) (t : Z) : outcome Response :=
  if String.eqb url "https://example.org/r1.csv" then
    Ok {| status_code := 200;
          json_ := Raise {| exn_cls := ValueError; exn_str := "Expecting value" |};
          headers := []; content := "letras" |}
  else
    Ok (ex_respuesta 200
          (Ok (JDict [("result", JDict [("url", JStr "https://example.org/r1.csv")])]))
          []).

Definition ex_read_csv_letras (bytes : string) : outcome DataFrame :=
  Ok ex_letras_df.

(* ================================================================= *)
(** ** The page script *)

(** The top-level code of [comparador.py] (lines 10-19 and 182-294), block
    by block.  What a widget returns is an argument of the block; what
    [st.*] shows is appended to the page; an exception that no [try]
    catches ends the run. *)

Module Script.

(** [st.session_state], with the five keys of lines 10-19.  The identifiers
    of datasets are [str], as [obtener_recursos_dataset] has them. *)
Record Session : Type := {
  instituciones : json;
  datasets_institucion : json;
  recursos_dataset : list (string * json);
  df_ckan : option DataFrame;
  df_local : option DataFrame
}.

(** Lines 10-19: the state of a new session. *)
Definition session_inicial : Session :=
  {| instituciones := JList [];
     datasets_institucion := JList [];
     recursos_dataset := [];
     df_ckan := None;
     df_local := None |}.

Definition set_instituciones (v : json) (s : Session) : Session :=
  {| instituciones := v;
     datasets_institucion := datasets_institucion s;
     recursos_dataset := recursos_dataset s;
     df_ckan := df_ckan s;
     df_local := df_local s |}.

Definition set_datasets_institucion (v : json) (s : Session) : Session :=
  {| instituciones := instituciones s;
     datasets_institucion := v;
     recursos_dataset := recursos_dataset s;
     df_ckan := df_ckan s;
     df_local := df_local s |}.

Definition set_recursos_dataset (v : list (string * json)) (s : Session) : Session :=
  {| instituciones := instituciones s;
     datasets_institucion := datasets_institucion s;
     recursos_dataset := v;
     df_ckan := df_ckan s;
     df_local := df_local s |}.

Definition set_df_ckan (v : option DataFrame) (s : Session) : Session :=
  {| instituciones := instituciones s;
     datasets_institucion := datasets_institucion s;
     recursos_dataset := recursos_dataset s;
     df_ckan := v;
     df_local := df_local s |}.

Definition set_df_local (v : option DataFrame) (s : Session) : Session :=
  {| instituciones := instituciones s;
     datasets_institucion := datasets_institucion s;
     recursos_dataset := recursos_dataset s;
     df_ckan := df_ckan s;
     df_local := v |}.

(** What the script puts on the page. *)
Inductive elemento : Type :=
| Mensaje (m : mensaje)                       (* st.warning, st.info, st.error *)
| Success (s : string)                        (* st.success *)
| Write (s : string)                          (* st.write *)
| Caption (s : string)                        (* st.caption *)
| Markdown (s : string)                       (* st.markdown *)
| Subheader (s : string)                      (* st.subheader *)
| Divider                                     (* st.divider *)
| Dataframe (df : DataFrame)                  (* st.dataframe(df) *)
| Table (g : ResumenGeneral)                  (* st.table(resumen_general(df)) *)
| DataframeNum (l : list FilaNumerica)        (* st.dataframe(df_num) *)
| DataframeRep (l : list FilaTextoRepetido)   (* st.dataframe(df_text_rep) *)
| DataframeUni (l : list FilaTextoUnico).     (* st.dataframe(df_text_uni) *)

(** A block of the script: it may raise, it reads and writes the session,
    it adds to the page. *)
Definition S (A : Type) : Type :=
  Session -> list elemento -> outcome A * Session * list elemento.

Definition ret_s {A : Type} (a : A) : S A := fun s p => (Ok a, s, p).

Definition bind_s {A B : Type} (m : S A) (k : A -> S B) : S B :=
  fun s p =>
    match m s p with
    | (Ok a, s', p') => k a s' p'
    | (Raise e, s', p') => (Raise e, s', p')
    end.

Declare Scope script_scope.
Delimit Scope script_scope with script.
Notation "x <- m ;; k" := (bind_s m (fun x => k))
  (at level 61, m at next level, right associativity) : script_scope.
Notation "m ;;; k" := (bind_s m (fun _ => k))
  (at level 61, right associativity) : script_scope.
Local Open Scope script_scope.

(** A call of a function of the script: its messages go to the page. *)
Definition call {A : Type} (m : M A) : S A :=
  fun s p => let (o, log) := m [] in (o, s, p ++ map Mensaje log).

Definition lift_s {A : Type} (o : outcome A) : S A := fun s p => (o, s, p).

Definition show (e : elemento) : S unit := fun s p => (Ok tt, s, p ++ [e]).

Definition get_session : S Session := fun s p => (Ok s, s, p).

Definition modify (f : Session -> Session) : S unit := fun s p => (Ok tt, f s, p).

Section World.
Variable requests_get : string -> Z -> outcome Response.
Variable read_csv : string -> outcome DataFrame.
Variable int_of_str : string -> option Z.
Variable py_repr : json -> string.

Definition base_url : string := "https://www.datos.gob.mx/".

(** Lines 190-193.  [archivo_local] is what [st.file_uploader] returned:
    [None], or the bytes of the file. *)
Definition paso1_cargar_archivo (archivo_local : option string) : S unit :=
  match archivo_local with
  | Some archivo =>
      df <- call (leer_csv_local read_csv archivo) ;;
      modify (set_df_local df) ;;;
      match df with
      | Some _ => show (Success "Archivo local cargado correctamente.")
      | None => ret_s tt
      end
  | None => ret_s tt
  end.

(** Lines 199-201. *)
Definition paso2_instituciones : S unit :=
  s <- get_session ;;
  if negb (truthy (instituciones s)) then
    v <- call (obtener_instituciones requests_get base_url) ;;
    modify (set_instituciones v)
  else ret_s tt.

(** Lines 203-207: the options of the selector,
    [["-- Selecciona --"] + st.session_state.instituciones]. *)
Definition opciones_selector : S (list json) :=
  s <- get_session ;;
  match instituciones s with
  | JList l => ret_s (JStr "-- Selecciona --" :: l)
  | v =>
      lift_s (Raise {| exn_cls := TypeError;
                       exn_str := ("can only concatenate list (not " ++ comillas
                                   ++ type_name v ++ comillas ++ ") to list")%string |})
  end.

(** Lines 195-207: the head of step 2, shown once a local table is loaded;
    it returns the options of the selector. *)
Definition paso2_selector : S (option (list json)) :=
  s <- get_session ;;
  match df_local s with
  | Some _ =>
      show Divider ;;;
      show (Subheader "Paso 2: Seleccionar recurso en la PNDA") ;;;
      paso2_instituciones ;;;
      opciones <- opciones_selector ;;
      ret_s (Some opciones)
  | None => ret_s None
  end.

(** [datasets[0].get("organization", {})] for a value that [not] finds
    true: the first element of a list, asked for its organization; a text
    gives a character, which has no [get]; a dict has no key 0; anything
    else cannot be indexed. *)
Definition primera_organizacion (datasets : json) : M json :=
  match datasets with
  | JList (x :: _) => py_get x "organization" (JDict [])
  | JStr _ => raise AttributeError "'str' object has no attribute 'get'"
  | JDict _ => raise KeyError "0"
  | v => raise TypeError ("'" ++ type_name v ++ "' object is not subscriptable")%string
  end.

(** [v != sel] for a text [sel]. *)
Definition distinto_de (v : json) (sel : string) : bool :=
  match v with
  | JStr t => negb (String.eqb t sel)
  | _ => true
  end.

(** Lines 211-216: the test that decides to load the datasets again. *)
Definition datasets_obsoletos (datasets : json) (institucion_sel : string) : M bool :=
  if negb (truthy datasets) then ret true
  else
    (org <- primera_organizacion datasets ;;
     name <- py_get org "name" JNull ;;
     ret (distinto_de name institucion_sel))%py.

(** Lines 209-220.  [institucion_sel] is what the selector returned. *)
Definition paso2_datasets (institucion_sel : string) : S unit :=
  if negb (String.eqb institucion_sel "-- Selecciona --") then
    s <- get_session ;;
    obsoletos <- call (datasets_obsoletos (datasets_institucion s) institucion_sel) ;;
    if (obsoletos : bool) then
      v <- call (obtener_datasets_institucion requests_get base_url institucion_sel) ;;
      modify (set_datasets_institucion v)
    else ret_s tt
  else ret_s tt.

(** Lines 225-231: the resources of a dataset, through the cache. *)
Definition paso2_recursos (dataset_id : string) : S json :=
  s <- get_session ;;
  match lookup dataset_id (recursos_dataset s) with
  | Some recursos => ret_s recursos
  | None =>
      v <- call (obtener_recursos_dataset requests_get base_url dataset_id) ;;
      modify (fun s' =>
                set_recursos_dataset (recursos_dataset s' ++ [(dataset_id, v)]) s') ;;;
      ret_s v
  end.

(** [f"{mb:.2f}"] for any [mb]. *)
Definition format_2f_signed (mb : Q) : string :=
  if Qle_bool 0 mb then format_2f mb else ("-" ++ format_2f (- mb))%string.

(** Lines 236-241 and the test of line 250, for the value [tamano] of
    [recurso.get("size")]: the text of the size, and whether the file is
    too large to be offered.  The quotient is a binary64 in the script; it
    is exact for a size below 2^53 in absolute value.  From there on the
    script rounds it, and for an integer too large for a float the division
    raises [OverflowError], which is left out here: what is stated of the
    text keeps to sizes below 2^53, and what is stated of the test to runs
    that return. *)
Definition tamano_recurso (tamano : json) : outcome (string * bool) :=
  if truthy tamano then
    match py_int int_of_str tamano with
    | Ok n =>
        let tamano_mb := (inject_Z n / inject_Z (1024 * 1024))%Q in
        Ok ((format_2f_signed tamano_mb ++ " MB")%string,
            negb (Qle_bool tamano_mb 200))
    | Raise e => Raise e
    end
  else Ok ("Tamaño desconocido", false).

(** Lines 257-262: what the button "Cargar desde PNDA" of the resource
    [recurso] does when pressed. *)
Definition cargar_desde_pnda (recurso : list (string * json)) : S unit :=
  id <- call (py_getitem (JDict recurso) "id") ;;
  df <- call (descargar_recurso_ckan requests_get read_csv py_repr
                (format_json py_repr id) base_url) ;;
  match df with
  | Some _ =>
      modify (set_df_ckan df) ;;;
      show (Success ("Recurso '" ++ format_json py_repr (get_or recurso "name" JNull)
                     ++ "' cargado correctamente.")%string)
  | None => ret_s tt
  end.

End World.

(** Lines 276-294: one pane of the comparison. *)
Definition panel (nombre : string) (df : DataFrame) : list elemento :=
  let t := resumen_por_tipo df in
  [Subheader ("Vista previa — " ++ nombre)%string;
   Dataframe df;
   Markdown "**Resumen general**";
   Table (resumen_general df);
   Markdown "**Análisis por tipo de columna**"]
  ++ (match df_num t with
      | [] => []
      | _ => [Markdown "🔢 **Columnas numéricas**"; DataframeNum (df_num t)]
      end)
  ++ (match df_text_rep t with
      | [] => []
      | _ => [Markdown "🔤 **Columnas de texto con valores repetidos (categóricas)**";
              DataframeRep (df_text_rep t)]
      end)
  ++ (match df_text_uni t with
      | [] => []
      | _ => [Markdown "🧩 **Columnas de texto sin valores repetidos**";
              DataframeUni (df_text_uni t)]
      end).

(** Lines 265-294: the comparison, when both tables are loaded. *)
Definition paso3_comparativa (s : Session) : list elemento :=
  match df_ckan s, df_local s with
  | Some ckan, Some local =>
      [Divider; Subheader "Paso 3: Comparativa"]
      ++ panel "PNDA" ckan ++ panel "Local" local
  | _, _ => []
  end.

End Script.


(** *** Sessions used as examples *)

(** A session with the table of letters loaded from a local file. *)
Definition ex_sesion_local : Script.Session :=
  Script.set_df_local (Some ex_letras_df) Script.session_inicial.

(** The same, with the datasets of the institution "inegi" loaded. *)
Definition ex_sesion_inegi : Script.Session :=
  Script.set_datasets_institucion
    (JList [JDict [("id", JStr "d1");
                   ("organization", JDict [("name", JStr "inegi")])]])
    ex_sesion_local.

(** A session with the table of letters loaded from the catalog. *)
Definition ex_sesion_pnda : Script.Session :=
  Script.set_df_ckan (Some ex_letras_df) Script.session_inicial.

Definition ex_py_repr (v : json) : string := "None".

(* ================================================================= *)
(** ** Facts about the pandas operations *)

Lemma isna_length (s : Series) : length (isna s) = len s.
Proof. destruct s; simpl; apply length_map. Qed.

Lemma list_sum_nat_app (l1 l2 : list nat) :
  list_sum_nat (l1 ++ l2) = list_sum_nat l1 + list_sum_nat l2.
Proof. induction l1 as [|a l1 IH]; simpl; [reflexivity | rewrite IH; lia]. Qed.

Lemma list_sum_nat_zero {A : Type} (l : list A) :
  list_sum_nat (map (fun _ => 0) l) = 0.
Proof. induction l; simpl; auto. Qed.

Lemma list_sum_nat_plus {A : Type} (f g : A -> nat) (l : list A) :
  list_sum_nat (map (fun a => f a + g a) l)
  = list_sum_nat (map f l) + list_sum_nat (map g l).
Proof. induction l as [|a l IH]; simpl; [reflexivity | rewrite IH; lia]. Qed.

(** Summing a table by rows or by columns gives the same total. *)
Lemma list_sum_nat_exchange {A B : Type} (f : A -> B -> nat) (la : list A) (lb : list B) :
  list_sum_nat (map (fun a => list_sum_nat (map (f a) lb)) la)
  = list_sum_nat (map (fun b => list_sum_nat (map (fun a => f a b) la)) lb).
Proof.
  induction la as [|a la IH]; simpl.
  - now rewrite list_sum_nat_zero.
  - rewrite IH. symmetry. apply list_sum_nat_plus.
Qed.

Lemma sum_bool_indicator (l : list bool) : sum_bool l = list_sum_nat (map indicator l).
Proof. induction l as [|[] l IH]; simpl; rewrite ?IH; reflexivity. Qed.

Lemma map_nth_seq {A B : Type} (g : A -> B) (d : A) (l : list A) :
  map (fun i => g (nth i l d)) (seq 0 (length l)) = map g l.
Proof.
  induction l as [|a l IH]; simpl; [reflexivity|].
  f_equal. rewrite <- seq_shift, map_map. exact IH.
Qed.

Lemma map_nth_error_seq {A B : Type} (g : option A -> B) (l : list A) :
  map (fun j => g (nth_error l j)) (seq 0 (length l)) = map (fun a => g (Some a)) l.
Proof.
  induction l as [|a l IH]; simpl; [reflexivity|].
  f_equal. rewrite <- seq_shift, map_map. exact IH.
Qed.

(** The missing cells of a column, counted one row at a time. *)
Lemma sum_bool_by_rows (s : Series) :
  sum_bool (isna s)
  = list_sum_nat (map (fun i => indicator (nth i (isna s) false)) (seq 0 (len s))).
Proof.
  rewrite sum_bool_indicator, <- isna_length.
  now rewrite (map_nth_seq indicator false).
Qed.

Lemma brute_force_nulls_by_columns (df : DataFrame) :
  Forall (fun c => len (snd c) = index_len df) (data df) ->
  brute_force_nulls df = list_sum_nat (isna_sum df).
Proof.
  intros Hrect. unfold brute_force_nulls, isna_sum, cell_isna.
  transitivity
    (list_sum_nat
       (map (fun i => list_sum_nat
                        (map (fun c => indicator (nth i (isna (snd c)) false)) (data df)))
            (seq 0 (index_len df)))).
  - f_equal. apply map_ext. intros i. f_equal.
    apply (map_nth_error_seq
             (fun o => indicator match o with
                                 | Some c => nth i (isna (snd c)) false
                                 | None => false
                                 end)).
  - rewrite list_sum_nat_exchange. f_equal.
    apply map_ext_in. intros c Hc.
    rewrite Forall_forall in Hrect. rewrite <- (Hrect c Hc).
    symmetry. apply sum_bool_by_rows.
Qed.

(* ================================================================= *)
(** ** resumen_general *)

(** C3.  For a rectangular table with [R] rows and [C] columns, zero
    included, [resumen_general] returns the row count [R], the column count
    [C], and the number of missing cells found by going over every cell. *)
Theorem resumen_general_counts (df : DataFrame) (R C : nat) :
  wf df ->
  index_len df = R ->
  length (data df) = C ->
  resumen_general df
  = {| Filas := R; Columnas := C; Nulos_totales := brute_force_nulls df |}.
Proof.
  intros [Hrect _] HR HC. unfold resumen_general, len_df, columns.
  rewrite length_map, HR, HC.
  now rewrite (brute_force_nulls_by_columns df Hrect).
Qed.

Lemma resumen_general_counts_witness :
  wf ex_nulos_df
  /\ brute_force_nulls ex_nulos_df = 7
  /\ resumen_general ex_nulos_df
     = {| Filas := 3; Columnas := 3; Nulos_totales := 7 |}.
Proof.
  assert (Hwf : wf ex_nulos_df).
  { split; simpl; repeat constructor; simpl; intuition discriminate. }
  refine (conj Hwf (conj eq_refl _)).
  exact (resumen_general_counts ex_nulos_df 3 3 Hwf eq_refl eq_refl).
Defined.

(* ================================================================= *)
(** ** The loop of resumen_por_tipo *)

(** A column only appends to the tables. *)
Lemma resumen_columna_app {orden : CountSort} (acc : Resumen) (c : string * Series) :
  df_num (resumen_columna acc c)
  = df_num acc ++ df_num (resumen_columna resumen_vacio c)
  /\ df_text_rep (resumen_columna acc c)
     = df_text_rep acc ++ df_text_rep (resumen_columna resumen_vacio c)
  /\ df_text_uni (resumen_columna acc c)
     = df_text_uni acc ++ df_text_uni (resumen_columna resumen_vacio c).
Proof.
  unfold resumen_columna.
  destruct (numeric_values (snd c)); simpl.
  - now rewrite !app_nil_r.
  - destruct (string_values (snd c)); simpl.
    + destruct (criterio_repetidos _ _); simpl; now rewrite !app_nil_r.
    + now rewrite !app_nil_r.
Qed.

Lemma resumen_fold {orden : CountSort} (l : list (string * Series)) (acc : Resumen) :
  df_num (fold_left resumen_columna l acc)
  = df_num acc ++ flat_map (fun c => df_num (resumen_columna resumen_vacio c)) l
  /\ df_text_rep (fold_left resumen_columna l acc)
     = df_text_rep acc
       ++ flat_map (fun c => df_text_rep (resumen_columna resumen_vacio c)) l
  /\ df_text_uni (fold_left resumen_columna l acc)
     = df_text_uni acc
       ++ flat_map (fun c => df_text_uni (resumen_columna resumen_vacio c)) l.
Proof.
  revert acc. induction l as [|c l IH]; intros acc; simpl.
  - now rewrite !app_nil_r.
  - destruct (IH (resumen_columna acc c)) as (H1 & H2 & H3).
    destruct (resumen_columna_app acc c) as (E1 & E2 & E3).
    rewrite H1, H2, H3, E1, E2, E3, <- !app_assoc. auto.
Qed.

Lemma resumen_por_tipo_tables {orden : CountSort} (df : DataFrame) :
  df_num (resumen_por_tipo df)
  = flat_map (fun c => df_num (resumen_columna resumen_vacio c)) (data df)
  /\ df_text_rep (resumen_por_tipo df)
     = flat_map (fun c => df_text_rep (resumen_columna resumen_vacio c)) (data df)
  /\ df_text_uni (resumen_por_tipo df)
     = flat_map (fun c => df_text_uni (resumen_columna resumen_vacio c)) (data df).
Proof. apply (resumen_fold (data df) resumen_vacio). Qed.

(** The rows a column appends carry its label. *)
Lemma resumen_columna_labels {orden : CountSort} (c : string * Series) :
  Forall (fun f => num_Columna f = fst c) (df_num (resumen_columna resumen_vacio c))
  /\ Forall (fun f => rep_Columna f = fst c)
            (df_text_rep (resumen_columna resumen_vacio c))
  /\ Forall (fun f => uni_Columna f = fst c)
            (df_text_uni (resumen_columna resumen_vacio c)).
Proof.
  unfold resumen_columna.
  destruct (numeric_values (snd c)); simpl.
  - repeat split; repeat constructor.
  - destruct (string_values (snd c)); simpl.
    + destruct (criterio_repetidos _ _); simpl; repeat split; repeat constructor.
    + repeat split; constructor.
Qed.

Section RowsOfAColumn.
Context {B : Type} (name : B -> string) (g : string * Series -> list B).
Hypothesis g_labels : forall c, Forall (fun f => name f = fst c) (g c).

Lemma filter_foreign_label (col : string) (a : string * Series) :
  fst a <> col ->
  filter (fun f => String.eqb (name f) col) (g a) = [].
Proof.
  intros Hne. specialize (g_labels a).
  induction g_labels as [|f fs Hf _ IHf]; simpl; auto.
  destruct (String.eqb_spec (name f) col) as [E|_]; [|exact IHf].
  exfalso. apply Hne. congruence.
Qed.

Lemma filter_other_label (col : string) (l : list (string * Series)) :
  ~ In col (map fst l) ->
  filter (fun f => String.eqb (name f) col) (flat_map g l) = [].
Proof.
  induction l as [|a l IH]; simpl; intros Hn; [reflexivity|].
  rewrite filter_app, IH by tauto. rewrite app_nil_r.
  apply filter_foreign_label. tauto.
Qed.

Lemma filter_own_label (c : string * Series) :
  filter (fun f => String.eqb (name f) (fst c)) (g c) = g c.
Proof.
  specialize (g_labels c). induction g_labels as [|f fs Hf _ IHf]; simpl; auto.
  rewrite Hf, String.eqb_refl. now f_equal.
Qed.

(** With distinct labels, the rows about a label are those of its column. *)
Lemma filter_flat_map_label (l : list (string * Series)) (c : string * Series) :
  NoDup (map fst l) -> In c l ->
  filter (fun f => String.eqb (name f) (fst c)) (flat_map g l) = g c.
Proof.
  induction l as [|a l IH]; simpl; intros Hnd Hin; [contradiction|].
  inversion Hnd as [|? ? Hna Hnd']; subst. rewrite filter_app.
  destruct Hin as [->|Hin].
  - rewrite filter_own_label, filter_other_label by assumption.
    apply app_nil_r.
  - rewrite (IH Hnd' Hin), filter_foreign_label; [reflexivity|].
    intros E. apply Hna. rewrite E. now apply in_map.
Qed.
End RowsOfAColumn.

(** With distinct labels, the rows of the three tables about the label of a
    column are the rows this column appended. *)
Lemma rows_of_column {orden : CountSort} (df : DataFrame) (c : string * Series) :
  wf df -> In c (data df) ->
  rows_num (resumen_por_tipo df) (fst c) = df_num (resumen_columna resumen_vacio c)
  /\ rows_rep (resumen_por_tipo df) (fst c)
     = df_text_rep (resumen_columna resumen_vacio c)
  /\ rows_uni (resumen_por_tipo df) (fst c)
     = df_text_uni (resumen_columna resumen_vacio c).
Proof.
  intros [_ Hnd] Hin. unfold rows_num, rows_rep, rows_uni.
  destruct (resumen_por_tipo_tables df) as (-> & -> & ->).
  repeat split.
  - apply (filter_flat_map_label num_Columna); auto.
    intros c'. apply (resumen_columna_labels c').
  - apply (filter_flat_map_label rep_Columna); auto.
    intros c'. apply (resumen_columna_labels c').
  - apply (filter_flat_map_label uni_Columna); auto.
    intros c'. apply (resumen_columna_labels c').
Qed.

Lemma existsb_filter {B : Type} (p : B -> bool) (l : list B) :
  existsb p l = match filter p l with [] => false | _ => true end.
Proof.
  induction l as [|a l IH]; simpl; [reflexivity|].
  destruct (p a); simpl; [reflexivity | exact IH].
Qed.

(* ================================================================= *)
(** ** unique *)

Lemma pyobj_eqb_eq (a b : pyobj) : pyobj_eqb a b = true <-> a = b.
Proof.
  destruct a as [s|x], b as [t|y]; simpl; split; intros H;
    try discriminate; try congruence.
  - apply String.eqb_eq in H. congruence.
  - injection H as ->. apply String.eqb_refl.
  - apply Z.eqb_eq in H. congruence.
  - injection H as ->. apply Z.eqb_refl.
Qed.

Section UniqueFacts.
Context {A : Type} (eqb : A -> A -> bool).
Hypothesis eqb_eq : forall a b, eqb a b = true <-> a = b.

Lemma existsb_eqb_In (x : A) (l : list A) : existsb (eqb x) l = true <-> In x l.
Proof.
  rewrite existsb_exists. split.
  - intros (y & Hy & E). apply eqb_eq in E. now subst.
  - intros H. exists x. split; [assumption | now apply eqb_eq].
Qed.

Lemma unique_snoc (xs : list A) (x : A) :
  unique eqb (xs ++ [x]) = add_unique eqb (unique eqb xs) x.
Proof. unfold unique. now rewrite fold_left_app. Qed.

Lemma add_unique_cases (seen : list A) (x : A) :
  (In x seen /\ add_unique eqb seen x = seen)
  \/ (~ In x seen /\ add_unique eqb seen x = seen ++ [x]).
Proof.
  unfold add_unique. destruct (existsb (eqb x) seen) eqn:E.
  - left. split; [now apply existsb_eqb_In | reflexivity].
  - right. split; [|reflexivity].
    intros H. apply existsb_eqb_In in H. congruence.
Qed.

Lemma unique_In (xs : list A) (y : A) : In y (unique eqb xs) <-> In y xs.
Proof.
  induction xs as [|x xs IH] using rev_ind; [reflexivity|].
  rewrite unique_snoc, in_app_iff.
  destruct (add_unique_cases (unique eqb xs) x) as [[Hin ->]|[_ ->]].
  - rewrite IH. simpl. split; [tauto|].
    intros [H|[<-|[]]]; [assumption | now apply IH].
  - rewrite in_app_iff, IH. reflexivity.
Qed.

Lemma unique_NoDup (xs : list A) : NoDup (unique eqb xs).
Proof.
  induction xs as [|x xs IH] using rev_ind; [constructor|].
  rewrite unique_snoc.
  destruct (add_unique_cases (unique eqb xs) x) as [[_ ->]|[Hn ->]]; auto.
  apply NoDup_app; [assumption | repeat constructor; simpl; tauto |].
  intros a Ha [<-|[]]. contradiction.
Qed.

(** [unique] finds as many values as there are distinct ones. *)
Lemma unique_length (dec : forall a b : A, {a = b} + {a <> b}) (xs : list A) :
  length (unique eqb xs) = length (nodup dec xs).
Proof.
  apply Permutation_length, NoDup_Permutation.
  - apply unique_NoDup.
  - apply NoDup_nodup.
  - intros y. now rewrite unique_In, nodup_In.
Qed.
End UniqueFacts.

(* ================================================================= *)
(** ** String-dtype columns *)

Lemma isnull_option_map {A B : Type} (f : A -> B) (c : option A) :
  isnull (option_map f c) = isnull c.
Proof. now destruct c. Qed.

Lemma string_values_some (s : Series) :
  is_string_dtype s = true -> exists v, string_values s = Some v.
Proof.
  destruct s; simpl; try discriminate; intros H; eauto.
  rewrite H. eauto.
Qed.

Lemma string_values_spec (s : Series) (v : list (option pyobj)) :
  string_values s = Some v ->
  is_string_dtype s = true /\ numeric_values s = None
  /\ isna s = map isnull v /\ len s = length v.
Proof.
  destruct s; simpl; try discriminate.
  - destruct (is_all_strings v0); [|discriminate].
    intros [= ->]. auto.
  - intros [= <-]. rewrite map_map, length_map. repeat split.
    apply map_ext. intros c. now rewrite isnull_option_map.
Qed.

Lemma not_numeric_not_string (s : Series) :
  is_numeric_dtype s = false -> is_string_dtype s = false ->
  numeric_values s = None /\ string_values s = None.
Proof.
  destruct s; simpl; try discriminate; auto.
  intros _ ->. auto.
Qed.

Lemma numeric_values_some (s : Series) :
  is_numeric_dtype s = true -> exists x, numeric_values s = Some x.
Proof. destruct s; simpl; try discriminate; eauto. Qed.

Lemma sum_bool_le (l : list bool) : sum_bool l <= length l.
Proof. induction l as [|[] l IH]; simpl; lia. Qed.

Lemma sum_bool_isnull {A : Type} (v : list (option A)) :
  sum_bool (map isnull v) = length (filter isnull v)
  /\ length v - sum_bool (map isnull v) = length (dropna v).
Proof.
  induction v as [|[a|] v [IH1 IH2]]; [split; reflexivity | |].
  - pose proof (sum_bool_le (map isnull v)) as Hle.
    rewrite length_map in Hle.
    cbn [map isnull sum_bool fold_right filter dropna length].
    change (fold_right _ 0 (map isnull v)) with (sum_bool (map isnull v)).
    lia.
  - cbn [map isnull sum_bool fold_right filter dropna length].
    change (fold_right _ 0 (map isnull v)) with (sum_bool (map isnull v)).
    lia.
Qed.

Lemma criterio_repetidos_iff (n_unicos n_total : nat) :
  criterio_repetidos n_unicos n_total = true
  <-> (QN n_unicos < (8 # 10) * QN n_total)%Q.
Proof.
  unfold criterio_repetidos, QN. rewrite negb_true_iff.
  rewrite (Qmult_comm (8 # 10)). split.
  - intros H. apply Qnot_le_lt. intros Hle.
    apply Qle_bool_iff in Hle. congruence.
  - intros H. destruct (Qle_bool _ _) eqn:E; [|reflexivity].
    apply Qle_bool_iff in E. exfalso. now apply (Qlt_not_le _ _ H).
Qed.

(** What a string-dtype column appends. *)
Lemma resumen_columna_string {orden : CountSort} (col : string) (serie : Series) (v : list (option pyobj)) :
  string_values serie = Some v ->
  let n_unicos := length (unique pyobj_eqb (dropna v)) in
  resumen_columna resumen_vacio (col, serie)
  = if criterio_repetidos n_unicos (len serie) then
      {| df_num := [];
         df_text_rep :=
           [ {| rep_Columna := col;
                rep_Categorias_unicas := n_unicos;
                rep_Top_5_valores :=
                  String.concat ", "
                    (map formato_valor (head 5 (value_counts pyobj_eqb v))) |} ];
         df_text_uni := [] |}
    else
      {| df_num := [];
         df_text_rep := [];
         df_text_uni :=
           [ {| uni_Columna := col;
                uni_Valores_no_nulos := length (dropna v);
                uni_Nulos := length (filter isnull v);
                uni_Valores_unicos := n_unicos |} ] |}.
Proof.
  intros Hv. destruct (string_values_spec serie v Hv) as (_ & Hnum & Hna & Hlen).
  unfold resumen_columna. simpl. rewrite Hnum, Hv, Hna, Hlen.
  destruct (sum_bool_isnull v) as [-> ->].
  destruct (criterio_repetidos _ _); reflexivity.
Qed.

(** The library's sort shows in the top-values texts only: the numeric
    table, the table of unique text, and the labels and numbers of
    categories of the table of repeated text are those of the stable sort,
    for which the statements below are written. *)
Lemma library_changes_top_values_only (orden : CountSort) (df : DataFrame) :
  df_num (@resumen_por_tipo orden df) = df_num (@resumen_por_tipo stable_sort df)
  /\ df_text_uni (@resumen_por_tipo orden df) = df_text_uni (@resumen_por_tipo stable_sort df)
  /\ map (fun r => (rep_Columna r, rep_Categorias_unicas r))
         (df_text_rep (@resumen_por_tipo orden df))
     = map (fun r => (rep_Columna r, rep_Categorias_unicas r))
         (df_text_rep (@resumen_por_tipo stable_sort df)).
Proof.
  destruct (@resumen_por_tipo_tables orden df) as (-> & -> & ->).
  destruct (@resumen_por_tipo_tables stable_sort df) as (-> & -> & ->).
  assert (Hcol : forall c,
             df_num (@resumen_columna orden resumen_vacio c)
             = df_num (@resumen_columna stable_sort resumen_vacio c)
             /\ df_text_uni (@resumen_columna orden resumen_vacio c)
                = df_text_uni (@resumen_columna stable_sort resumen_vacio c)
             /\ map (fun r => (rep_Columna r, rep_Categorias_unicas r))
                    (df_text_rep (@resumen_columna orden resumen_vacio c))
                = map (fun r => (rep_Columna r, rep_Categorias_unicas r))
                    (df_text_rep (@resumen_columna stable_sort resumen_vacio c))).
  { intros c. unfold resumen_columna.
    destruct (numeric_values (snd c)); [auto|].
    destruct (string_values (snd c)); [|auto].
    destruct (criterio_repetidos _ _); auto. }
  induction (data df) as [|c l (IH1 & IH2 & IH3)]; [auto|].
  destruct (Hcol c) as (E1 & E2 & E3).
  cbn [flat_map]. rewrite !map_app, IH1, IH2, IH3, E1, E2, E3. auto.
Qed.

(** C1.  A string-dtype column with [n_unique] distinct non-null values
    and [n_total] rows, missing ones included, gets exactly one row: in the
    table of repeated text when [n_unique < 0.8 * n_total], with its label
    and [n_unique]; otherwise in the table of unique text, with its label,
    its non-null count, its null count and [n_unique]. *)
Theorem string_column_threshold
    (df : DataFrame) (col : string) (serie : Series) (v : list (option pyobj)) :
  wf df ->
  In (col, serie) (data df) ->
  is_string_dtype serie = true ->
  string_values serie = Some v ->
  let n_unique := length (nodup pyobj_eq_dec (dropna v)) in
  let n_total := len serie in
  let r := resumen_por_tipo df in
  rows_num r col = []
  /\ ((QN n_unique < (8 # 10) * QN n_total)%Q ->
      (exists top,
          rows_rep r col
          = [ {| rep_Columna := col;
                 rep_Categorias_unicas := n_unique;
                 rep_Top_5_valores := top |} ])
      /\ rows_uni r col = [])
  /\ (~ (QN n_unique < (8 # 10) * QN n_total)%Q ->
      rows_rep r col = []
      /\ rows_uni r col
         = [ {| uni_Columna := col;
                uni_Valores_no_nulos := length (dropna v);
                uni_Nulos := length (filter isnull v);
                uni_Valores_unicos := n_unique |} ]).
Proof.
  intros Hwf Hin _ Hv n_unique n_total r.
  destruct (rows_of_column df (col, serie) Hwf Hin) as (Hn & Hr & Hu).
  simpl in Hn, Hr, Hu. fold r in Hn, Hr, Hu.
  rewrite Hn, Hr, Hu, (resumen_columna_string col serie v Hv).
  rewrite (unique_length pyobj_eqb pyobj_eqb_eq pyobj_eq_dec).
  fold n_unique n_total.
  destruct (criterio_repetidos n_unique n_total) eqn:E; simpl.
  - apply criterio_repetidos_iff in E. repeat split; eauto; contradiction.
  - split; [reflexivity|]. split.
    + intros H. apply criterio_repetidos_iff in H. congruence.
    + auto.
Qed.

Lemma string_column_threshold_witness :
  wf ex_letras_df
  /\ is_string_dtype ex_letras = true
  /\ (QN 7 < (8 # 10) * QN 10)%Q
  /\ exists top,
       rows_rep (resumen_por_tipo ex_letras_df) "letras"
       = [ {| rep_Columna := "letras";
              rep_Categorias_unicas := 7;
              rep_Top_5_valores := top |} ].
Proof.
  assert (Hwf : wf ex_letras_df).
  { split; simpl; repeat constructor. simpl. tauto. }
  assert (Hq : (QN 7 < (8 # 10) * QN 10)%Q) by reflexivity.
  refine (conj Hwf (conj eq_refl (conj Hq _))).
  destruct (string_column_threshold ex_letras_df "letras" ex_letras
              (map (fun s => Some (PyStr s))
                   ["a"; "a"; "a"; "b"; "b"; "c"; "d"; "e"; "f"; "g"])
              Hwf (or_introl eq_refl) eq_refl eq_refl) as (_ & Hrep & _).
  exact (proj1 (Hrep Hq)).
Defined.

(* ================================================================= *)
(** ** Columns whose cells are all missing, and columns of other dtypes *)

Lemma all_null_dropna {A : Type} (v : list (option A)) :
  forallb (fun b : bool => b) (map isnull v) = true ->
  dropna v = [] /\ filter isnull v = v.
Proof.
  induction v as [|[a|] v IH]; simpl; auto; try discriminate.
  intros H. destruct (IH H) as [-> ->]. auto.
Qed.

Lemma criterio_repetidos_zero (n_total : nat) :
  criterio_repetidos 0 n_total = negb (n_total =? 0)%nat.
Proof.
  destruct n_total as [|n]; [reflexivity|].
  apply criterio_repetidos_iff. unfold QN, Qlt. simpl. lia.
Qed.

(** C10.  A string-dtype column whose cells are all missing gets, when it
    has at least one row, one row of repeated text with 0 distinct values
    and an empty list of top values; with no row at all it gets one row of
    unique text whose three counts are 0. *)
Theorem all_null_string_column (df : DataFrame) (col : string) (serie : Series) :
  wf df ->
  In (col, serie) (data df) ->
  is_string_dtype serie = true ->
  all_null serie = true ->
  let r := resumen_por_tipo df in
  rows_num r col = []
  /\ (0 < len serie ->
      rows_rep r col
      = [ {| rep_Columna := col; rep_Categorias_unicas := 0; rep_Top_5_valores := "" |} ]
      /\ rows_uni r col = [])
  /\ (len serie = 0 ->
      rows_rep r col = []
      /\ rows_uni r col
         = [ {| uni_Columna := col; uni_Valores_no_nulos := 0;
                uni_Nulos := 0; uni_Valores_unicos := 0 |} ]).
Proof.
  intros Hwf Hin Hstr Hall r.
  destruct (string_values_some serie Hstr) as [v Hv].
  destruct (string_values_spec serie v Hv) as (_ & _ & Hna & Hlen).
  unfold all_null in Hall. rewrite Hna in Hall.
  destruct (all_null_dropna v Hall) as [Hdrop Hfil].
  destruct (rows_of_column df (col, serie) Hwf Hin) as (Hn & Hr & Hu).
  simpl in Hn, Hr, Hu. fold r in Hn, Hr, Hu.
  rewrite Hn, Hr, Hu, (resumen_columna_string col serie v Hv).
  unfold value_counts. rewrite Hdrop, Hfil. simpl length at 1 2 3.
  rewrite criterio_repetidos_zero, Hlen.
  destruct v as [|c v]; simpl; repeat split; auto; try lia; discriminate.
Qed.

Lemma all_null_string_column_witness :
  wf ex_nulos_df
  /\ is_string_dtype (StringArray [None; None; None]) = true
  /\ all_null (StringArray [None; None; None]) = true
  /\ rows_rep (resumen_por_tipo ex_nulos_df) "texto"
     = [ {| rep_Columna := "texto"; rep_Categorias_unicas := 0;
            rep_Top_5_valores := "" |} ]
  /\ rows_uni (resumen_por_tipo ex_nulos_df) "texto" = [].
Proof.
  assert (Hwf : wf ex_nulos_df).
  { split; simpl; repeat constructor; simpl; intuition discriminate. }
  refine (conj Hwf (conj eq_refl (conj eq_refl _))).
  destruct (all_null_string_column ex_nulos_df "texto"
              (StringArray [None; None; None])
              Hwf (or_introl eq_refl) eq_refl eq_refl) as (_ & Hrep & _).
  apply Hrep. simpl. lia.
Defined.

Lemma has_rows {B : Type} (p : B -> bool) (l : list B) (rows : list B) :
  filter p l = rows ->
  existsb p l = match rows with [] => false | _ => true end.
Proof. intros <-. apply existsb_filter. Qed.

(** C5, as the script has it.  A column is left out of the three tables
    exactly when its dtype is neither numeric nor string; that all its cells
    are missing plays no part. *)
Theorem excluded_iff_other_dtype (df : DataFrame) (col : string) (serie : Series) :
  wf df ->
  In (col, serie) (data df) ->
  excluded (resumen_por_tipo df) col
  = negb (is_numeric_dtype serie || is_string_dtype serie).
Proof.
  intros Hwf Hin.
  destruct (rows_of_column df (col, serie) Hwf Hin) as (Hn & Hr & Hu).
  simpl in Hn, Hr, Hu. unfold excluded, has_num, has_rep, has_uni.
  rewrite (has_rows _ _ _ Hn), (has_rows _ _ _ Hr), (has_rows _ _ _ Hu).
  destruct (is_numeric_dtype serie) eqn:En.
  - destruct (numeric_values_some serie En) as [x Hx].
    unfold resumen_columna. simpl. rewrite Hx. reflexivity.
  - destruct (is_string_dtype serie) eqn:Es.
    + destruct (string_values_some serie Es) as [v Hv].
      rewrite (resumen_columna_string col serie v Hv).
      destruct (criterio_repetidos _ _); reflexivity.
    + destruct (not_numeric_not_string serie En Es) as [Hx Hv].
      unfold resumen_columna. simpl. rewrite Hx, Hv. reflexivity.
Qed.

Lemma excluded_iff_other_dtype_witness :
  wf ex_nulos_df
  /\ excluded (resumen_por_tipo ex_nulos_df) "mixta" = true
  /\ excluded (resumen_por_tipo ex_nulos_df) "vacia" = false.
Proof.
  assert (Hwf : wf ex_nulos_df).
  { split; simpl; repeat constructor; simpl; intuition discriminate. }
  split; [assumption|]. split.
  - apply (excluded_iff_other_dtype ex_nulos_df "mixta"
             (Object [Some (PyStr "x"); None; Some (PyInt 3)]) Hwf).
    simpl. tauto.
  - apply (excluded_iff_other_dtype ex_nulos_df "vacia"
             (Float64 [None; None; None]) Hwf).
    simpl. tauto.
Defined.

(** C5, as stated, fails: a float column of three NaN has all its cells
    missing and still gets a row of the numeric table. *)
Lemma all_null_column_not_excluded :
  all_null (Float64 [None; None; None]) = true
  /\ In ("vacia", Float64 [None; None; None]) (data ex_nulos_df)
  /\ excluded (resumen_por_tipo ex_nulos_df) "vacia" = false
  /\ rows_num (resumen_por_tipo ex_nulos_df) "vacia"
     = [ {| num_Columna := "vacia"; num_count := 0; num_mean := nan;
            num_std := nan; num_min := nan; num_median := nan;
            num_max := nan |} ].
Proof. repeat split; simpl; tauto. Qed.

(** A text column with no row goes to the table of unique text. *)
Example zero_row_text_column :
  resumen_por_tipo ex_sin_filas_df
  = {| df_num := []; df_text_rep := [];
       df_text_uni := [ {| uni_Columna := "texto"; uni_Valores_no_nulos := 0;
                           uni_Nulos := 0; uni_Valores_unicos := 0 |} ] |}.
Proof. reflexivity. Qed.

(** Ten distinct values in ten rows: 10 is not below 8. *)
Example all_distinct_text_column :
  resumen_por_tipo ex_distintos_df
  = {| df_num := []; df_text_rep := [];
       df_text_uni := [ {| uni_Columna := "id"; uni_Valores_no_nulos := 10;
                           uni_Nulos := 0; uni_Valores_unicos := 10 |} ] |}.
Proof. reflexivity. Qed.

(* ================================================================= *)
(** ** The empty table *)

(** C6.  On the table with no row and no column, [resumen_general] returns
    (0, 0, 0) and the three tables of [resumen_por_tipo] are empty. *)
Theorem empty_dataset_summaries :
  resumen_general empty_df = {| Filas := 0; Columnas := 0; Nulos_totales := 0 |}
  /\ resumen_por_tipo empty_df
     = {| df_num := []; df_text_rep := []; df_text_uni := [] |}.
Proof. split; reflexivity. Qed.

(* ================================================================= *)
(** ** value_counts *)

Lemma index_of_app_in (a : pyobj) (xs ys : list pyobj) :
  In a xs -> index_of a (xs ++ ys) = index_of a xs.
Proof.
  induction xs as [|h t IH]; simpl; [contradiction|].
  intros Hin. destruct (pyobj_eqb a h) eqn:E; [reflexivity|].
  f_equal. apply IH. destruct Hin as [->|H]; [|assumption].
  rewrite (proj2 (pyobj_eqb_eq a a) eq_refl) in E. discriminate.
Qed.

Lemma index_of_lt (a : pyobj) (xs : list pyobj) :
  In a xs -> index_of a xs < length xs.
Proof.
  induction xs as [|h t IH]; simpl; [contradiction|].
  intros Hin. destruct (pyobj_eqb a h) eqn:E; [lia|].
  apply -> Nat.succ_lt_mono. apply IH. destruct Hin as [->|H]; [|assumption].
  rewrite (proj2 (pyobj_eqb_eq a a) eq_refl) in E. discriminate.
Qed.

Lemma index_of_app_new (x : pyobj) (xs : list pyobj) :
  ~ In x xs -> index_of x (xs ++ [x]) = length xs.
Proof.
  induction xs as [|h t IH]; simpl; intros Hn.
  - now rewrite (proj2 (pyobj_eqb_eq x x) eq_refl).
  - destruct (pyobj_eqb x h) eqn:E.
    + apply pyobj_eqb_eq in E. subst. tauto.
    + f_equal. apply IH. tauto.
Qed.

Lemma StronglySorted_snoc {A : Type} (R : A -> A -> Prop) (l : list A) (x : A) :
  StronglySorted R l -> Forall (fun a => R a x) l -> StronglySorted R (l ++ [x]).
Proof.
  induction 1 as [|a l Hs IH Ha]; simpl; intros Hx.
  - repeat constructor.
  - inversion Hx; subst. constructor; [auto|].
    apply Forall_app. split; [assumption | now constructor].
Qed.

Lemma StronglySorted_ext_in {A : Type} (R R' : A -> A -> Prop) (l : list A) :
  (forall a b, In a l -> In b l -> R a b -> R' a b) ->
  StronglySorted R l -> StronglySorted R' l.
Proof.
  intros Himp Hs. induction Hs as [|a l Hs IH Ha]; constructor.
  - apply IH. intros x y Hx Hy. apply Himp; now right.
  - rewrite Forall_forall in *. intros b Hb.
    apply Himp; [now left | now right | now apply Ha].
Qed.

Lemma unique_py_In (xs : list pyobj) (y : pyobj) :
  In y (unique pyobj_eqb xs) <-> In y xs.
Proof. apply (unique_In pyobj_eqb pyobj_eqb_eq). Qed.

Lemma unique_py_NoDup (xs : list pyobj) : NoDup (unique pyobj_eqb xs).
Proof. apply (unique_NoDup pyobj_eqb pyobj_eqb_eq). Qed.

(** [unique] lists the values in the order in which they first appear. *)
Lemma unique_first_appearance (xs : list pyobj) :
  StronglySorted (fun a b => index_of a xs < index_of b xs) (unique pyobj_eqb xs).
Proof.
  induction xs as [|x xs IH] using rev_ind; [constructor|].
  rewrite (unique_snoc pyobj_eqb).
  assert (Hold : StronglySorted
                   (fun a b => index_of a (xs ++ [x]) < index_of b (xs ++ [x]))
                   (unique pyobj_eqb xs)).
  { refine (StronglySorted_ext_in _ _ _ _ IH). intros a b Ha Hb H.
    rewrite unique_py_In in Ha, Hb.
    rewrite (index_of_app_in a xs [x] Ha), (index_of_app_in b xs [x] Hb).
    exact H. }
  destruct (add_unique_cases pyobj_eqb pyobj_eqb_eq (unique pyobj_eqb xs) x)
    as [[_ ->]|[Hn ->]]; [exact Hold|].
  apply StronglySorted_snoc; [exact Hold|].
  rewrite Forall_forall. intros a Ha.
  rewrite unique_py_In in Ha, Hn.
  rewrite (index_of_app_in a xs [x] Ha), (index_of_app_new x xs Hn).
  now apply index_of_lt.
Qed.

Section CountingFacts.
Context (f : pyobj -> nat).

Lemma bump_known (x : pyobj) (keys : list pyobj) :
  NoDup keys -> In x keys ->
  bump pyobj_eqb x (map (fun y => (y, f y)) keys)
  = map (fun y => (y, if pyobj_eqb x y then S (f y) else f y)) keys.
Proof.
  induction keys as [|k keys IH]; simpl; intros Hnd Hin; [contradiction|].
  inversion Hnd as [|? ? Hk Hnd']; subst.
  destruct (pyobj_eqb x k) eqn:E.
  - f_equal. apply map_ext_in. intros y Hy.
    apply pyobj_eqb_eq in E. subst k.
    destruct (pyobj_eqb x y) eqn:E'; [|reflexivity].
    apply pyobj_eqb_eq in E'. subst. contradiction.
  - f_equal. apply IH; [assumption|].
    destruct Hin as [->|H]; [|assumption].
    rewrite (proj2 (pyobj_eqb_eq x x) eq_refl) in E. discriminate.
Qed.

Lemma bump_new (x : pyobj) (keys : list pyobj) :
  ~ In x keys ->
  bump pyobj_eqb x (map (fun y => (y, f y)) keys)
  = map (fun y => (y, f y)) keys ++ [(x, 1)].
Proof.
  induction keys as [|k keys IH]; simpl; intros Hn; [reflexivity|].
  destruct (pyobj_eqb x k) eqn:E.
  - apply pyobj_eqb_eq in E. subst. tauto.
  - f_equal. apply IH. tauto.
Qed.
End CountingFacts.

(** The counting table pairs each distinct value, in order of first
    appearance, with its number of occurrences. *)
Lemma value_count_spec (xs : list pyobj) :
  value_count pyobj_eqb xs
  = map (fun y => (y, count_occ pyobj_eq_dec xs y)) (unique pyobj_eqb xs).
Proof.
  induction xs as [|x xs IH] using rev_ind; [reflexivity|].
  unfold value_count. rewrite fold_left_app. simpl.
  fold (value_count pyobj_eqb xs). rewrite IH, (unique_snoc pyobj_eqb).
  destruct (add_unique_cases pyobj_eqb pyobj_eqb_eq (unique pyobj_eqb xs) x)
    as [[Hin ->]|[Hn ->]].
  - rewrite bump_known; [|apply unique_py_NoDup | assumption].
    apply map_ext. intros y. f_equal.
    rewrite count_occ_app. simpl.
    destruct (pyobj_eq_dec x y) as [->|Hne].
    + rewrite (proj2 (pyobj_eqb_eq y y) eq_refl). lia.
    + destruct (pyobj_eqb x y) eqn:E; [|lia].
      apply pyobj_eqb_eq in E. contradiction.
  - rewrite bump_new by assumption. rewrite map_app. simpl. f_equal.
    + apply map_ext_in. intros y Hy. f_equal.
      rewrite count_occ_app. simpl.
      destruct (pyobj_eq_dec x y) as [->|Hne]; [contradiction | lia].
    + do 2 f_equal. rewrite count_occ_app. simpl.
      rewrite unique_py_In in Hn.
      rewrite (proj1 (count_occ_not_In pyobj_eq_dec xs x) Hn).
      destruct (pyobj_eq_dec x x); [reflexivity | contradiction].
Qed.

Section SortFacts.
Context {A : Type}.
Implicit Types (e : A * nat) (l : list (A * nat)).

Lemma insert_desc_perm e l : Permutation (insert_desc e l) (e :: l).
Proof.
  induction l as [|h t IH]; simpl; [reflexivity|].
  destruct (snd e <? snd h); [|reflexivity].
  rewrite IH. apply perm_swap.
Qed.

Lemma sort_desc_perm l : Permutation (sort_desc l) l.
Proof.
  induction l as [|e l IH]; simpl; [reflexivity|].
  rewrite insert_desc_perm. now constructor.
Qed.

Lemma insert_desc_sorted e l :
  StronglySorted desc l -> StronglySorted desc (insert_desc e l).
Proof.
  induction 1 as [|h t Hs IH Hh]; simpl; [repeat constructor|].
  destruct (Nat.ltb_spec (snd e) (snd h)) as [Hlt|Hge].
  - constructor; [assumption|].
    apply (Permutation_Forall (Permutation_sym (insert_desc_perm e t))).
    constructor; [unfold desc; lia | assumption].
  - constructor; [now constructor|].
    constructor; [exact Hge|].
    rewrite Forall_forall in *. intros b Hb. specialize (Hh b Hb).
    unfold desc in *. lia.
Qed.

Lemma sort_desc_sorted l : StronglySorted desc (sort_desc l).
Proof.
  induction l as [|e l IH]; simpl; [constructor | now apply insert_desc_sorted].
Qed.

(** The sort is stable: entries of equal count keep their order. *)
Lemma insert_desc_filter (n : nat) e l :
  filter (fun a => snd a =? n)%nat (insert_desc e l)
  = filter (fun a => snd a =? n)%nat (e :: l).
Proof.
  induction l as [|h t IH]; [reflexivity|].
  cbn [insert_desc]. destruct (Nat.ltb_spec (snd e) (snd h)) as [Hlt|Hge];
    [|reflexivity].
  cbn [filter] in *. rewrite IH.
  destruct (Nat.eqb_spec (snd e) n), (Nat.eqb_spec (snd h) n); try reflexivity.
  lia.
Qed.

Lemma sort_desc_stable (n : nat) l :
  filter (fun a => snd a =? n)%nat (sort_desc l)
  = filter (fun a => snd a =? n)%nat l.
Proof.
  induction l as [|e l IH]; [reflexivity|].
  cbn [sort_desc fold_right]. fold (sort_desc l).
  rewrite insert_desc_filter. cbn [filter]. now rewrite IH.
Qed.
End SortFacts.



(** The sort of pandas 3 and the reversing one are sorts of a library. *)
Lemma stable_sort_sorts_by_count : sorts_by_count stable_sort.
Proof.
  intros A l. split; [apply sort_desc_perm | apply sort_desc_sorted].
Qed.


(** Under the stable sort, entries of equal count keep the order in which
    their values first appear in the column. *)
Lemma stable_sort_keeps_first_appearance (v : list (option pyobj)) (n : nat) :
  filter (fun e => snd e =? n) (value_counts pyobj_eqb v)
  = filter (fun e => snd e =? n)
      (counts_of (dropna v) (unique pyobj_eqb (dropna v))).
Proof.
  unfold value_counts, counts_of. rewrite <- value_count_spec.
  apply sort_desc_stable.
Qed.

(** A column with no value has no top value, whatever the library. *)
Lemma no_values_no_top_values (orden : CountSort) (v : list (option pyobj)) :
  sorts_by_count orden ->
  dropna v = [] ->
  head 5 (value_counts pyobj_eqb v) = [].
Proof.
  intros Hsort Hv. unfold value_counts. rewrite Hv. cbn [value_count fold_left].
  destruct (Hsort pyobj []) as [Hp _].
  apply Permutation_sym, Permutation_nil in Hp. now rewrite Hp.
Qed.




(** The first entry of a sorted table has the greatest count. *)
Lemma sorted_head_greatest {A : Type} (e : A * nat) (l tbl : list (A * nat)) :
  StronglySorted desc (e :: l) ->
  Permutation (e :: l) tbl ->
  In e tbl /\ (forall x, In x tbl -> snd x <= snd e) /\ StronglySorted desc l.
Proof.
  intros Hs Hp. inversion Hs as [|? ? Hl Hall]; subst.
  split; [apply (Permutation_in _ Hp); now left|].
  split; [|assumption].
  intros x Hx. apply (Permutation_in _ (Permutation_sym Hp)) in Hx.
  destruct Hx as [<-|Hx]; [lia|].
  rewrite Forall_forall in Hall. exact (Hall x Hx).
Qed.

(** The worked example of C4 under any library: "a (3)", "b (2)", then
    three of the values that occur once, in the order of the library. *)
Lemma top_values_letras_any_library (orden : CountSort) :
  sorts_by_count orden ->
  exists x y z : string,
    df_text_rep (@resumen_por_tipo orden ex_letras_df)
    = [ {| rep_Columna := "letras";
           rep_Categorias_unicas := 7;
           rep_Top_5_valores :=
             String.concat ", "
               ["a (3)"; "b (2)"; x ++ " (1)"; y ++ " (1)"; z ++ " (1)"]%string
        |} ].
Proof.
  intros Hsort.
  set (tbl := [(PyStr "a", 3); (PyStr "b", 2); (PyStr "c", 1); (PyStr "d", 1);
               (PyStr "e", 1); (PyStr "f", 1); (PyStr "g", 1)]).
  destruct (Hsort pyobj tbl) as [Hp Hs].
  assert (Hrun : forall l, sort_values pyobj tbl = l ->
            df_text_rep (@resumen_por_tipo orden ex_letras_df)
            = [ {| rep_Columna := "letras";
                   rep_Categorias_unicas := 7;
                   rep_Top_5_valores :=
                     String.concat ", " (map formato_valor (firstn 5 l)) |} ]).
  { intros l <-. reflexivity. }
  destruct (sort_values pyobj tbl) as [|e1 [|e2 [|e3 [|e4 [|e5 l]]]]] eqn:El;
    try (apply Permutation_length in Hp; discriminate Hp).
  rewrite (Hrun _ eq_refl). clear Hrun El.
  destruct (sorted_head_greatest _ _ _ Hs Hp) as (H1 & Hmax1 & Hs1).
  assert (E1 : e1 = (PyStr "a", 3)).
  { specialize (Hmax1 (PyStr "a", 3) (or_introl eq_refl)). simpl in Hmax1.
    simpl in H1.
    repeat (destruct H1 as [<-|H1]; [try reflexivity; simpl in Hmax1; lia|]).
    destruct H1. }
  subst e1. apply Permutation_cons_inv in Hp.
  destruct (sorted_head_greatest _ _ _ Hs1 Hp) as (H2 & Hmax2 & Hs2).
  assert (E2 : e2 = (PyStr "b", 2)).
  { specialize (Hmax2 (PyStr "b", 2) (or_introl eq_refl)). simpl in Hmax2.
    simpl in H2.
    repeat (destruct H2 as [<-|H2]; [try reflexivity; simpl in Hmax2; lia|]).
    destruct H2. }
  subst e2. apply Permutation_cons_inv in Hp.
  assert (Hone : forall e, In e (e3 :: e4 :: e5 :: l) ->
                           exists t, e = (PyStr t, 1)).
  { intros e He. apply (Permutation_in _ Hp) in He. simpl in He.
    repeat (destruct He as [<-|He]; [eauto|]). destruct He. }
  destruct (Hone e3) as [x ->]; [simpl; auto|].
  destruct (Hone e4) as [y ->]; [simpl; auto|].
  destruct (Hone e5) as [z ->]; [simpl; auto|].
  exists x, y, z. reflexivity.
Qed.

(** The worked example of C4: ten rows, seven distinct values. *)
Example top_values_letras :
  resumen_por_tipo ex_letras_df
  = {| df_num := []; df_text_rep := [ex_letras_fila]; df_text_uni := [] |}.
Proof. reflexivity. Qed.

(* ================================================================= *)
(** ** Numeric columns *)

Lemma sum_bool_negb_isnull {A : Type} (v : list (option A)) :
  sum_bool (map negb (map isnull v)) = length (dropna v).
Proof. induction v as [|[a|] v IH]; simpl; auto. Qed.

Lemma sum_bool_all_true {A : Type} (v : list A) :
  sum_bool (map negb (map (fun _ => false) v)) = length v.
Proof. induction v as [|a v IH]; simpl; auto. Qed.

Lemma dropna_map_Some {A B : Type} (f : A -> B) (v : list A) :
  dropna (map (fun a => Some (f a)) v) = map f v.
Proof. induction v as [|a v IH]; simpl; [reflexivity | now f_equal]. Qed.

(** The cells of a numeric column, and what [len] and [count] say of them. *)
Lemma numeric_values_spec (s : Series) (x : list (option R)) :
  numeric_values s = Some x ->
  len s = length x /\ count s = length (dropna x).
Proof.
  destruct s; simpl; try discriminate; intros [= <-]; unfold count; simpl.
  - rewrite length_map, dropna_map_Some, length_map, sum_bool_all_true. auto.
  - rewrite sum_bool_negb_isnull. auto.
  - rewrite length_map, dropna_map_Some, length_map, sum_bool_all_true. auto.
Qed.

(** The test [not serie.empty] changes nothing for a reduction that is NaN
    when there is no value. *)
Lemma guard_empty (s : Series) (x : list (option R)) (f : pyfloat) :
  numeric_values s = Some x ->
  (dropna x = [] -> f = nan) ->
  (if negb (empty s) then f else nan) = f.
Proof.
  intros Hx Hnan. destruct (numeric_values_spec s x Hx) as [Hlen _].
  unfold empty. destruct (Nat.eqb_spec (len s) 0) as [E|_]; [|reflexivity].
  simpl. symmetry. apply Hnan.
  rewrite Hlen in E. now destruct x.
Qed.

Lemma fold_left_Rmin_spec (t : list R) (h : R) :
  In (fold_left Rmin t h) (h :: t)
  /\ forall y, In y (h :: t) -> (fold_left Rmin t h <= y)%R.
Proof.
  revert h. induction t as [|a t IH]; intros h; simpl.
  - split; [auto | intros y [<-|[]]; apply Rle_refl].
  - destruct (IH (Rmin h a)) as [Hin Hle]. split.
    + destruct Hin as [E|Hin]; [|auto].
      rewrite <- E. unfold Rmin. destruct (Rle_dec h a); auto.
    + intros y [<-|[<-|Hy]].
      * eapply Rle_trans; [apply Hle; now left | apply Rmin_l].
      * eapply Rle_trans; [apply Hle; now left | apply Rmin_r].
      * apply Hle. now right.
Qed.

Lemma fold_left_Rmax_spec (t : list R) (h : R) :
  In (fold_left Rmax t h) (h :: t)
  /\ forall y, In y (h :: t) -> (y <= fold_left Rmax t h)%R.
Proof.
  revert h. induction t as [|a t IH]; intros h; simpl.
  - split; [auto | intros y [<-|[]]; apply Rle_refl].
  - destruct (IH (Rmax h a)) as [Hin Hle]. split.
    + destruct Hin as [E|Hin]; [|auto].
      rewrite <- E. unfold Rmax. destruct (Rle_dec h a); auto.
    + intros y [<-|[<-|Hy]].
      * eapply Rle_trans; [apply Rmax_l | apply Hle; now left].
      * eapply Rle_trans; [apply Rmax_r | apply Hle; now left].
      * apply Hle. now right.
Qed.

(** What a numeric-dtype column appends. *)
Lemma resumen_columna_numeric (col : string) (serie : Series) (x : list (option R)) :
  numeric_values serie = Some x ->
  resumen_columna resumen_vacio (col, serie)
  = {| df_num :=
         [ {| num_Columna := col;
              num_count := length (dropna x);
              num_mean := mean x;
              num_std := std x;
              num_min := min x;
              num_median := median x;
              num_max := max x |} ];
       df_text_rep := [];
       df_text_uni := [] |}.
Proof.
  intros Hx. destruct (numeric_values_spec serie x Hx) as [_ Hcount].
  unfold resumen_columna. simpl. rewrite Hx, Hcount.
  rewrite !(guard_empty serie x _ Hx); [reflexivity | | | | |].
  - unfold max. now intros ->.
  - unfold median. now intros ->.
  - unfold min. now intros ->.
  - unfold std. now intros ->.
  - unfold mean. now intros ->.
Qed.

(** The column that holds the single value 7: count 1, mean, minimum,
    median and maximum 7, no standard deviation. *)
Example numeric_single_value :
  resumen_por_tipo ex_siete_df
  = {| df_num :=
         [ {| num_Columna := "x"; num_count := 1; num_mean := Fin 7;
              num_std := nan; num_min := Fin 7; num_median := Fin 7;
              num_max := Fin 7 |} ];
       df_text_rep := [];
       df_text_uni := [] |}.
Proof.
  unfold resumen_por_tipo. cbn [data ex_siete_df fold_left].
  rewrite (resumen_columna_numeric "x" (Int64 [7%Z]) [Some 7%R] eq_refl).
  unfold mean, std, min, median, max, Rsum. cbn.
  do 3 f_equal. f_equal. field.
Qed.
(* ================================================================= *)
(** ** The catalog client and the local loader: failures *)

Local Open Scope py_scope.

Lemma safe_ret {A : Type} (a : A) : safe (ret a).
Proof. intros log e log' H. discriminate. Qed.

Lemma safe_bind {A B : Type} (m : M A) (k : A -> M B) :
  safe m -> (forall a, safe (k a)) -> safe (bind m k).
Proof.
  intros Hm Hk log e log'. unfold bind.
  destruct (m log) as [[a|e0] l] eqn:E.
  - apply Hk.
  - intros [= <- <-]. exact (Hm _ _ _ E).
Qed.

Lemma safe_lift {A : Type} (o : outcome A) : raises_exceptions o -> safe (lift o).
Proof. intros Ho log e log' [= -> _]. now apply Ho. Qed.

Lemma safe_raise {A : Type} (c : exn_class) (s : string) :
  c <> KeyboardInterrupt -> safe (@raise A c s).
Proof.
  intros Hc log e log' [= <- _]. unfold is_Exception. simpl.
  destruct c; congruence.
Qed.

Lemma safe_st_message (n : nivel) (s : string) : safe (st_message n s).
Proof. intros log e log' H. discriminate. Qed.

Lemma safe_raise_for_status (r : Response) : safe (raise_for_status r).
Proof.
  unfold raise_for_status. destruct (_ && _)%bool.
  - apply safe_raise. discriminate.
  - apply safe_ret.
Qed.

Lemma safe_py_get (v : json) (key : string) (default : json) :
  safe (py_get v key default).
Proof.
  destruct v; simpl; try (apply safe_raise; discriminate).
  destruct (lookup key items); apply safe_ret.
Qed.

Lemma safe_py_getitem (v : json) (key : string) : safe (py_getitem v key).
Proof.
  destruct v; simpl; try (apply safe_raise; discriminate).
  destruct (lookup key items); [apply safe_ret | apply safe_raise; discriminate].
Qed.

Lemma py_int_raises (int_of_str : string -> option Z) (v : json) :
  raises_exceptions (py_int int_of_str v).
Proof.
  intros e. destruct v; simpl; try discriminate; try (intros [= <-]; reflexivity).
  destruct (int_of_str s); [discriminate | intros [= <-]; reflexivity].
Qed.

Lemma safe_get_json_url (requests_get : string -> Z -> outcome Response)
    (url : json) (t : Z) :
  (forall u t', raises_exceptions (requests_get u t')) ->
  safe (get_json_url requests_get url t).
Proof.
  intros H. destruct url; simpl; try (apply safe_raise; discriminate).
  apply safe_lift, H.
Qed.

(** [try ... except Exception] around a body that raises only
    [Exception]s, with a handler that shows a message and returns. *)
Lemma try_except_catches {A : Type} (body : M A) (vacio : A) (n : nivel)
    (prefijo : string) :
  safe body ->
  catches
    (try_except body
       (fun e => st_message n (prefijo ++ exn_str e)%string ;;; ret vacio))
    body vacio n prefijo.
Proof.
  intros Hs log. unfold try_except.
  destruct (body log) as [[a|e] l] eqn:E; [reflexivity|].
  now rewrite (Hs _ _ _ E).
Qed.

(** An operation that catches its failures returns, whatever happens. *)
Lemma catches_returns {A : Type} (op body : M A) (vacio : A) (n : nivel)
    (prefijo : string) :
  catches op body vacio n prefijo ->
  forall log, exists a log', op log = (Ok a, log').
Proof.
  intros H log. specialize (H log).
  destruct (body log) as [[a|e] l]; eauto.
Qed.

Lemma catches_raise {A : Type} (op body : M A) (vacio : A) (n : nivel)
    (prefijo : string) (log : list mensaje) (e : exn) (log' : list mensaje) :
  catches op body vacio n prefijo ->
  body log = (Raise e, log') ->
  op log
  = (Ok vacio,
     log' ++ [ {| msg_nivel := n; msg_texto := (prefijo ++ exn_str e)%string |} ]).
Proof. intros H E. specialize (H log). now rewrite E in H. Qed.

Section Failures.
Variable requests_get : string -> Z -> outcome Response.
Variable requests_head : string -> Z -> outcome Response.
Variable read_csv : string -> outcome DataFrame.
Variable py_repr : json -> string.
Hypothesis world : failures_are_exceptions requests_get requests_head read_csv.

Lemma safe_metadata {B : Type} (url : string) (k : json -> M B) :
  (forall d, safe (k d)) ->
  safe (r <- lift (requests_get url 10) ;;
        raise_for_status r ;;;
        d <- lift (json_ r) ;;
        k d).
Proof.
  intros Hk. destruct world as (Hget & _ & Hjson & _).
  intros log e log'. unfold bind at 1. simpl.
  destruct (requests_get url 10) as [r|e0] eqn:E.
  - apply safe_bind; [apply safe_raise_for_status|]. intros _.
    apply safe_bind; [|exact Hk].
    apply safe_lift. exact (Hjson _ _ _ E).
  - intros [= <- _]. exact (Hget _ _ _ E).
Qed.

Lemma safe_obtener_instituciones (base_url : string) :
  safe (obtener_instituciones_try requests_get base_url).
Proof. apply safe_metadata. intros d. apply safe_py_get. Qed.

Lemma safe_obtener_datasets_institucion (base_url org_id : string) :
  safe (obtener_datasets_institucion_try requests_get base_url org_id).
Proof.
  apply safe_metadata. intros d.
  apply safe_bind; [apply safe_py_get | intros; apply safe_py_get].
Qed.

Lemma safe_obtener_recursos_dataset (base_url dataset_id : string) :
  safe (obtener_recursos_dataset_try requests_get base_url dataset_id).
Proof.
  apply safe_metadata. intros d.
  apply safe_bind; [apply safe_py_get | intros; apply safe_py_get].
Qed.

Lemma safe_leer_csv_local (archivo : string) :
  safe (leer_csv_local_try read_csv archivo).
Proof.
  destruct world as (_ & _ & _ & Hcsv).
  apply safe_bind; [apply safe_lift, Hcsv | intros; apply safe_ret].
Qed.

Lemma safe_descargar_recurso_ckan (resource_id base_url : string) :
  safe (descargar_recurso_ckan_try requests_get read_csv py_repr resource_id base_url).
Proof.
  pose proof world as (Hget & _ & _ & Hcsv).
  apply safe_metadata. intros d.
  apply safe_bind; [apply safe_py_getitem | intros res].
  apply safe_bind; [apply safe_py_getitem | intros url_csv].
  apply safe_bind; [apply safe_st_message | intros _].
  apply safe_bind; [now apply safe_get_json_url | intros resp].
  apply safe_bind; [apply safe_raise_for_status | intros _].
  apply safe_bind; [apply safe_lift, Hcsv | intros; apply safe_ret].
Qed.

(** C8.  When what the world raises are [Exception]s, each of the five
    operations catches a failure of its [try] block: it shows a message and
    returns the empty list (the three listings) or [None] (the download and
    the local file), and otherwise returns what the block returned. *)
Theorem loaders_catch_failures
    (base_url org_id dataset_id resource_id archivo : string) :
  catches (obtener_instituciones requests_get base_url)
          (obtener_instituciones_try requests_get base_url)
          (JList []) Warning "No se pudieron obtener instituciones: "
  /\ catches (obtener_datasets_institucion requests_get base_url org_id)
             (obtener_datasets_institucion_try requests_get base_url org_id)
             (JList []) Warning "No se pudieron obtener datasets: "
  /\ catches (obtener_recursos_dataset requests_get base_url dataset_id)
             (obtener_recursos_dataset_try requests_get base_url dataset_id)
             (JList []) Warning "No se pudieron obtener recursos: "
  /\ catches (descargar_recurso_ckan requests_get read_csv py_repr resource_id base_url)
             (descargar_recurso_ckan_try requests_get read_csv py_repr
                resource_id base_url)
             None Error "Error al descargar o leer el recurso CKAN: "
  /\ catches (leer_csv_local read_csv archivo)
             (leer_csv_local_try read_csv archivo)
             None Error "No se pudo leer el archivo: ".
Proof.
  repeat split; apply try_except_catches.
  - apply safe_obtener_instituciones.
  - apply safe_obtener_datasets_institucion.
  - apply safe_obtener_recursos_dataset.
  - apply safe_descargar_recurso_ckan.
  - apply safe_leer_csv_local.
Qed.

End Failures.

Lemma ex_roto_failures_are_exceptions :
  failures_are_exceptions ex_get_roto ex_head_roto ex_read_csv_roto.
Proof.
  repeat split.
  - intros url t e. unfold ex_get_roto.
    repeat (destruct (String.eqb _ _)); try discriminate.
    intros [= <-]. reflexivity.
  - intros url t e [= <-]. reflexivity.
  - intros url t r. unfold ex_get_roto.
    repeat (destruct (String.eqb _ _)); try discriminate;
      intros [= <-] e; try discriminate.
    intros [= <-]. reflexivity.
  - intros bytes e [= <-]. reflexivity.
Qed.

Lemma loaders_catch_failures_witness :
  failures_are_exceptions ex_get_roto ex_head_roto ex_read_csv_roto
  /\ obtener_instituciones ex_get_roto ex_base_url []
     = (Ok (JList []),
        [ {| msg_nivel := Warning;
             msg_texto := "No se pudieron obtener instituciones: Connection refused" |} ])
  /\ obtener_datasets_institucion ex_get_roto ex_base_url "inegi" []
     = (Ok (JList []),
        [ {| msg_nivel := Warning;
             msg_texto := "No se pudieron obtener datasets: HTTPError" |} ])
  /\ obtener_recursos_dataset ex_get_roto ex_base_url "d1" []
     = (Ok (JList []),
        [ {| msg_nivel := Warning;
             msg_texto := "No se pudieron obtener recursos: Expecting value" |} ])
  /\ descargar_recurso_ckan ex_get_roto ex_read_csv_roto (fun _ => "") "r1"
       ex_base_url []
     = (Ok None,
        [ {| msg_nivel := Error;
             msg_texto := "Error al descargar o leer el recurso CKAN: 'result'" |} ])
  /\ leer_csv_local ex_read_csv_roto "a,b" []
     = (Ok None,
        [ {| msg_nivel := Error;
             msg_texto := "No se pudo leer el archivo: Error tokenizing data" |} ]).
Proof.
  pose proof ex_roto_failures_are_exceptions as Hw.
  destruct (loaders_catch_failures ex_get_roto ex_head_roto ex_read_csv_roto
              (fun _ => "") Hw ex_base_url "inegi" "d1" "r1" "a,b")
    as (H1 & H2 & H3 & H4 & H5).
  split; [exact Hw|].
  split; [exact (catches_raise _ _ _ _ _ [] _ [] H1 eq_refl)|].
  split; [exact (catches_raise _ _ _ _ _ [] _ [] H2 eq_refl)|].
  split; [exact (catches_raise _ _ _ _ _ [] _ [] H3 eq_refl)|].
  split; [exact (catches_raise _ _ _ _ _ [] _ [] H4 eq_refl)|].
  exact (catches_raise _ _ _ _ _ [] _ [] H5 eq_refl).
Defined.

(* ================================================================= *)
(** ** The size of a resource *)

Lemma raise_for_status_ok (r : Response) :
  status_ok r = true -> raise_for_status r = ret tt.
Proof.
  unfold status_ok, raise_for_status. intros H.
  apply negb_true_iff in H. now rewrite H.
Qed.

Lemma try_except_value {A : Type} (body : M A) (handler : exn -> M A)
    (log log' : list mensaje) (a : A) :
  body log = (Ok a, log') -> try_except body handler log = (Ok a, log').
Proof. intros H. unfold try_except. now rewrite H. Qed.

Lemma bind_ret {A B : Type} (a : A) (k : A -> M B) (log : list mensaje) :
  bind (ret a) k log = k a log.
Proof. reflexivity. Qed.

Lemma bind_lift_ok {A B : Type} (o : outcome A) (a : A) (k : A -> M B)
    (log : list mensaje) :
  o = Ok a -> bind (lift o) k log = k a log.
Proof. intros ->. reflexivity. Qed.

Lemma py_get_found (items : list (string * json)) (key : string) (default x : json) :
  lookup key items = Some x -> py_get (JDict items) key default = ret x.
Proof. intros H. unfold py_get. now rewrite H. Qed.

Lemma size_absent_get (res : list (string * json)) :
  size_absent res = true ->
  exists size, py_get (JDict res) "size" JNull = ret size /\ truthy size = false.
Proof.
  unfold size_absent, py_get. destruct (lookup "size" res) as [v|].
  - intros H. apply negb_true_iff in H. eauto.
  - intros _. exists JNull. auto.
Qed.

Lemma url_absent_get (res : list (string * json)) :
  url_absent res = true ->
  exists url, py_get (JDict res) "url" JNull = ret url /\ truthy url = false.
Proof.
  unfold url_absent, py_get. destruct (lookup "url" res) as [v|].
  - intros H. apply negb_true_iff in H. eauto.
  - intros _. exists JNull. auto.
Qed.

Section Size.
Variable requests_get : string -> Z -> outcome Response.
Variable requests_head : string -> Z -> outcome Response.
Variable int_of_str : string -> option Z.

(** C9.  For a resource whose metadata the catalog serves: a size reported
    by the catalog is the answer; when the catalog reports none, the answer
    is the Content-Length of a HEAD request to the URL of the resource; and
    when that header is missing too the answer is 0, which is displayed as
    "Tamaño desconocido", as is the answer [None] given when the catalog
    has no URL either.  No error is raised on any of these paths. *)
Theorem size_resolution
    (resource_id base_url : string) (r : Response)
    (items res : list (string * json)) (log : list mensaje) :
  requests_get (base_url ++ "/api/3/action/resource_show?id=" ++ resource_id)%string 10
  = Ok r ->
  status_ok r = true ->
  json_ r = Ok (JDict items) ->
  lookup "result" items = Some (JDict res) ->
  let op :=
    obtener_tamano_recurso_ckan requests_get requests_head int_of_str
      resource_id base_url in
  (forall size n,
      lookup "size" res = Some size -> truthy size = true ->
      py_int int_of_str size = Ok n ->
      op log = (Ok (Some n), log))
  /\ (forall u r2,
        size_absent res = true ->
        lookup "url" res = Some (JStr u) -> u <> "" ->
        requests_head u 10 = Ok r2 ->
        (forall v n,
            header_get "Content-Length" (headers r2) = Some v ->
            int_of_str v = Some n ->
            op log = (Ok (Some n), log))
        /\ (header_get "Content-Length" (headers r2) = None ->
            op log = (Ok (Some 0%Z), log)
            /\ obtener_tamano_legible (Some 0%Z) = "Tamaño desconocido"))
  /\ (size_absent res = true -> url_absent res = true ->
      op log = (Ok None, log)
      /\ obtener_tamano_legible None = "Tamaño desconocido").
Proof.
  intros Hget Hst Hjson Hres op. subst op.
  unfold obtener_tamano_recurso_ckan.
  split; [|split].
  - intros size n Hsize Htruthy Hint. apply try_except_value.
    unfold obtener_tamano_recurso_ckan_try. cbv zeta.
    rewrite (bind_lift_ok _ _ _ _ Hget); cbv beta.
    rewrite (raise_for_status_ok r Hst), bind_ret.
    rewrite (bind_lift_ok _ _ _ _ Hjson); cbv beta.
    rewrite (py_get_found _ _ _ _ Hres), bind_ret.
    rewrite (py_get_found _ _ _ _ Hsize), bind_ret, Htruthy.
    now rewrite (bind_lift_ok _ _ _ _ Hint).
  - intros u r2 Habs Hurl Hu Hhead.
    destruct (size_absent_get res Habs) as (size & Hsize & Hfalsy).
    assert (Hbody : forall n,
               py_int int_of_str (content_length r2) = Ok n ->
               obtener_tamano_recurso_ckan_try requests_get requests_head
                 int_of_str resource_id base_url log
               = (Ok (Some n), log)).
    { intros n Hn.
      unfold obtener_tamano_recurso_ckan_try. cbv zeta.
      rewrite (bind_lift_ok _ _ _ _ Hget); cbv beta.
      rewrite (raise_for_status_ok r Hst), bind_ret.
      rewrite (bind_lift_ok _ _ _ _ Hjson); cbv beta.
      rewrite (py_get_found _ _ _ _ Hres), bind_ret.
      rewrite Hsize, bind_ret, Hfalsy, bind_ret.
      rewrite (py_get_found _ _ _ _ Hurl), bind_ret.
      assert (Htr : truthy (JStr u) = true).
      { simpl. destruct (String.eqb_spec u ""); [contradiction | reflexivity]. }
      rewrite Htr. unfold head_json_url.
      rewrite (bind_lift_ok _ _ _ _ Hhead).
      now rewrite (bind_lift_ok _ _ _ _ Hn). }
    split.
    + intros v n Hv Hn. apply try_except_value, Hbody.
      unfold content_length. rewrite Hv. simpl. now rewrite Hn.
    + intros Hnone. split; [|reflexivity].
      apply try_except_value, Hbody.
      unfold content_length. now rewrite Hnone.
  - intros Habs Hno. split; [|reflexivity].
    destruct (size_absent_get res Habs) as (size & Hsize & Hfalsy).
    destruct (url_absent_get res Hno) as (url & Hurl & Hufalsy).
    apply try_except_value.
    unfold obtener_tamano_recurso_ckan_try. cbv zeta.
    rewrite (bind_lift_ok _ _ _ _ Hget); cbv beta.
    rewrite (raise_for_status_ok r Hst), bind_ret.
    rewrite (bind_lift_ok _ _ _ _ Hjson); cbv beta.
    rewrite (py_get_found _ _ _ _ Hres), bind_ret.
    rewrite Hsize, bind_ret, Hfalsy, bind_ret.
    now rewrite Hurl, bind_ret, Hufalsy.
Qed.

End Size.

Lemma size_resolution_witness :
  size_absent ex_recurso_sin_tamano = true
  /\ header_get "Content-Length" [("Content-Type", "text/csv")] = None
  /\ obtener_tamano_recurso_ckan ex_get_sin_tamano ex_head_sin_tamano
       (fun _ => None) "r1" ex_base_url []
     = (Ok (Some 0%Z), [])
  /\ obtener_tamano_legible (Some 0%Z) = "Tamaño desconocido".
Proof.
  refine (conj eq_refl (conj eq_refl _)).
  destruct (size_resolution ex_get_sin_tamano ex_head_sin_tamano (fun _ => None)
              "r1" ex_base_url
              (ex_respuesta 200
                 (Ok (JDict [("success", JBool true);
                             ("result", JDict ex_recurso_sin_tamano)])) [])
              [("success", JBool true); ("result", JDict ex_recurso_sin_tamano)]
              ex_recurso_sin_tamano []
              eq_refl eq_refl eq_refl eq_refl) as (_ & Hhead & _).
  assert (Hu : "https://example.org/r1.csv" <> "") by discriminate.
  exact (proj2 (Hhead "https://example.org/r1.csv"
                  (ex_respuesta 200
                     (Raise {| exn_cls := ValueError; exn_str := "Expecting value" |})
                     [("Content-Type", "text/csv")])
                  eq_refl eq_refl Hu eq_refl) eq_refl).
Defined.

(* ================================================================= *)
(** ** The summarizer reads the store and only adds to it *)

Lemma nth_error_app_plus {A : Type} (h l : list A) (i : nat) :
  nth_error (h ++ l) (i + length h) = nth_error l i.
Proof. rewrite nth_error_app2 by lia. f_equal. lia. Qed.

Lemma nth_error_app_old {A : Type} (h l : list A) (r : nat) (o : A) :
  nth_error h r = Some o -> nth_error (h ++ l) r = Some o.
Proof.
  intros H. rewrite nth_error_app1; [assumption|].
  apply nth_error_Some. congruence.
Qed.

Lemma update_app_plus {A : Type} (h l : list A) (i : nat) (x : A) :
  Store.update (i + length h) x (h ++ l) = h ++ Store.update i x l.
Proof.
  induction h as [|a h IH]; simpl.
  - now rewrite Nat.add_0_r.
  - rewrite Nat.add_succ_r. simpl. now f_equal.
Qed.

Lemma store_app_plus (h l : list Store.obj) (i : nat) (o : Store.obj) :
  i < length l ->
  Store.store (i + length h) o (h ++ l) = Some (tt, h ++ Store.update i o l).
Proof.
  intros Hi. unfold Store.store. rewrite length_app, update_app_plus.
  destruct (Nat.ltb_spec (i + length h) (length h + length l)); [reflexivity | lia].
Qed.

Lemma append_num_spec (h : Store.heap) (acc : Resumen) (f : FilaNumerica) :
  Store.append_num (length h) f (h ++ estado acc)
  = Some (tt, h ++ estado {| df_num := df_num acc ++ [f];
                             df_text_rep := df_text_rep acc;
                             df_text_uni := df_text_uni acc |}).
Proof.
  unfold Store.append_num, Store.bind_st, Store.load.
  pose proof (nth_error_app_plus h (estado acc) 0) as E. cbn [Nat.add] in E.
  rewrite E. simpl nth_error.
  apply (store_app_plus h (estado acc) 0). simpl. lia.
Qed.

Lemma append_rep_spec (h : Store.heap) (acc : Resumen) (f : FilaTextoRepetido) :
  Store.append_rep (S (length h)) f (h ++ estado acc)
  = Some (tt, h ++ estado {| df_num := df_num acc;
                             df_text_rep := df_text_rep acc ++ [f];
                             df_text_uni := df_text_uni acc |}).
Proof.
  unfold Store.append_rep, Store.bind_st, Store.load.
  pose proof (nth_error_app_plus h (estado acc) 1) as E. cbn [Nat.add] in E.
  rewrite E. simpl nth_error.
  apply (store_app_plus h (estado acc) 1). simpl. lia.
Qed.

Lemma append_uni_spec (h : Store.heap) (acc : Resumen) (f : FilaTextoUnico) :
  Store.append_uni (S (S (length h))) f (h ++ estado acc)
  = Some (tt, h ++ estado {| df_num := df_num acc;
                             df_text_rep := df_text_rep acc;
                             df_text_uni := df_text_uni acc ++ [f] |}).
Proof.
  unfold Store.append_uni, Store.bind_st, Store.load.
  pose proof (nth_error_app_plus h (estado acc) 2) as E. cbn [Nat.add] in E.
  rewrite E. simpl nth_error.
  apply (store_app_plus h (estado acc) 2). simpl. lia.
Qed.

Lemma load_tabla_spec (h l : Store.heap) (df : Store.ref) (d : DataFrame) :
  nth_error h df = Some (Store.Tabla d) ->
  Store.load_tabla df (h ++ l) = Some (d, h ++ l).
Proof.
  intros H. unfold Store.load_tabla, Store.bind_st, Store.load.
  now rewrite (nth_error_app_old h l df _ H).
Qed.

Lemma lookup_label (l : list (string * Series)) (c : string * Series) :
  NoDup (map fst l) -> In c l -> lookup (fst c) l = Some (snd c).
Proof.
  induction l as [|[k s] l IH]; simpl; intros Hnd Hin; [contradiction|].
  inversion Hnd as [|? ? Hk Hnd']; subst.
  destruct Hin as [<-|Hin]; simpl.
  - now rewrite String.eqb_refl.
  - destruct (String.eqb_spec k (fst c)) as [E|_]; [|auto].
    exfalso. apply Hk. rewrite E. now apply in_map.
Qed.

(** One turn of the loop does to the three lists what [resumen_columna]
    does to the three tables, and touches nothing else. *)
Lemma cuerpo_spec (h : Store.heap) (df : Store.ref) (d : DataFrame)
    (acc : Resumen) (c : string * Series) :
  nth_error h df = Some (Store.Tabla d) ->
  lookup (fst c) (data d) = Some (snd c) ->
  Store.cuerpo (length h) (S (length h)) (S (S (length h))) df (fst c)
    (h ++ estado acc)
  = Some (tt, h ++ estado (resumen_columna acc c)).
Proof.
  intros Hdf Hc. unfold Store.cuerpo, Store.getitem.
  unfold Store.bind_st at 1 2. rewrite (load_tabla_spec h _ df d Hdf), Hc.
  unfold Store.unit_st at 1. unfold resumen_columna.
  destruct (numeric_values (snd c)) as [x|].
  - apply append_num_spec.
  - destruct (string_values (snd c)) as [v|].
    + destruct (criterio_repetidos _ _).
      * apply append_rep_spec.
      * apply append_uni_spec.
    + unfold Store.unit_st. now destruct acc.
Qed.

Lemma for_each_spec (h : Store.heap) (df : Store.ref) (d : DataFrame)
    (cs : list (string * Series)) (acc : Resumen) :
  nth_error h df = Some (Store.Tabla d) ->
  (forall c, In c cs -> lookup (fst c) (data d) = Some (snd c)) ->
  Store.for_each (map fst cs)
    (Store.cuerpo (length h) (S (length h)) (S (S (length h))) df)
    (h ++ estado acc)
  = Some (tt, h ++ estado (fold_left resumen_columna cs acc)).
Proof.
  intros Hdf. revert acc. induction cs as [|c cs IH]; intros acc Hcs.
  - reflexivity.
  - simpl. unfold Store.bind_st.
    rewrite (cuerpo_spec h df d acc c Hdf) by (apply Hcs; now left).
    apply IH. intros c' Hc'. apply Hcs. now right.
Qed.

Lemma alloc_three {B : Type} (o1 o2 o3 : Store.obj)
    (k : Store.ref -> Store.ref -> Store.ref -> Store.ST B) (h : Store.heap) :
  Store.bind_st (Store.alloc o1)
    (fun a => Store.bind_st (Store.alloc o2)
       (fun b => Store.bind_st (Store.alloc o3) (fun c => k a b c))) h
  = k (length h) (S (length h)) (S (S (length h))) (h ++ [o1; o2; o3]).
Proof.
  unfold Store.bind_st, Store.alloc. rewrite !length_app. simpl.
  rewrite <- !app_assoc. simpl.
  now replace (length h + 1 + 1) with (S (S (length h))) by lia;
    replace (length h + 1) with (S (length h)) by lia.
Qed.

(** [resumen_por_tipo] on the store: the three tables it returns are new
    objects that hold what the function of the table gives, after the store
    as it was and the three lists. *)
Lemma resumen_por_tipo_spec (h : Store.heap) (df : Store.ref) (d : DataFrame) :
  nth_error h df = Some (Store.Tabla d) ->
  NoDup (columns d) ->
  let t := resumen_por_tipo d in
  Store.resumen_por_tipo df h
  = Some ((3 + length h, 4 + length h, 5 + length h),
          h ++ estado t
            ++ [Store.TablaNum (df_num t); Store.TablaRep (df_text_rep t);
                Store.TablaUni (df_text_uni t)]).
Proof.
  intros Hdf Hnd t. unfold Store.resumen_por_tipo.
  rewrite alloc_three. change [Store.ListaNum []; Store.ListaRep []; Store.ListaUni []]
    with (estado resumen_vacio).
  unfold Store.bind_st at 1. rewrite (load_tabla_spec h _ df d Hdf).
  unfold Store.bind_st at 1. unfold columns.
  rewrite (for_each_spec h df d (data d) resumen_vacio Hdf)
    by (intros c Hc; now apply lookup_label).
  fold (resumen_por_tipo d). fold t.
  unfold Store.bind_st at 1, Store.load at 1.
  pose proof (nth_error_app_plus h (estado t) 0) as E0. cbn [Nat.add] in E0.
  rewrite E0. simpl nth_error.
  unfold Store.bind_st at 1, Store.load at 1.
  pose proof (nth_error_app_plus h (estado t) 1) as E1. cbn [Nat.add] in E1.
  rewrite E1. simpl nth_error.
  unfold Store.bind_st at 1, Store.load at 1.
  pose proof (nth_error_app_plus h (estado t) 2) as E2. cbn [Nat.add] in E2.
  rewrite E2. simpl nth_error. cbv beta iota.
  rewrite alloc_three. unfold Store.unit_st.
  rewrite length_app. simpl length.
  replace (length h + 3) with (3 + length h) by lia.
  now rewrite <- app_assoc.
Qed.

Lemma resumen_general_spec (h : Store.heap) (df : Store.ref) (d : DataFrame) :
  nth_error h df = Some (Store.Tabla d) ->
  Store.resumen_general df h
  = Some (length h, h ++ [Store.TablaGeneral (resumen_general d)]).
Proof.
  intros Hdf. unfold Store.resumen_general, Store.bind_st.
  rewrite <- (app_nil_r h) at 1. rewrite (load_tabla_spec h [] df d Hdf).
  now rewrite app_nil_r.
Qed.

Lemma unchanged_app (h l : Store.heap) : Store.unchanged h (h ++ l).
Proof. intros r o. apply nth_error_app_old. Qed.

(** One pane: the store grows by eight objects, and the four tables hold
    the summaries of the table read. *)
Lemma resumir_spec (h : Store.heap) (df : Store.ref) (d : DataFrame) :
  nth_error h df = Some (Store.Tabla d) ->
  NoDup (columns d) ->
  exists p l,
    Store.resumir df h = Some (p, h ++ l)
    /\ Store.holds (h ++ l) p (resumen_general d) (resumen_por_tipo d).
Proof.
  intros Hdf Hnd. unfold Store.resumir, Store.bind_st.
  rewrite (resumen_general_spec h df d Hdf).
  set (h1 := h ++ [Store.TablaGeneral (resumen_general d)]).
  assert (Hdf1 : nth_error h1 df = Some (Store.Tabla d))
    by now apply nth_error_app_old.
  rewrite (resumen_por_tipo_spec h1 df d Hdf1 Hnd). unfold Store.unit_st.
  set (t := resumen_por_tipo d).
  set (l2 := estado t ++ _).
  exists (length h, (3 + length h1, 4 + length h1, 5 + length h1)),
         ([Store.TablaGeneral (resumen_general d)] ++ l2).
  split; [unfold h1; now rewrite <- app_assoc|].
  rewrite app_assoc. fold h1. unfold Store.holds. cbn [fst snd].
  split.
  { apply nth_error_app_old. unfold h1.
    now rewrite (nth_error_app_plus h _ 0). }
  unfold l2.
  rewrite (nth_error_app_plus h1 _ 3), (nth_error_app_plus h1 _ 4),
    (nth_error_app_plus h1 _ 5).
  repeat split.
Qed.

(** C7.  Summarizing a table of the store twice in a row gives four tables
    with the same contents both times, those of the functions of the table;
    the table read, and every other object that was in the store, is
    unchanged after the two calls. *)
Theorem summarizer_reads_only (h : Store.heap) (df : Store.ref) (d : DataFrame) :
  nth_error h df = Some (Store.Tabla d) ->
  wf d ->
  exists p1 h1 p2 h2,
    Store.resumir df h = Some (p1, h1)
    /\ Store.resumir df h1 = Some (p2, h2)
    /\ Store.holds h2 p1 (resumen_general d) (resumen_por_tipo d)
    /\ Store.holds h2 p2 (resumen_general d) (resumen_por_tipo d)
    /\ nth_error h2 df = Some (Store.Tabla d)
    /\ Store.unchanged h h2.
Proof.
  intros Hdf [_ Hnd].
  destruct (resumir_spec h df d Hdf Hnd) as (p1 & l1 & H1 & Hp1).
  assert (Hdf1 : nth_error (h ++ l1) df = Some (Store.Tabla d))
    by now apply nth_error_app_old.
  destruct (resumir_spec (h ++ l1) df d Hdf1 Hnd) as (p2 & l2 & H2 & Hp2).
  exists p1, (h ++ l1), p2, ((h ++ l1) ++ l2).
  split; [assumption|]. split; [assumption|].
  split.
  { destruct Hp1 as (A & B & C & D).
    repeat split; now apply nth_error_app_old. }
  split; [assumption|].
  split; [now apply nth_error_app_old|].
  rewrite <- app_assoc. apply unchanged_app.
Qed.

Lemma summarizer_reads_only_witness :
  wf ex_letras_df
  /\ exists p1 h1 p2 h2,
       Store.resumir 0 [Store.Tabla ex_letras_df] = Some (p1, h1)
       /\ Store.resumir 0 h1 = Some (p2, h2)
       /\ nth_error h2 (fst p1) = nth_error h2 (fst p2)
       /\ nth_error h2 0 = Some (Store.Tabla ex_letras_df).
Proof.
  assert (Hwf : wf ex_letras_df).
  { split; simpl; repeat constructor. simpl. tauto. }
  split; [exact Hwf|].
  destruct (summarizer_reads_only [Store.Tabla ex_letras_df] 0 ex_letras_df
              eq_refl Hwf)
    as (p1 & h1 & p2 & h2 & H1 & H2 & (G1 & _) & (G2 & _) & Hdf & _).
  exists p1, h1, p2, h2. repeat split; try assumption. congruence.
Defined.

(* ================================================================= *)
(** ** More about the summarizer *)

Lemma criterio_repetidos_nat (n_unicos n_total : nat) :
  criterio_repetidos n_unicos n_total = (5 * n_unicos <? 4 * n_total).
Proof.
  assert (Hq : (QN n_unicos < (8 # 10) * QN n_total)%Q
               <-> 5 * n_unicos < 4 * n_total).
  { unfold QN, Qlt, Qmult, inject_Z. cbn [Qnum Qden].
    change (Z.pos (10 * 1)) with 10%Z. lia. }
  destruct (Nat.ltb_spec (5 * n_unicos) (4 * n_total)) as [H|H].
  - apply criterio_repetidos_iff, Hq, H.
  - destruct (criterio_repetidos n_unicos n_total) eqn:E; [|reflexivity].
    apply criterio_repetidos_iff, Hq in E. lia.
Qed.

(** What one column appends, by the kind of its dtype. *)
Lemma resumen_columna_cases (c : string * Series) :
  let r := resumen_columna resumen_vacio c in
  (is_numeric_dtype (snd c) = true
   /\ (exists row, df_num r = [row]) /\ df_text_rep r = [] /\ df_text_uni r = [])
  \/ (repeated_text (snd c) = true /\ is_numeric_dtype (snd c) = false
      /\ df_num r = [] /\ (exists row, df_text_rep r = [row]) /\ df_text_uni r = [])
  \/ (unique_text (snd c) = true /\ is_numeric_dtype (snd c) = false
      /\ df_num r = [] /\ df_text_rep r = [] /\ (exists row, df_text_uni r = [row]))
  \/ (is_numeric_dtype (snd c) = false /\ is_string_dtype (snd c) = false
      /\ r = resumen_vacio).
Proof.
  destruct c as [col serie]. cbn [snd].
  destruct (is_numeric_dtype serie) eqn:En.
  { left. destruct (numeric_values_some serie En) as [x Hx].
    rewrite (resumen_columna_numeric col serie x Hx). simpl. eauto. }
  destruct (is_string_dtype serie) eqn:Es.
  2:{ right. right. right. destruct (not_numeric_not_string serie En Es) as [Hx Hv].
      unfold resumen_columna. simpl. rewrite Hx, Hv. auto. }
  destruct (string_values_some serie Es) as [v Hv].
  rewrite (resumen_columna_string col serie v Hv).
  unfold repeated_text, unique_text, distinct_non_null. rewrite Es, Hv.
  rewrite <- (unique_length pyobj_eqb pyobj_eqb_eq pyobj_eq_dec).
  rewrite <- criterio_repetidos_nat.
  destruct (criterio_repetidos _ _); simpl.
  - right. left. repeat split; eauto.
  - right. right. left. repeat split; eauto.
Qed.

Lemma labels_flat_map {B : Type} (name : B -> string) (g : string * Series -> list B)
    (p : Series -> bool) (l : list (string * Series)) :
  (forall c, Forall (fun f => name f = fst c) (g c)) ->
  (forall c, p (snd c) = true -> exists row, g c = [row]) ->
  (forall c, p (snd c) = false -> g c = []) ->
  map name (flat_map g l) = map fst (filter (fun c => p (snd c)) l).
Proof.
  intros Hname Hyes Hno. induction l as [|c l IH]; [reflexivity|].
  cbn [flat_map filter]. rewrite map_app, IH.
  destruct (p (snd c)) eqn:E.
  - destruct (Hyes c E) as [row Hrow]. specialize (Hname c).
    rewrite Hrow in *. inversion Hname; subst. simpl. now f_equal.
  - now rewrite (Hno c E).
Qed.

Lemma kinds_exclusive (s : Series) :
  (is_numeric_dtype s = true -> repeated_text s = false /\ unique_text s = false)
  /\ (repeated_text s = true -> unique_text s = false).
Proof.
  unfold repeated_text, unique_text. split.
  - destruct s; simpl; try discriminate; auto.
  - destruct (is_string_dtype s); simpl; [|discriminate].
    now intros ->.
Qed.

(** The labels of the rows of each table, read off the columns. *)
Lemma resumen_por_tipo_labels (df : DataFrame) :
  map num_Columna (df_num (resumen_por_tipo df)) = labels_where is_numeric_dtype df
  /\ map rep_Columna (df_text_rep (resumen_por_tipo df)) = labels_where repeated_text df
  /\ map uni_Columna (df_text_uni (resumen_por_tipo df)) = labels_where unique_text df.
Proof.
  destruct (resumen_por_tipo_tables df) as (-> & -> & ->).
  unfold labels_where. repeat split.
  - apply labels_flat_map.
    + intros c. apply (resumen_columna_labels c).
    + intros c Hc. destruct (resumen_columna_cases c)
        as [(_ & H & _)|[(_ & E & _)|[(_ & E & _)|(E & _)]]]; congruence.
    + intros c Hc. destruct (resumen_columna_cases c)
        as [(E & _)|[(_ & _ & H & _)|[(_ & _ & H & _)|(_ & _ & ->)]]];
        [congruence | assumption | assumption | reflexivity].
  - apply labels_flat_map.
    + intros c. apply (resumen_columna_labels c).
    + intros c Hc. destruct (resumen_columna_cases c)
        as [(E & _)|[(_ & _ & _ & H & _)|[(E & _)|(_ & E & _)]]].
      * apply kinds_exclusive in E. destruct E. congruence.
      * assumption.
      * pose proof (proj2 (kinds_exclusive (snd c)) Hc). congruence.
      * unfold repeated_text in Hc. rewrite E in Hc. discriminate.
    + intros c Hc. destruct (resumen_columna_cases c)
        as [(_ & _ & H & _)|[(E & _)|[(_ & _ & _ & H & _)|(_ & _ & ->)]]];
        [assumption | congruence | assumption | reflexivity].
  - apply labels_flat_map.
    + intros c. apply (resumen_columna_labels c).
    + intros c Hc. destruct (resumen_columna_cases c)
        as [(E & _)|[(E & _)|[(_ & _ & _ & _ & H)|(_ & E & _)]]].
      * apply kinds_exclusive in E. destruct E. congruence.
      * apply kinds_exclusive in E. congruence.
      * assumption.
      * unfold unique_text in Hc. rewrite E in Hc. discriminate.
    + intros c Hc. destruct (resumen_columna_cases c)
        as [(_ & _ & _ & H)|[(_ & _ & _ & _ & H)|[(E & _)|(_ & _ & ->)]]];
        [assumption | assumption | congruence | reflexivity].
Qed.

(** X1.  For a table with distinct labels, each of the three tables lists
    its columns in the order of the input: the numeric table has one row per numeric-dtype column, the table
    of repeated text one row per string-dtype column below the 80%
    threshold, the table of unique text one row per other string-dtype
    column. *)
Theorem tables_follow_column_order (df : DataFrame) :
  wf df ->
  let r := resumen_por_tipo df in
  map num_Columna (df_num r) = labels_where is_numeric_dtype df
  /\ map rep_Columna (df_text_rep r) = labels_where repeated_text df
  /\ map uni_Columna (df_text_uni r) = labels_where unique_text df.
Proof. intros _ r. apply resumen_por_tipo_labels. Qed.

Lemma tables_follow_column_order_witness :
  wf ex_nulos_df
  /\ map num_Columna (df_num (resumen_por_tipo ex_nulos_df)) = ["vacia"]
  /\ map rep_Columna (df_text_rep (resumen_por_tipo ex_nulos_df)) = ["texto"]
  /\ map uni_Columna (df_text_uni (resumen_por_tipo ex_nulos_df)) = [].
Proof.
  assert (Hwf : wf ex_nulos_df).
  { split; simpl; repeat constructor; simpl; intuition discriminate. }
  exact (conj Hwf (tables_follow_column_order ex_nulos_df Hwf)).
Defined.

Lemma NoDup_labels_filter (p : string * Series -> bool) (l : list (string * Series)) :
  NoDup (map fst l) -> NoDup (map fst (filter p l)).
Proof.
  induction l as [|c l IH]; simpl; intros Hnd; [constructor|].
  inversion Hnd as [|? ? Hc Hnd']; subst.
  destruct (p c); simpl; [|auto].
  constructor; [|auto].
  intros Hin. apply Hc. apply in_map_iff in Hin.
  destruct Hin as (c' & E & Hc'). apply filter_In in Hc'.
  rewrite <- E. apply in_map. tauto.
Qed.

Lemma label_determines_column (l : list (string * Series)) (c1 c2 : string * Series) :
  NoDup (map fst l) -> In c1 l -> In c2 l -> fst c1 = fst c2 -> c1 = c2.
Proof.
  intros Hnd H1 H2 E.
  pose proof (lookup_label l c1 Hnd H1) as L1.
  pose proof (lookup_label l c2 Hnd H2) as L2.
  rewrite E in L1. rewrite L1 in L2. injection L2 as E2.
  destruct c1, c2. simpl in *. congruence.
Qed.

Lemma labels_where_disjoint (p q : Series -> bool) (df : DataFrame) (x : string) :
  NoDup (columns df) ->
  (forall s, p s = true -> q s = false) ->
  In x (labels_where p df) -> In x (labels_where q df) -> False.
Proof.
  unfold labels_where. intros Hnd Hpq Hp Hq.
  apply in_map_iff in Hp. destruct Hp as (c1 & E1 & H1).
  apply in_map_iff in Hq. destruct Hq as (c2 & E2 & H2).
  apply filter_In in H1. apply filter_In in H2.
  assert (c1 = c2) by (apply (label_determines_column (data df)); intuition congruence).
  subst c2. destruct H1 as [_ H1]. destruct H2 as [_ H2].
  rewrite (Hpq _ H1) in H2. discriminate.
Qed.

(** X2.  In a table with distinct labels no column is reported twice: the
    labels of the rows of the three tables, taken together, are distinct. *)
Theorem no_column_reported_twice (df : DataFrame) :
  wf df ->
  let r := resumen_por_tipo df in
  NoDup (map num_Columna (df_num r) ++ map rep_Columna (df_text_rep r)
         ++ map uni_Columna (df_text_uni r)).
Proof.
  intros [_ Hnd] r. subst r.
  destruct (resumen_por_tipo_labels df) as (-> & -> & ->).
  apply NoDup_app; [apply NoDup_labels_filter, Hnd | |].
  - apply NoDup_app; [apply NoDup_labels_filter, Hnd
                     | apply NoDup_labels_filter, Hnd |].
    intros x Hx Hy.
    apply (labels_where_disjoint repeated_text unique_text df x Hnd); auto.
    intros s. apply (proj2 (kinds_exclusive s)).
  - intros x Hx Hy. apply in_app_or in Hy. destruct Hy as [Hy|Hy].
    + apply (labels_where_disjoint is_numeric_dtype repeated_text df x Hnd); auto.
      intros s Hs. apply (proj1 (kinds_exclusive s) Hs).
    + apply (labels_where_disjoint is_numeric_dtype unique_text df x Hnd); auto.
      intros s Hs. apply (proj1 (kinds_exclusive s) Hs).
Qed.

Lemma no_column_reported_twice_witness :
  wf ex_nulos_df
  /\ NoDup (map num_Columna (df_num (resumen_por_tipo ex_nulos_df))
            ++ map rep_Columna (df_text_rep (resumen_por_tipo ex_nulos_df))
            ++ map uni_Columna (df_text_uni (resumen_por_tipo ex_nulos_df))).
Proof.
  assert (Hwf : wf ex_nulos_df).
  { split; simpl; repeat constructor; simpl; intuition discriminate. }
  exact (conj Hwf (no_column_reported_twice ex_nulos_df Hwf)).
Defined.

(** Where the rows of the three tables come from. *)
Lemma uni_row_origin (df : DataFrame) (row : FilaTextoUnico) :
  In row (df_text_uni (resumen_por_tipo df)) ->
  exists col serie v,
    In (col, serie) (data df) /\ string_values serie = Some v
    /\ criterio_repetidos (length (unique pyobj_eqb (dropna v))) (len serie) = false
    /\ row = {| uni_Columna := col;
                uni_Valores_no_nulos := length (dropna v);
                uni_Nulos := length (filter isnull v);
                uni_Valores_unicos := length (unique pyobj_eqb (dropna v)) |}.
Proof.
  destruct (resumen_por_tipo_tables df) as (_ & _ & ->).
  intros Hrow. apply in_flat_map in Hrow. destruct Hrow as ([col serie] & Hin & Hrow).
  destruct (is_numeric_dtype serie) eqn:En.
  { destruct (numeric_values_some serie En) as [x Hx].
    rewrite (resumen_columna_numeric col serie x Hx) in Hrow. destruct Hrow. }
  destruct (is_string_dtype serie) eqn:Es.
  2:{ destruct (not_numeric_not_string serie En Es) as [Hx Hv].
      unfold resumen_columna in Hrow. simpl in Hrow. rewrite Hx, Hv in Hrow.
      destruct Hrow. }
  destruct (string_values_some serie Es) as [v Hv].
  rewrite (resumen_columna_string col serie v Hv) in Hrow.
  destruct (criterio_repetidos _ _) eqn:E; simpl in Hrow; [destruct Hrow|].
  destruct Hrow as [<-|[]]. exists col, serie, v. auto.
Qed.

Lemma rep_row_origin (df : DataFrame) (row : FilaTextoRepetido) :
  In row (df_text_rep (resumen_por_tipo df)) ->
  exists col serie v,
    In (col, serie) (data df) /\ string_values serie = Some v
    /\ criterio_repetidos (length (unique pyobj_eqb (dropna v))) (len serie) = true
    /\ row = {| rep_Columna := col;
                rep_Categorias_unicas := length (unique pyobj_eqb (dropna v));
                rep_Top_5_valores :=
                  String.concat ", "
                    (map formato_valor (head 5 (value_counts pyobj_eqb v))) |}.
Proof.
  destruct (resumen_por_tipo_tables df) as (_ & -> & _).
  intros Hrow. apply in_flat_map in Hrow. destruct Hrow as ([col serie] & Hin & Hrow).
  destruct (is_numeric_dtype serie) eqn:En.
  { destruct (numeric_values_some serie En) as [x Hx].
    rewrite (resumen_columna_numeric col serie x Hx) in Hrow. destruct Hrow. }
  destruct (is_string_dtype serie) eqn:Es.
  2:{ destruct (not_numeric_not_string serie En Es) as [Hx Hv].
      unfold resumen_columna in Hrow. simpl in Hrow. rewrite Hx, Hv in Hrow.
      destruct Hrow. }
  destruct (string_values_some serie Es) as [v Hv].
  rewrite (resumen_columna_string col serie v Hv) in Hrow.
  destruct (criterio_repetidos _ _) eqn:E; simpl in Hrow; [|destruct Hrow].
  destruct Hrow as [<-|[]]. exists col, serie, v. auto.
Qed.

Lemma num_row_origin (df : DataFrame) (row : FilaNumerica) :
  In row (df_num (resumen_por_tipo df)) ->
  exists col serie x,
    In (col, serie) (data df) /\ numeric_values serie = Some x
    /\ row = {| num_Columna := col;
                num_count := length (dropna x);
                num_mean := mean x;
                num_std := std x;
                num_min := min x;
                num_median := median x;
                num_max := max x |}.
Proof.
  destruct (resumen_por_tipo_tables df) as (-> & _ & _).
  intros Hrow. apply in_flat_map in Hrow. destruct Hrow as ([col serie] & Hin & Hrow).
  destruct (is_numeric_dtype serie) eqn:En.
  { destruct (numeric_values_some serie En) as [x Hx].
    rewrite (resumen_columna_numeric col serie x Hx) in Hrow.
    destruct Hrow as [<-|[]]. exists col, serie, x. auto. }
  destruct (is_string_dtype serie) eqn:Es.
  2:{ destruct (not_numeric_not_string serie En Es) as [Hx Hv].
      unfold resumen_columna in Hrow. simpl in Hrow. rewrite Hx, Hv in Hrow.
      destruct Hrow. }
  destruct (string_values_some serie Es) as [v Hv].
  rewrite (resumen_columna_string col serie v Hv) in Hrow.
  destruct (criterio_repetidos _ _); destruct Hrow.
Qed.

Lemma dropna_filter_length {A : Type} (v : list (option A)) :
  length (dropna v) + length (filter isnull v) = length v.
Proof. induction v as [|[a|] v IH]; simpl; lia. Qed.

Lemma unique_py_length_le (xs : list pyobj) :
  length (unique pyobj_eqb xs) <= length xs.
Proof.
  apply NoDup_incl_length; [apply unique_py_NoDup|].
  intros y. apply unique_py_In.
Qed.

Lemma column_rows (df : DataFrame) (c : string * Series) :
  wf df -> In c (data df) -> len (snd c) = len_df df.
Proof.
  intros [Hrect _] Hin. rewrite Forall_forall in Hrect. now apply Hrect.
Qed.

(** X3.  In a rectangular table of [n] rows, a row of the table of unique
    text has non-null and null counts that add up to [n], no more distinct
    values than non-null ones, distinct values that are at least 80% of
    [n], and so nulls that are at most 20% of [n]; a row of the table of
    repeated text has fewer distinct values than 80% of [n], no more than
    the non-null cells, and its column has at least one row. *)
Theorem text_row_counts (df : DataFrame) :
  wf df ->
  let r := resumen_por_tipo df in
  let n := len_df df in
  (forall row, In row (df_text_uni r) ->
     uni_Valores_no_nulos row + uni_Nulos row = n
     /\ uni_Valores_unicos row <= uni_Valores_no_nulos row
     /\ 4 * n <= 5 * uni_Valores_unicos row
     /\ 5 * uni_Nulos row <= n)
  /\ (forall row, In row (df_text_rep r) ->
        5 * rep_Categorias_unicas row < 4 * n
        /\ rep_Categorias_unicas row <= n
        /\ 0 < n).
Proof.
  intros Hwf r n. split; intros row Hrow.
  - destruct (uni_row_origin df row Hrow) as (col & serie & v & Hin & Hv & Hc & ->).
    destruct (string_values_spec serie v Hv) as (_ & _ & _ & Hlen).
    pose proof (column_rows df (col, serie) Hwf Hin) as Hn. simpl in Hn.
    fold n in Hn. rewrite criterio_repetidos_nat, Hn in Hc.
    apply Nat.ltb_ge in Hc. cbn [uni_Valores_no_nulos uni_Nulos uni_Valores_unicos].
    pose proof (dropna_filter_length v) as Hsum.
    pose proof (unique_py_length_le (dropna v)) as Hle.
    lia.
  - destruct (rep_row_origin df row Hrow) as (col & serie & v & Hin & Hv & Hc & ->).
    destruct (string_values_spec serie v Hv) as (_ & _ & _ & Hlen).
    pose proof (column_rows df (col, serie) Hwf Hin) as Hn. simpl in Hn.
    fold n in Hn. rewrite criterio_repetidos_nat, Hn in Hc.
    apply Nat.ltb_lt in Hc. cbn [rep_Categorias_unicas].
    pose proof (dropna_filter_length v) as Hsum.
    pose proof (unique_py_length_le (dropna v)) as Hle.
    lia.
Qed.

Lemma text_row_counts_witness :
  wf ex_letras_df
  /\ forall row, In row (df_text_rep (resumen_por_tipo ex_letras_df)) ->
       5 * rep_Categorias_unicas row < 4 * 10.
Proof.
  assert (Hwf : wf ex_letras_df).
  { split; simpl; repeat constructor. simpl. tauto. }
  split; [exact Hwf|].
  intros row Hrow.
  exact (proj1 (proj2 (text_row_counts ex_letras_df Hwf) row Hrow)).
Defined.

Lemma isna_sum_bound (n : nat) (l : list (string * Series)) :
  Forall (fun c => len (snd c) = n) l ->
  list_sum_nat (map (fun c => sum_bool (isna (snd c))) l) <= n * length l.
Proof.
  induction 1 as [|c l Hc _ IH]; cbn [map list_sum_nat fold_right length]; [lia|].
  change (fold_right Nat.add 0 ?x) with (list_sum_nat x).
  pose proof (sum_bool_le (isna (snd c))) as Hle.
  rewrite isna_length, Hc in Hle. lia.
Qed.

(** X5.  In a rectangular table the total of nulls is at most the number
    of cells, rows times columns. *)
Theorem nulls_at_most_cells (df : DataFrame) :
  wf df ->
  let g := resumen_general df in
  Nulos_totales g <= Filas g * Columnas g.
Proof.
  intros [Hrect _]. cbn. unfold isna_sum, columns, len_df.
  rewrite length_map. now apply isna_sum_bound.
Qed.

Lemma nulls_at_most_cells_witness :
  wf ex_nulos_df
  /\ Nulos_totales (resumen_general ex_nulos_df)
     <= Filas (resumen_general ex_nulos_df) * Columnas (resumen_general ex_nulos_df).
Proof.
  assert (Hwf : wf ex_nulos_df).
  { split; simpl; repeat constructor; simpl; intuition discriminate. }
  exact (conj Hwf (nulls_at_most_cells ex_nulos_df Hwf)).
Defined.

Lemma dropna_length_le {A : Type} (v : list (option A)) :
  length (dropna v) <= length v.
Proof. induction v as [|[a|] v IH]; simpl; lia. Qed.

Lemma std_nonneg (x : list (option R)) (s : R) : std x = Fin s -> (0 <= s)%R.
Proof.
  unfold std. destruct (_ <=? 1); [discriminate|].
  intros [= <-]. apply sqrt_pos.
Qed.

(** X4.  A row of the numeric table never counts more values than the
    table has rows.  When it counts none, its five statistics are NaN; when
    it counts one, it has no standard deviation; when it counts at least
    one, its minimum and maximum are numbers, the minimum not above the
    maximum; and its standard deviation, when it is a number, is not
    negative.  None of this depends on how the library rounds. *)
Theorem numeric_row_bounds (df : DataFrame) (row : FilaNumerica) :
  wf df ->
  In row (df_num (resumen_por_tipo df)) ->
  num_count row <= len_df df
  /\ (num_count row = 0 ->
      num_mean row = nan /\ num_std row = nan /\ num_min row = nan
      /\ num_median row = nan /\ num_max row = nan)
  /\ (num_count row <= 1 -> num_std row = nan)
  /\ (0 < num_count row ->
      exists mn mx,
        num_min row = Fin mn /\ num_max row = Fin mx /\ (mn <= mx)%R)
  /\ (forall s, num_std row = Fin s -> (0 <= s)%R).
Proof.
  intros Hwf Hrow.
  destruct (num_row_origin df row Hrow) as (col & serie & x & Hin & Hx & ->).
  cbn [num_count num_min num_mean num_median num_max num_std].
  split.
  { destruct (numeric_values_spec serie x Hx) as [Hlen _].
    pose proof (column_rows df (col, serie) Hwf Hin) as Hn. simpl in Hn.
    pose proof (dropna_length_le x). lia. }
  split.
  { intros Hn0. unfold mean, std, min, median, max.
    destruct (dropna x); [simpl; auto | discriminate]. }
  split.
  { intros Hle. unfold std.
    destruct (Nat.leb_spec (length (dropna x)) 1); [reflexivity | lia]. }
  split; [|apply std_nonneg].
  intros Hpos. unfold min, max.
  destruct (dropna x) as [|h t] eqn:Exs; [simpl in Hpos; lia|].
  destruct (fold_left_Rmin_spec t h) as [_ Hmin].
  destruct (fold_left_Rmax_spec t h) as [_ Hmax].
  exists (fold_left Rmin t h), (fold_left Rmax t h).
  refine (conj eq_refl (conj eq_refl _)).
  apply Rle_trans with h; [apply Hmin | apply Hmax]; now left.
Qed.

Lemma numeric_row_bounds_witness :
  wf ex_siete_df
  /\ exists row,
       In row (df_num (resumen_por_tipo ex_siete_df))
       /\ num_count row <= 1
       /\ num_std row = nan.
Proof.
  assert (Hwf : wf ex_siete_df).
  { split; simpl; repeat constructor. simpl. tauto. }
  split; [exact Hwf|].
  eexists. split; [left; reflexivity|].
  destruct (numeric_row_bounds ex_siete_df _ Hwf (or_introl eq_refl))
    as (Hcount & _ & Hstd & _).
  split; [exact Hcount | apply Hstd; exact Hcount].
Defined.

Lemma In_firstn {A : Type} (n : nat) (l : list A) (a : A) :
  In a (firstn n l) -> In a l.
Proof.
  intros H. rewrite <- (firstn_skipn n l). apply in_or_app. now left.
Qed.

Lemma count_occ_unique_pos (xs : list pyobj) (e : pyobj * nat) :
  In e (counts_of xs (unique pyobj_eqb xs)) -> 1 <= snd e.
Proof.
  unfold counts_of. intros He. apply in_map_iff in He.
  destruct He as (y & <- & Hy). rewrite unique_py_In in Hy.
  simpl. now apply count_occ_In.
Qed.

(** X6.  The top-values field of a row of repeated text lists as many
    values as the column has distinct ones, up to five, each with a count
    of at least one. *)
Theorem top_values_count (df : DataFrame) (row : FilaTextoRepetido) :
  In row (df_text_rep (resumen_por_tipo df)) ->
  exists entries : list (pyobj * nat),
    rep_Top_5_valores row = String.concat ", " (map formato_valor entries)
    /\ length entries = Nat.min 5 (rep_Categorias_unicas row)
    /\ forall e, In e entries -> 1 <= snd e.
Proof.
  intros Hrow.
  destruct (rep_row_origin df row Hrow) as (col & serie & v & _ & _ & _ & ->).
  cbn [rep_Top_5_valores rep_Categorias_unicas].
  assert (Hvc : Permutation (value_counts pyobj_eqb v)
                  (counts_of (dropna v) (unique pyobj_eqb (dropna v)))).
  { unfold value_counts, counts_of. rewrite <- value_count_spec.
    apply sort_desc_perm. }
  exists (head 5 (value_counts pyobj_eqb v)). split; [reflexivity|]. split.
  - unfold head. rewrite length_firstn, (Permutation_length Hvc).
    unfold counts_of. now rewrite length_map.
  - intros e He. apply (count_occ_unique_pos (dropna v)).
    apply (Permutation_in _ Hvc). unfold head in He.
    now apply In_firstn in He.
Qed.

Lemma top_values_count_witness :
  exists entries : list (pyobj * nat),
    rep_Top_5_valores ex_letras_fila = String.concat ", " (map formato_valor entries)
    /\ length entries = 5.
Proof.
  destruct (top_values_count ex_letras_df ex_letras_fila (or_introl eq_refl))
    as (entries & Htop & Hlen & _).
  exists entries. split; [exact Htop | exact Hlen].
Defined.

(* ================================================================= *)
(** ** More about the catalog client *)

Lemma safe_head_json_url (requests_head : string -> Z -> outcome Response)
    (url : json) (t : Z) :
  (forall u t', raises_exceptions (requests_head u t')) ->
  safe (head_json_url requests_head url t).
Proof.
  intros H. destruct url; simpl; try (apply safe_raise; discriminate).
  apply safe_lift, H.
Qed.

Section SizeLookup.
Variable requests_get : string -> Z -> outcome Response.
Variable requests_head : string -> Z -> outcome Response.
Variable int_of_str : string -> option Z.

(** X7.  [obtener_tamano_recurso_ckan] catches a failure of its [try]
    block, anywhere in it (the metadata request, its status, its payload,
    the conversion of the size, the HEAD request, the conversion of the
    Content-Length): it shows a warning and returns [None]; otherwise it
    returns what the block returned. *)
Theorem size_lookup_catches_failures (resource_id base_url : string) :
  (forall url t, raises_exceptions (requests_get url t)) ->
  (forall url t, raises_exceptions (requests_head url t)) ->
  (forall url t r, requests_get url t = Ok r -> raises_exceptions (json_ r)) ->
  catches
    (obtener_tamano_recurso_ckan requests_get requests_head int_of_str
       resource_id base_url)
    (obtener_tamano_recurso_ckan_try requests_get requests_head int_of_str
       resource_id base_url)
    None Warning "No se pudo obtener el tamaño del recurso: ".
Proof.
  intros Hget Hhead Hjson. apply try_except_catches.
  unfold obtener_tamano_recurso_ckan_try. cbv zeta.
  intros log e log'. unfold bind at 1. simpl.
  destruct (requests_get _ 10) as [r|e0] eqn:E;
    [|intros [= <- _]; exact (Hget _ _ _ E)].
  apply safe_bind; [apply safe_raise_for_status | intros _].
  apply safe_bind; [apply safe_lift; exact (Hjson _ _ _ E) | intros data].
  apply safe_bind; [apply safe_py_get | intros res].
  apply safe_bind; [apply safe_py_get | intros size].
  destruct (truthy size).
  - apply safe_bind; [apply safe_lift, py_int_raises | intros; apply safe_ret].
  - apply safe_bind; [apply safe_py_get | intros res'].
    apply safe_bind; [apply safe_py_get | intros recurso_url].
    destruct (truthy recurso_url); [|apply safe_ret].
    apply safe_bind; [now apply safe_head_json_url | intros r2].
    apply safe_bind; [apply safe_lift, py_int_raises | intros; apply safe_ret].
Qed.

(** The block up to the lookup of the size, for a catalog that serves the
    metadata of the resource. *)
Lemma size_lookup_start (resource_id base_url : string) (r : Response)
    (items res : list (string * json)) (log : list mensaje) :
  requests_get (base_url ++ "/api/3/action/resource_show?id=" ++ resource_id)%string 10
  = Ok r ->
  status_ok r = true ->
  json_ r = Ok (JDict items) ->
  lookup "result" items = Some (JDict res) ->
  obtener_tamano_recurso_ckan_try requests_get requests_head int_of_str
    resource_id base_url log
  = (size <- py_get (JDict res) "size" JNull ;;
     if truthy size then
       n <- lift (py_int int_of_str size) ;;
       ret (Some n)
     else
       recurso_url <- py_get (JDict res) "url" JNull ;;
       if truthy recurso_url then
         r2 <- head_json_url requests_head recurso_url 10 ;;
         n <- lift (py_int int_of_str (content_length r2)) ;;
         ret (Some n)
       else ret None) log.
Proof.
  intros Hget Hst Hjson Hres.
  unfold obtener_tamano_recurso_ckan_try. cbv zeta.
  rewrite (bind_lift_ok _ _ _ _ Hget); cbv beta.
  rewrite (raise_for_status_ok r Hst), bind_ret.
  rewrite (bind_lift_ok _ _ _ _ Hjson); cbv beta.
  rewrite (py_get_found _ _ _ _ Hres), bind_ret.
  reflexivity.
Qed.

Lemma size_conversion (v : json) (log : list mensaje) :
  try_except (n <- lift (py_int int_of_str v) ;; ret (Some n))
    (fun e =>
       st_warning ("No se pudo obtener el tamaño del recurso: " ++ exn_str e)%string ;;;
       ret None) log
  = respuesta_tamano int_of_str v log.
Proof.
  unfold respuesta_tamano, try_except, bind, lift.
  pose proof (py_int_raises int_of_str v) as Hexc.
  destruct (py_int int_of_str v) as [n|e]; [reflexivity|].
  now rewrite (Hexc e eq_refl).
Qed.

(** X8.  When the catalog reports a size, the HEAD request is never made:
    whatever [requests.head] would do, the answer is [int(size)], and when
    the size cannot be converted it is [None] after a warning, with no
    fallback to the Content-Length. *)
Theorem reported_size_skips_head
    (resource_id base_url : string) (r : Response)
    (items res : list (string * json)) (size : json) (log : list mensaje) :
  requests_get (base_url ++ "/api/3/action/resource_show?id=" ++ resource_id)%string 10
  = Ok r ->
  status_ok r = true ->
  json_ r = Ok (JDict items) ->
  lookup "result" items = Some (JDict res) ->
  lookup "size" res = Some size ->
  truthy size = true ->
  obtener_tamano_recurso_ckan requests_get requests_head int_of_str
    resource_id base_url log
  = respuesta_tamano int_of_str size log.
Proof.
  intros Hget Hst Hjson Hres Hsize Htruthy.
  rewrite <- size_conversion.
  unfold obtener_tamano_recurso_ckan, try_except.
  rewrite (size_lookup_start _ _ r items res log Hget Hst Hjson Hres).
  now rewrite (py_get_found _ _ _ _ Hsize), bind_ret, Htruthy.
Qed.

(** X9.  When the catalog reports no size, the answer comes from the
    headers of the HEAD response alone: its status is never checked, so an
    error page with a Content-Length gives that length; a Content-Length
    that is not a number gives [None] after a warning. *)
Theorem head_status_is_ignored
    (resource_id base_url : string) (r : Response)
    (items res : list (string * json)) (u : string) (r2 : Response)
    (log : list mensaje) :
  requests_get (base_url ++ "/api/3/action/resource_show?id=" ++ resource_id)%string 10
  = Ok r ->
  status_ok r = true ->
  json_ r = Ok (JDict items) ->
  lookup "result" items = Some (JDict res) ->
  size_absent res = true ->
  lookup "url" res = Some (JStr u) -> u <> "" ->
  requests_head u 10 = Ok r2 ->
  obtener_tamano_recurso_ckan requests_get requests_head int_of_str
    resource_id base_url log
  = respuesta_tamano int_of_str (content_length r2) log.
Proof.
  intros Hget Hst Hjson Hres Habs Hurl Hu Hhead.
  rewrite <- size_conversion.
  unfold obtener_tamano_recurso_ckan, try_except.
  rewrite (size_lookup_start _ _ r items res log Hget Hst Hjson Hres).
  destruct (size_absent_get res Habs) as (size & Hsize & Hfalsy).
  rewrite Hsize, bind_ret, Hfalsy.
  rewrite (py_get_found _ _ _ _ Hurl), bind_ret.
  assert (Htr : truthy (JStr u) = true).
  { simpl. destruct (String.eqb_spec u ""); [contradiction | reflexivity]. }
  rewrite Htr. unfold head_json_url.
  now rewrite (bind_lift_ok _ _ _ _ Hhead).
Qed.

End SizeLookup.

Lemma size_lookup_catches_failures_witness :
  obtener_tamano_recurso_ckan ex_get_sin_tamano ex_head_roto (fun _ => None)
    "r1" ex_base_url []
  = (Ok None,
     [ {| msg_nivel := Warning;
          msg_texto := "No se pudo obtener el tamaño del recurso: Connection refused" |} ]).
Proof.
  assert (Hget : forall url t, raises_exceptions (ex_get_sin_tamano url t))
    by (intros url t e; discriminate).
  assert (Hhead : forall url t, raises_exceptions (ex_head_roto url t))
    by (intros url t e [= <-]; reflexivity).
  assert (Hjson : forall url t r,
             ex_get_sin_tamano url t = Ok r -> raises_exceptions (json_ r))
    by (intros url t r [= <-] e; discriminate).
  exact (catches_raise _ _ _ _ _ [] _ []
           (size_lookup_catches_failures ex_get_sin_tamano ex_head_roto
              (fun _ => None) "r1" ex_base_url Hget Hhead Hjson)
           eq_refl).
Defined.

Lemma reported_size_skips_head_witness :
  obtener_tamano_recurso_ckan ex_get_con_tamano ex_head_roto (fun _ => None)
    "r1" ex_base_url []
  = (Ok (Some 2048%Z), []).
Proof.
  exact (reported_size_skips_head ex_get_con_tamano ex_head_roto (fun _ => None)
           "r1" ex_base_url _ _ _ (JInt 2048) []
           eq_refl eq_refl eq_refl eq_refl eq_refl eq_refl).
Defined.

Lemma head_status_is_ignored_witness :
  status_ok (ex_respuesta 404 (Ok JNull) [("content-length", "512")]) = false
  /\ obtener_tamano_recurso_ckan ex_get_sin_tamano ex_head_404 ex_int_of_str
       "r1" ex_base_url []
     = (Ok (Some 512%Z), []).
Proof.
  split; [reflexivity|].
  assert (Hu : "https://example.org/r1.csv" <> "") by discriminate.
  exact (head_status_is_ignored ex_get_sin_tamano ex_head_404 ex_int_of_str
           "r1" ex_base_url _ _ ex_recurso_sin_tamano _ _ []
           eq_refl eq_refl eq_refl eq_refl eq_refl eq_refl Hu eq_refl).
Defined.

(* ================================================================= *)
(** ** The listings *)

Lemma py_get_dict (items : list (string * json)) (key : string) (default : json) :
  py_get (JDict items) key default = ret (get_or items key default).
Proof. unfold py_get, get_or. now destruct (lookup key items). Qed.

Lemma py_get_not_dict (v : json) (key : string) (default : json) (log : list mensaje) :
  is_dict v = false ->
  exists e, py_get v key default log = (Raise e, log) /\ is_Exception e = true.
Proof.
  destruct v; try discriminate; intros _; eexists; split; reflexivity.
Qed.

Section Listings.
Variable requests_get : string -> Z -> outcome Response.

(** The block of a listing once the catalog has answered with a JSON
    value. *)
Lemma listing_start (url : string) (r : Response) (d : json)
    (k : json -> M json) (log : list mensaje) :
  requests_get url 10 = Ok r ->
  status_ok r = true ->
  json_ r = Ok d ->
  (r0 <- lift (requests_get url 10) ;;
   raise_for_status r0 ;;;
   d0 <- lift (json_ r0) ;;
   k d0) log
  = k d log.
Proof.
  intros Hget Hst Hjson.
  rewrite (bind_lift_ok _ _ _ _ Hget); cbv beta.
  rewrite (raise_for_status_ok r Hst), bind_ret.
  now rewrite (bind_lift_ok _ _ _ _ Hjson).
Qed.

(** X10.  When the catalog answers with a JSON object, a listing returns
    what the object holds and shows nothing: the value of "result" for the
    institutions, the value of "packages" or "resources" inside "result"
    for the other two; a key that is missing gives the empty list, with no
    warning. *)
Theorem listings_return_payload
    (base_url org_id dataset_id : string) (r : Response)
    (items : list (string * json)) (log : list mensaje) :
  status_ok r = true ->
  json_ r = Ok (JDict items) ->
  (requests_get (base_url ++ "/api/3/action/organization_list")%string 10 = Ok r ->
   obtener_instituciones requests_get base_url log
   = (Ok (get_or items "result" (JList [])), log))
  /\ (forall res,
        requests_get
          (base_url ++ "/api/3/action/package_search?fq=organization:" ++ org_id
           ++ "&rows=1000")%string 10 = Ok r ->
        get_or items "result" (JDict []) = JDict res ->
        obtener_datasets_institucion requests_get base_url org_id log
        = (Ok (get_or res "packages" (JList [])), log))
  /\ (forall res,
        requests_get
          (base_url ++ "/api/3/action/package_show?id=" ++ dataset_id)%string 10
        = Ok r ->
        get_or items "result" (JDict []) = JDict res ->
        obtener_recursos_dataset requests_get base_url dataset_id log
        = (Ok (get_or res "resources" (JList [])), log)).
Proof.
  intros Hst Hjson. split; [|split].
  - intros Hget. apply try_except_value.
    unfold obtener_instituciones_try. cbv zeta.
    rewrite (listing_start _ r _ _ log Hget Hst Hjson).
    now rewrite py_get_dict.
  - intros res Hget Hres. apply try_except_value.
    unfold obtener_datasets_institucion_try. cbv zeta.
    rewrite (listing_start _ r _ _ log Hget Hst Hjson).
    now rewrite py_get_dict, bind_ret, Hres, py_get_dict.
  - intros res Hget Hres. apply try_except_value.
    unfold obtener_recursos_dataset_try. cbv zeta.
    rewrite (listing_start _ r _ _ log Hget Hst Hjson).
    now rewrite py_get_dict, bind_ret, Hres, py_get_dict.
Qed.

(** X11.  When the "result" of the answer is not an object (null, a list,
    a text, a number), the listings of datasets and of resources show one
    warning and return the empty list; the listing of institutions returns
    that value as it is, [None] for null, and shows nothing. *)
Theorem result_that_is_no_object
    (base_url org_id dataset_id : string) (r : Response)
    (items : list (string * json)) (v : json) (log : list mensaje) :
  status_ok r = true ->
  json_ r = Ok (JDict items) ->
  lookup "result" items = Some v ->
  is_dict v = false ->
  (requests_get (base_url ++ "/api/3/action/organization_list")%string 10 = Ok r ->
   obtener_instituciones requests_get base_url log = (Ok v, log))
  /\ (requests_get
        (base_url ++ "/api/3/action/package_search?fq=organization:" ++ org_id
         ++ "&rows=1000")%string 10 = Ok r ->
      exists texto,
        obtener_datasets_institucion requests_get base_url org_id log
        = (Ok (JList []), log ++ [ {| msg_nivel := Warning; msg_texto := texto |} ]))
  /\ (requests_get
        (base_url ++ "/api/3/action/package_show?id=" ++ dataset_id)%string 10
      = Ok r ->
      exists texto,
        obtener_recursos_dataset requests_get base_url dataset_id log
        = (Ok (JList []), log ++ [ {| msg_nivel := Warning; msg_texto := texto |} ])).
Proof.
  intros Hst Hjson Hv Hnd. split; [|split].
  - intros Hget. apply try_except_value.
    unfold obtener_instituciones_try. cbv zeta.
    rewrite (listing_start _ r _ _ log Hget Hst Hjson).
    now rewrite (py_get_found _ _ _ _ Hv).
  - intros Hget.
    destruct (py_get_not_dict v "packages" (JList []) log Hnd) as (e & He & Hexc).
    eexists. unfold obtener_datasets_institucion, try_except.
    unfold obtener_datasets_institucion_try. cbv zeta.
    rewrite (listing_start _ r _ _ log Hget Hst Hjson).
    rewrite (py_get_found _ _ _ _ Hv), bind_ret, He, Hexc. reflexivity.
  - intros Hget.
    destruct (py_get_not_dict v "resources" (JList []) log Hnd) as (e & He & Hexc).
    eexists. unfold obtener_recursos_dataset, try_except.
    unfold obtener_recursos_dataset_try. cbv zeta.
    rewrite (listing_start _ r _ _ log Hget Hst Hjson).
    rewrite (py_get_found _ _ _ _ Hv), bind_ret, He, Hexc. reflexivity.
Qed.

End Listings.

Lemma listings_return_payload_witness :
  obtener_recursos_dataset ex_get_roto ex_base_url "d2" []
  = (Ok (JList []), []).
Proof.
  exact (proj2 (proj2
           (listings_return_payload ex_get_roto ex_base_url "inegi" "d2"
              (ex_respuesta 200 (Ok (JDict [("success", JBool false)])) [])
              [("success", JBool false)] [] eq_refl eq_refl))
           [] eq_refl eq_refl).
Defined.

Lemma result_that_is_no_object_witness :
  obtener_instituciones ex_get_result_null ex_base_url [] = (Ok JNull, [])
  /\ exists texto,
       obtener_datasets_institucion ex_get_result_null ex_base_url "inegi" []
       = (Ok (JList []), [ {| msg_nivel := Warning; msg_texto := texto |} ]).
Proof.
  destruct (result_that_is_no_object ex_get_result_null ex_base_url "inegi" "d1"
              (ex_respuesta 200 (Ok (JDict [("result", JNull)])) [])
              [("result", JNull)] JNull [] eq_refl eq_refl eq_refl eq_refl)
    as (H1 & H2 & _).
  split; [exact (H1 eq_refl) | exact (H2 eq_refl)].
Defined.

(* ================================================================= *)
(** ** What the operations write on the page *)

Lemma emits_weaken {A : Type} (m : M A) (j k : nat) :
  j <= k -> emits m j -> emits m k.
Proof.
  intros Hjk Hm log o log' E. destruct (Hm _ _ _ E) as (l & -> & Hl).
  exists l. split; [reflexivity | lia].
Qed.

Lemma emits_ret {A : Type} (a : A) : emits (ret a) 0.
Proof. intros log o log' [= <- <-]. exists []. now rewrite app_nil_r. Qed.

Lemma emits_lift {A : Type} (o : outcome A) : emits (lift o) 0.
Proof. intros log o' log' [= <- <-]. exists []. now rewrite app_nil_r. Qed.

Lemma emits_st_message (n : nivel) (s : string) : emits (st_message n s) 1.
Proof. intros log o log' [= <- <-]. eexists. split; [reflexivity | simpl; lia]. Qed.

Lemma emits_bind {A B : Type} (m : M A) (k : A -> M B) (i j : nat) :
  emits m i -> (forall a, emits (k a) j) -> emits (bind m k) (i + j).
Proof.
  intros Hm Hk log o log'. unfold bind.
  destruct (m log) as [[a|e] l1] eqn:E; destruct (Hm _ _ _ E) as (l & -> & Hl).
  - intros E2. destruct (Hk a _ _ _ E2) as (l2 & -> & Hl2).
    exists (l ++ l2). rewrite app_assoc, length_app. split; [reflexivity | lia].
  - intros [= <- <-]. exists l. split; [reflexivity | lia].
Qed.

Lemma emits_try_except {A : Type} (body : M A) (handler : exn -> M A) (i j : nat) :
  emits body i -> (forall e, emits (handler e) j) ->
  emits (try_except body handler) (i + j).
Proof.
  intros Hb Hh log o log'. unfold try_except.
  destruct (body log) as [[a|e] l1] eqn:E; destruct (Hb _ _ _ E) as (l & -> & Hl).
  - intros [= <- <-]. exists l. split; [reflexivity | lia].
  - destruct (is_Exception e).
    + intros E2. destruct (Hh e _ _ _ E2) as (l2 & -> & Hl2).
      exists (l ++ l2). rewrite app_assoc, length_app. split; [reflexivity | lia].
    + intros [= <- <-]. exists l. split; [reflexivity | lia].
Qed.

Lemma emits_raise_for_status (r : Response) : emits (raise_for_status r) 0.
Proof.
  unfold raise_for_status. destruct (_ && _)%bool; [apply emits_lift | apply emits_ret].
Qed.

Lemma emits_py_get (v : json) (key : string) (default : json) :
  emits (py_get v key default) 0.
Proof.
  destruct v; simpl; try apply emits_lift.
  destruct (lookup key items); apply emits_ret.
Qed.

Lemma emits_py_getitem (v : json) (key : string) : emits (py_getitem v key) 0.
Proof.
  destruct v; simpl; try apply emits_lift.
  destruct (lookup key items); [apply emits_ret | apply emits_lift].
Qed.

Lemma emits_handler {A : Type} (n : nivel) (s : string) (a : A) :
  emits (st_message n s ;;; ret a) 1.
Proof.
  apply (emits_bind _ _ 1 0); [apply emits_st_message | intros; apply emits_ret].
Qed.

Ltac emits_step :=
  first
    [ apply emits_ret | apply emits_lift | apply emits_raise_for_status
    | apply emits_py_get | apply emits_py_getitem
    | apply (emits_bind _ _ 0 0); [|intros] ].

Section Page.
Variable requests_get : string -> Z -> outcome Response.
Variable requests_head : string -> Z -> outcome Response.
Variable read_csv : string -> outcome DataFrame.
Variable int_of_str : string -> option Z.
Variable py_repr : json -> string.

(** X12.  Whatever the world does, an operation leaves on the page the
    messages that were there and adds at most one of its own; the download
    adds at most two (the notice that it starts and the error). *)
Theorem operations_only_add_messages
    (base_url org_id dataset_id resource_id archivo : string) :
  emits (obtener_instituciones requests_get base_url) 1
  /\ emits (obtener_datasets_institucion requests_get base_url org_id) 1
  /\ emits (obtener_recursos_dataset requests_get base_url dataset_id) 1
  /\ emits (obtener_tamano_recurso_ckan requests_get requests_head int_of_str
              resource_id base_url) 1
  /\ emits (descargar_recurso_ckan requests_get read_csv py_repr resource_id
              base_url) 2
  /\ emits (leer_csv_local read_csv archivo) 1.
Proof.
  repeat split.
  - apply (emits_try_except _ _ 0 1); [|intros; apply emits_handler].
    unfold obtener_instituciones_try. cbv zeta. repeat emits_step.
  - apply (emits_try_except _ _ 0 1); [|intros; apply emits_handler].
    unfold obtener_datasets_institucion_try. cbv zeta. repeat emits_step.
  - apply (emits_try_except _ _ 0 1); [|intros; apply emits_handler].
    unfold obtener_recursos_dataset_try. cbv zeta. repeat emits_step.
  - apply (emits_try_except _ _ 0 1); [|intros; apply emits_handler].
    unfold obtener_tamano_recurso_ckan_try. cbv zeta.
    apply (emits_bind _ _ 0 0); [apply emits_lift | intros r].
    apply (emits_bind _ _ 0 0); [apply emits_raise_for_status | intros _].
    apply (emits_bind _ _ 0 0); [apply emits_lift | intros data].
    apply (emits_bind _ _ 0 0); [apply emits_py_get | intros res].
    apply (emits_bind _ _ 0 0); [apply emits_py_get | intros size].
    destruct (truthy size); [repeat emits_step|].
    apply (emits_bind _ _ 0 0); [apply emits_py_get | intros res'].
    apply (emits_bind _ _ 0 0); [apply emits_py_get | intros recurso_url].
    destruct (truthy recurso_url); [|apply emits_ret].
    apply (emits_bind _ _ 0 0);
      [destruct recurso_url; simpl; apply emits_lift | intros r2].
    repeat emits_step.
  - apply (emits_try_except _ _ 1 1); [|intros; apply emits_handler].
    unfold descargar_recurso_ckan_try. cbv zeta.
    apply (emits_bind _ _ 0 1); [apply emits_lift | intros r].
    apply (emits_bind _ _ 0 1); [apply emits_raise_for_status | intros _].
    apply (emits_bind _ _ 0 1); [apply emits_lift | intros data].
    apply (emits_bind _ _ 0 1); [apply emits_py_getitem | intros res].
    apply (emits_bind _ _ 0 1); [apply emits_py_getitem | intros url_csv].
    apply (emits_bind _ _ 1 0); [apply emits_st_message | intros _].
    apply (emits_bind _ _ 0 0); [destruct url_csv; simpl; apply emits_lift | intros resp].
    repeat emits_step.
  - apply (emits_try_except _ _ 0 1); [|intros; apply emits_handler].
    unfold leer_csv_local_try. repeat emits_step.
Qed.

End Page.

(* ================================================================= *)
(** ** The download *)

Lemma bind_ok_inv {A B : Type} (m : M A) (k : A -> M B) (log log' : list mensaje)
    (b : B) :
  bind m k log = (Ok b, log') ->
  exists a l, m log = (Ok a, l) /\ k a l = (Ok b, log').
Proof.
  unfold bind. destruct (m log) as [[a|e] l]; [eauto | discriminate].
Qed.

Lemma lift_ok_inv {A : Type} (o : outcome A) (log log' : list mensaje) (a : A) :
  lift o log = (Ok a, log') -> o = Ok a /\ log' = log.
Proof. intros [= -> <-]. auto. Qed.

Lemma raise_for_status_ok_inv (r : Response) (log log' : list mensaje) (u : unit) :
  raise_for_status r log = (Ok u, log') -> status_ok r = true /\ log' = log.
Proof.
  unfold raise_for_status, status_ok. destruct (_ && _)%bool; [discriminate|].
  intros [= _ <-]. auto.
Qed.

Lemma py_getitem_ok_inv (v : json) (key : string) (log log' : list mensaje) (x : json) :
  py_getitem v key log = (Ok x, log') ->
  exists items, v = JDict items /\ lookup key items = Some x /\ log' = log.
Proof.
  destruct v; try discriminate. simpl.
  destruct (lookup key items) as [y|] eqn:E; [|discriminate].
  intros [= <- <-]. eauto.
Qed.

Lemma try_except_some_inv {A : Type} (body : M (option A)) (n : nivel) (s : exn -> string)
    (log log' : list mensaje) (a : A) :
  try_except body (fun e => st_message n (s e) ;;; ret None) log = (Ok (Some a), log') ->
  body log = (Ok (Some a), log').
Proof.
  unfold try_except. destruct (body log) as [[o|e] l]; [now intros [= -> ->]|].
  destruct (is_Exception e); discriminate.
Qed.

Section Download.
Variable requests_get : string -> Z -> outcome Response.
Variable read_csv : string -> outcome DataFrame.
Variable py_repr : json -> string.

(** X13.  [descargar_recurso_ckan] returns a table exactly when the catalog
    serves the metadata of the resource with a text URL, the file at that
    URL is served without an error status, and [read_csv] parses its
    content: the table is that parse, and the only message shown is the
    notice that names the URL. *)
Theorem download_returns_the_parsed_file
    (resource_id base_url : string) (df : DataFrame) (log log' : list mensaje) :
  descargar_recurso_ckan requests_get read_csv py_repr resource_id base_url log
  = (Ok (Some df), log')
  <-> exists r items res u resp,
        requests_get
          (base_url ++ "/api/3/action/resource_show?id=" ++ resource_id)%string 10
        = Ok r
        /\ status_ok r = true
        /\ json_ r = Ok (JDict items)
        /\ lookup "result" items = Some (JDict res)
        /\ lookup "url" res = Some (JStr u)
        /\ requests_get u 60 = Ok resp
        /\ status_ok resp = true
        /\ read_csv (content resp) = Ok df
        /\ log' = log ++ [ {| msg_nivel := Info;
                              msg_texto :=
                                ("Descargando recurso desde " ++ u ++ " ...")%string |} ].
Proof.
  split.
  - intros H. apply try_except_some_inv in H.
    unfold descargar_recurso_ckan_try in H. cbv zeta in H.
    apply bind_ok_inv in H. destruct H as (r & l1 & H1 & H).
    apply lift_ok_inv in H1. destruct H1 as [Hget ->].
    apply bind_ok_inv in H. destruct H as (u1 & l2 & H2 & H).
    apply raise_for_status_ok_inv in H2. destruct H2 as [Hst ->].
    apply bind_ok_inv in H. destruct H as (data & l3 & H3 & H).
    apply lift_ok_inv in H3. destruct H3 as [Hjson ->].
    apply bind_ok_inv in H. destruct H as (resv & l4 & H4 & H).
    apply py_getitem_ok_inv in H4. destruct H4 as (items & -> & Hres & ->).
    apply bind_ok_inv in H. destruct H as (url_csv & l5 & H5 & H).
    apply py_getitem_ok_inv in H5. destruct H5 as (res & -> & Hurl & ->).
    apply bind_ok_inv in H. destruct H as (u2 & l6 & H6 & H).
    injection H6 as _ <-.
    apply bind_ok_inv in H. destruct H as (resp & l7 & H7 & H).
    destruct url_csv as [| | | |u| |]; try discriminate.
    apply lift_ok_inv in H7. destruct H7 as [Hdl ->].
    apply bind_ok_inv in H. destruct H as (u3 & l8 & H8 & H).
    apply raise_for_status_ok_inv in H8. destruct H8 as [Hst2 ->].
    apply bind_ok_inv in H. destruct H as (df' & l9 & H9 & H).
    apply lift_ok_inv in H9. destruct H9 as [Hcsv ->].
    injection H as -> <-.
    exists r, items, res, u, resp. repeat split; assumption.
  - intros (r & items & res & u & resp & Hget & Hst & Hjson & Hres & Hurl
            & Hdl & Hst2 & Hcsv & ->).
    apply try_except_value.
    unfold descargar_recurso_ckan_try. cbv zeta.
    rewrite (bind_lift_ok _ _ _ _ Hget); cbv beta.
    rewrite (raise_for_status_ok r Hst), bind_ret.
    rewrite (bind_lift_ok _ _ _ _ Hjson); cbv beta.
    unfold py_getitem at 1. rewrite Hres, bind_ret.
    unfold py_getitem at 1. rewrite Hurl, bind_ret.
    unfold bind at 1, st_info, st_message. cbn [format_json get_json_url].
    rewrite (bind_lift_ok _ _ _ _ Hdl); cbv beta.
    rewrite (raise_for_status_ok resp Hst2), bind_ret.
    now rewrite (bind_lift_ok _ _ _ _ Hcsv).
Qed.

End Download.

Lemma download_returns_the_parsed_file_witness :
  descargar_recurso_ckan ex_get_descarga ex_read_csv_letras (fun _ => "") "r1"
    ex_base_url []
  = (Ok (Some ex_letras_df),
     [ {| msg_nivel := Info;
          msg_texto := "Descargando recurso desde https://example.org/r1.csv ..." |} ]).
Proof.
  apply (download_returns_the_parsed_file ex_get_descarga ex_read_csv_letras
           (fun _ => "") "r1" ex_base_url ex_letras_df [] _).
  exists (ex_respuesta 200
            (Ok (JDict [("result", JDict [("url", JStr "https://example.org/r1.csv")])]))
            []),
         [("result", JDict [("url", JStr "https://example.org/r1.csv")])],
         [("url", JStr "https://example.org/r1.csv")],
         "https://example.org/r1.csv",
         {| status_code := 200;
            json_ := Raise {| exn_cls := ValueError; exn_str := "Expecting value" |};
            headers := []; content := "letras" |}.
  repeat split.
Defined.

(* ================================================================= *)
(** ** The size of a resource on the page *)

Lemma all_digits_uint (d : Decimal.uint) :
  all_digits (NilEmpty.string_of_uint d) = true.
Proof. induction d; simpl; auto. Qed.

Lemma string_of_uint_nonnil (d : Decimal.uint) :
  d <> Decimal.Nil ->
  exists c t, NilEmpty.string_of_uint d = String c t /\ is_digit c = true.
Proof. destruct d; intros H; [contradiction| ..]; simpl; eauto. Qed.

(** The decimal text of an integer that is not negative starts with a digit
    and holds digits only; that of a negative one starts with a dash. *)
Lemma str_of_Z_nonneg (z : Z) :
  (0 <= z)%Z ->
  isdigit (str_of_Z z) = true
  /\ exists c t, str_of_Z z = String c t /\ is_digit c = true.
Proof.
  intros Hz. destruct z as [|p|p]; [split; [reflexivity | eexists _, _; split; reflexivity] | | lia].
  unfold str_of_Z, Z.to_int, NilZero.string_of_int, NilZero.string_of_uint.
  pose proof (DecimalPos.Unsigned.to_uint_nonnil p) as Hnn.
  destruct (string_of_uint_nonnil (Pos.to_uint p) Hnn) as (c & t & E & Hc).
  pose proof (all_digits_uint (Pos.to_uint p)) as Hall.
  destruct (Pos.to_uint p); [contradiction| ..];
    (split; [unfold isdigit; rewrite E in *; exact Hall | eauto]).
Qed.

Lemma str_of_Z_neg (z : Z) :
  (z < 0)%Z -> isdigit (str_of_Z z) = false /\ exists t, str_of_Z z = String "-" t.
Proof.
  intros Hz. destruct z as [|p|p]; try lia.
  unfold str_of_Z, Z.to_int, NilZero.string_of_int. split; [reflexivity | eauto].
Qed.

Lemma round_half_even_nonneg (q : Q) : (0 <= q)%Q -> (0 <= round_half_even q)%Z.
Proof.
  intros Hq. assert (Hf : (0 <= Qfloor q)%Z).
  { change 0%Z with (Qfloor 0). now apply Qfloor_resp_le. }
  unfold round_half_even. destruct (Qle_bool _ _); [|lia].
  destruct (Qeq_bool _ _); [|assumption].
  destruct (Z.even _); lia.
Qed.

Lemma mb_nonneg (n : Z) :
  (0 <= n)%Z -> (0 <= inject_Z n / inject_Z (1024 * 1024))%Q.
Proof.
  intros Hn. unfold Qle, Qdiv, Qmult, Qinv, inject_Z. simpl. lia.
Qed.

(** The text of a size that is not negative starts with a digit. *)
Lemma format_2f_starts_with_digit (mb : Q) :
  (0 <= mb)%Q -> exists c t, format_2f mb = String c t /\ is_digit c = true.
Proof.
  intros Hmb. unfold format_2f.
  assert (Hh : (0 <= round_half_even (mb * 100))%Z).
  { apply round_half_even_nonneg.
    apply Qmult_le_0_compat; [assumption | discriminate]. }
  assert (Hd : (0 <= round_half_even (mb * 100) / 100)%Z)
    by (apply Z.div_pos; lia).
  destruct (str_of_Z_nonneg _ Hd) as (_ & c & t & -> & Hc).
  simpl. eauto.
Qed.

(** The two cases of [obtener_tamano_legible] for an integer. *)
Lemma tamano_legible_cases (n : Z) :
  ((n <= 0)%Z -> obtener_tamano_legible (Some n) = "Tamaño desconocido")
  /\ ((0 < n)%Z ->
      obtener_tamano_legible (Some n)
      = (format_2f (inject_Z n / inject_Z (1024 * 1024)) ++ " MB")%string).
Proof.
  unfold obtener_tamano_legible. split; intros Hn.
  - destruct (Z.eqb_spec n 0) as [|Hn0]; [reflexivity|].
    destruct (str_of_Z_neg n ltac:(lia)) as [-> _]. reflexivity.
  - destruct (str_of_Z_nonneg n ltac:(lia)) as [-> _].
    destruct (Z.eqb_spec n 0); [lia | reflexivity].
Qed.

(** X14.  For a size below 2^53 bytes, which the division by 1024 * 1024
    does not round, [obtener_tamano_legible] answers "Tamaño desconocido"
    exactly for [None] and for a size that is zero or negative; a positive
    size is shown in MB with two decimals. *)
Theorem known_size_iff_positive (size : option Z) :
  (forall n, size = Some n -> (n < 2 ^ 53)%Z) ->
  (obtener_tamano_legible size = "Tamaño desconocido"
   <-> forall n, size = Some n -> (n <= 0)%Z)
  /\ (forall n, size = Some n -> (0 < n)%Z ->
        obtener_tamano_legible size
        = (format_2f (inject_Z n / inject_Z (1024 * 1024)) ++ " MB")%string).
Proof.
  intros _.
  destruct size as [n|]; [|split; [split; [discriminate | reflexivity] | discriminate]].
  destruct (tamano_legible_cases n) as [Hunk Hpos].
  split; [|intros m [= <-]; exact Hpos].
  split.
  - intros H m [= <-]. destruct (Z.le_gt_cases n 0) as [|Hn]; [assumption|].
    exfalso. rewrite (Hpos ltac:(lia)) in H.
    destruct (format_2f_starts_with_digit _ (mb_nonneg n ltac:(lia)))
      as (c & t & E & Hc).
    rewrite E in H. simpl in H. injection H as -> _. discriminate.
  - intros H. apply Hunk, H. reflexivity.
Qed.

Lemma known_size_iff_positive_witness :
  obtener_tamano_legible (Some 1572864%Z) = "1.50 MB".
Proof.
  assert (H : forall n, Some 1572864%Z = Some n -> (n < 2 ^ 53)%Z)
    by (intros n [= <-]; reflexivity).
  exact (proj2 (known_size_iff_positive (Some 1572864%Z) H) 1572864%Z
           eq_refl eq_refl).
Defined.


Section SizeOnPage.
Variable int_of_str : string -> option Z.

(** X15.  For a size that the catalog gives as an integer below 2^53 in
    absolute value, which the division does not round, the text the listing
    shows is the one [obtener_tamano_legible] gives exactly when the size is
    not negative; a negative size is shown as a negative number of MB by
    the listing and as unknown by the function. *)
Theorem listing_size_text_agrees (n : Z) :
  (Z.abs n < 2 ^ 53)%Z ->
  exists texto grande,
    Script.tamano_recurso int_of_str (JInt n) = Ok (texto, grande)
    /\ (texto = obtener_tamano_legible (Some n) <-> (0 <= n)%Z).
Proof.
  intros _. unfold Script.tamano_recurso. cbn [truthy py_int].
  destruct (Z.eqb_spec n 0) as [->|Hn0].
  { simpl. eexists _, _. split; [reflexivity|]. split; [lia | reflexivity]. }
  cbn [negb]. eexists _, _. split; [reflexivity|].
  destruct (Z.lt_ge_cases n 0) as [Hneg|Hpos].
  - split; [|lia]. intros H. exfalso.
    destruct (tamano_legible_cases n) as [Hunk _].
    rewrite (Hunk ltac:(lia)) in H.
    unfold Script.format_2f_signed in H.
    destruct (Qle_bool 0 _) eqn:E.
    + apply Qle_bool_iff in E. unfold Qle, Qdiv, Qmult, Qinv, inject_Z in E.
      simpl in E. lia.
    + simpl in H. discriminate.
  - split; [lia|]. intros _.
    destruct (tamano_legible_cases n) as [_ Hk].
    rewrite (Hk ltac:(lia)). unfold Script.format_2f_signed.
    pose proof (mb_nonneg n Hpos) as Hmb. apply Qle_bool_iff in Hmb.
    now rewrite Hmb.
Qed.


End SizeOnPage.


Lemma listing_size_text_agrees_witness :
  exists texto grande,
    Script.tamano_recurso (fun _ => None) (JInt 1572864) = Ok (texto, grande)
    /\ texto = obtener_tamano_legible (Some 1572864%Z).
Proof.
  assert (H : (Z.abs 1572864 < 2 ^ 53)%Z) by reflexivity.
  destruct (listing_size_text_agrees (fun _ => None) 1572864%Z H)
    as (texto & grande & Hrun & Hsame).
  exists texto, grande. split; [exact Hrun | apply Hsame; lia].
Defined.

(* ================================================================= *)
(** ** The page script: what a run does to the session *)

Lemma call_run {A : Type} (m : M A) (o : outcome A) (log : list mensaje)
    (s : Script.Session) (p : list Script.elemento) :
  m [] = (o, log) -> Script.call m s p = (o, s, p ++ map Script.Mensaje log).
Proof. intros H. unfold Script.call. now rewrite H. Qed.

Lemma bind_s_get {B : Type} (k : Script.Session -> Script.S B)
    (s : Script.Session) (p : list Script.elemento) :
  Script.bind_s Script.get_session k s p = k s s p.
Proof. reflexivity. Qed.

Lemma bind_s_show {B : Type} (e : Script.elemento) (k : unit -> Script.S B)
    (s : Script.Session) (p : list Script.elemento) :
  Script.bind_s (Script.show e) k s p = k tt s (p ++ [e]).
Proof. reflexivity. Qed.

Lemma bind_s_modify {B : Type} (f : Script.Session -> Script.Session)
    (k : unit -> Script.S B) (s : Script.Session) (p : list Script.elemento) :
  Script.bind_s (Script.modify f) k s p = k tt (f s) p.
Proof. reflexivity. Qed.

Lemma bind_s_ret {A B : Type} (a : A) (k : A -> Script.S B)
    (s : Script.Session) (p : list Script.elemento) :
  Script.bind_s (Script.ret_s a) k s p = k a s p.
Proof. reflexivity. Qed.

Lemma bind_s_call {A B : Type} (m : M A) (a : A) (log : list mensaje)
    (k : A -> Script.S B) (s : Script.Session) (p : list Script.elemento) :
  m [] = (Ok a, log) ->
  Script.bind_s (Script.call m) k s p = k a s (p ++ map Script.Mensaje log).
Proof. intros H. unfold Script.bind_s. now rewrite (call_run _ _ _ s p H). Qed.

Lemma lookup_app_new {B : Type} (l : list (string * B)) (k : string) (v : B) :
  lookup k l = None -> lookup k (l ++ [(k, v)]) = Some v.
Proof.
  induction l as [|[k' v'] l IH]; simpl; intros H.
  - now rewrite String.eqb_refl.
  - destruct (String.eqb k' k); [discriminate | auto].
Qed.

Lemma lookup_app_old {B : Type} (l l' : list (string * B)) (k : string) (v : B) :
  lookup k l = Some v -> lookup k (l ++ l') = Some v.
Proof.
  induction l as [|[k' v'] l IH]; simpl; [discriminate|].
  destruct (String.eqb k' k); auto.
Qed.

Section Steps.
Variable requests_get : string -> Z -> outcome Response.
Variable read_csv : string -> outcome DataFrame.
Variable py_repr : json -> string.

(** X17.  Uploading a file always replaces the local table: by the table
    read when [read_csv] succeeds, with a notice of success, and by nothing
    when it fails, so that a table loaded before is lost; the error is
    shown and the run goes on. *)
Theorem upload_replaces_local_table
    (archivo : string) (s : Script.Session) (p : list Script.elemento) :
  raises_exceptions (read_csv archivo) ->
  Script.paso1_cargar_archivo read_csv (Some archivo) s p
  = match read_csv archivo with
    | Ok df =>
        (Ok tt, Script.set_df_local (Some df) s,
         p ++ [Script.Success "Archivo local cargado correctamente."])
    | Raise e =>
        (Ok tt, Script.set_df_local None s,
         p ++ [Script.Mensaje
                 {| msg_nivel := Error;
                    msg_texto := ("No se pudo leer el archivo: " ++ exn_str e)%string |}])
    end.
Proof.
  intros Hexc. unfold Script.paso1_cargar_archivo, Script.bind_s.
  destruct (read_csv archivo) as [df|e] eqn:E.
  - rewrite (call_run _ (Ok (Some df)) [] s p).
    + cbn. now rewrite app_nil_r.
    + unfold leer_csv_local, try_except, leer_csv_local_try, bind, lift.
      now rewrite E.
  - rewrite (call_run _ (Ok None)
               [ {| msg_nivel := Error;
                    msg_texto := ("No se pudo leer el archivo: " ++ exn_str e)%string |} ]
               s p).
    + reflexivity.
    + unfold leer_csv_local, try_except, leer_csv_local_try, bind, lift.
      rewrite E, (Hexc e eq_refl). reflexivity.
Qed.

(** X18.  The resources of a dataset are asked for once in a session:
    the first time the answer of [obtener_recursos_dataset], the empty list
    of a failure included, is stored under the identifier of the dataset and
    no other entry changes; from then on the stored answer is returned and
    neither the catalog, the session nor the page is touched. *)
Theorem resources_are_asked_once
    (dataset_id : string) (s : Script.Session) (p : list Script.elemento) :
  (forall url t, raises_exceptions (requests_get url t)) ->
  (forall url t r, requests_get url t = Ok r -> raises_exceptions (json_ r)) ->
  exists v s' p',
    Script.paso2_recursos requests_get dataset_id s p = (Ok v, s', p')
    /\ lookup dataset_id (Script.recursos_dataset s') = Some v
    /\ (forall k v0, lookup k (Script.recursos_dataset s) = Some v0 ->
                     lookup k (Script.recursos_dataset s') = Some v0)
    /\ forall (otro_get : string -> Z -> outcome Response) p2,
         Script.paso2_recursos otro_get dataset_id s' p2 = (Ok v, s', p2).
Proof.
  intros Hget Hjson.
  assert (Hagain : forall (s0 : Script.Session) v,
             lookup dataset_id (Script.recursos_dataset s0) = Some v ->
             forall (otro_get : string -> Z -> outcome Response) p2,
               Script.paso2_recursos otro_get dataset_id s0 p2 = (Ok v, s0, p2)).
  { intros s0 v Hv otro_get p2.
    unfold Script.paso2_recursos, Script.bind_s, Script.get_session.
    now rewrite Hv. }
  destruct (lookup dataset_id (Script.recursos_dataset s)) as [v|] eqn:Hc.
  - exists v, s, p. split; [now apply Hagain|]. split; [assumption|].
    split; [auto | now apply Hagain].
  - assert (Hsafe : safe (obtener_recursos_dataset_try requests_get
                            Script.base_url dataset_id)).
    { unfold obtener_recursos_dataset_try. cbv zeta.
      intros log e log'. unfold bind at 1. simpl.
      destruct (requests_get _ 10) as [r|e0] eqn:E;
        [|intros [= <- _]; exact (Hget _ _ _ E)].
      apply safe_bind; [apply safe_raise_for_status | intros _].
      apply safe_bind; [apply safe_lift; exact (Hjson _ _ _ E) | intros d].
      apply safe_bind; [apply safe_py_get | intros; apply safe_py_get]. }
    destruct (catches_returns _ _ _ _ _
                (try_except_catches _ (JList []) Warning
                   "No se pudieron obtener recursos: " Hsafe) [])
      as (v & log & Hrun).
    change (try_except _ _) with
      (obtener_recursos_dataset requests_get Script.base_url dataset_id) in Hrun.
    set (s' := Script.set_recursos_dataset
                 (Script.recursos_dataset s ++ [(dataset_id, v)]) s).
    exists v, s', (p ++ map Script.Mensaje log).
    assert (Hnew : lookup dataset_id (Script.recursos_dataset s') = Some v)
      by (apply lookup_app_new, Hc).
    split.
    { unfold Script.paso2_recursos, Script.bind_s, Script.get_session.
      rewrite Hc, (call_run _ _ _ s p Hrun). reflexivity. }
    split; [exact Hnew|].
    split; [intros k v0 Hk; now apply lookup_app_old | now apply Hagain].
Qed.

(** X19.  Pressing "Cargar desde PNDA" changes nothing of the session but
    the catalog table, and changes that one only to a table that the
    download returned: when the download fails, the table loaded before
    stays. *)
Theorem download_button_keeps_the_table_on_failure
    (recurso : list (string * json)) (s s' : Script.Session)
    (p p' : list Script.elemento) (o : outcome unit) :
  Script.cargar_desde_pnda requests_get read_csv py_repr recurso s p = (o, s', p') ->
  Script.instituciones s' = Script.instituciones s
  /\ Script.datasets_institucion s' = Script.datasets_institucion s
  /\ Script.recursos_dataset s' = Script.recursos_dataset s
  /\ Script.df_local s' = Script.df_local s
  /\ (Script.df_ckan s' = Script.df_ckan s
      \/ exists id df log,
           lookup "id" recurso = Some id
           /\ descargar_recurso_ckan requests_get read_csv py_repr
                (format_json py_repr id) Script.base_url []
              = (Ok (Some df), log)
           /\ Script.df_ckan s' = Some df).
Proof.
  unfold Script.cargar_desde_pnda, Script.bind_s, Script.call.
  unfold py_getitem. destruct (lookup "id" recurso) as [id|] eqn:Hid.
  2:{ cbn. intros [= _ <- _]. repeat split; auto. }
  cbn [ret].
  destruct (descargar_recurso_ckan requests_get read_csv py_repr
              (format_json py_repr id) Script.base_url []) as [[[df|]|e] log] eqn:E.
  - cbn. intros [= _ <- _]. repeat split; auto.
    right. exists id, df, log. auto.
  - cbn. intros [= _ <- _]. repeat split; auto.
  - cbn. intros [= _ <- _]. repeat split; auto.
Qed.

End Steps.

Section Selector.
Variable requests_get : string -> Z -> outcome Response.

(** X20.  With a local table loaded, the institutions are requested only
    while the session holds none.  Once a non-empty list is held, the
    selector offers the placeholder and that list, and the session is left
    as it is.  While none is held and the request fails, the selector offers
    the placeholder alone under one warning, and the session holds the
    empty list again, so that the next run asks once more. *)
Theorem institutions_requested_while_empty
    (s : Script.Session) (p : list Script.elemento) (d : DataFrame) :
  Script.df_local s = Some d ->
  (forall x l,
      Script.instituciones s = JList (x :: l) ->
      Script.paso2_selector requests_get s p
      = (Ok (Some (JStr "-- Selecciona --" :: x :: l)), s,
         (p ++ [Script.Divider])
         ++ [Script.Subheader "Paso 2: Seleccionar recurso en la PNDA"]))
  /\ (forall e,
        truthy (Script.instituciones s) = false ->
        requests_get (Script.base_url ++ "/api/3/action/organization_list")%string 10
        = Raise e ->
        is_Exception e = true ->
        Script.paso2_selector requests_get s p
        = (Ok (Some [JStr "-- Selecciona --"]),
           Script.set_instituciones (JList []) s,
           ((p ++ [Script.Divider])
            ++ [Script.Subheader "Paso 2: Seleccionar recurso en la PNDA"])
           ++ [Script.Mensaje
                 {| msg_nivel := Warning;
                    msg_texto := ("No se pudieron obtener instituciones: "
                                  ++ exn_str e)%string |}])).
Proof.
  intros Hdf. split.
  - intros x l Hl.
    unfold Script.paso2_selector. rewrite bind_s_get, Hdf, !bind_s_show.
    unfold Script.bind_s at 1. unfold Script.paso2_instituciones.
    rewrite bind_s_get, Hl. cbn [truthy negb]. unfold Script.ret_s at 1.
    unfold Script.bind_s at 1. unfold Script.opciones_selector.
    rewrite bind_s_get, Hl. reflexivity.
  - intros e Hempty Hget He.
    assert (Hrun : obtener_instituciones requests_get Script.base_url []
                   = (Ok (JList []),
                      [ {| msg_nivel := Warning;
                           msg_texto := ("No se pudieron obtener instituciones: "
                                         ++ exn_str e)%string |} ])).
    { unfold obtener_instituciones, try_except, obtener_instituciones_try.
      cbv zeta. unfold bind at 1, lift. rewrite Hget, He. reflexivity. }
    unfold Script.paso2_selector. rewrite bind_s_get, Hdf, !bind_s_show.
    unfold Script.bind_s at 1. unfold Script.paso2_instituciones.
    rewrite bind_s_get, Hempty. cbn [negb].
    rewrite (bind_s_call _ _ _ _ _ _ Hrun). unfold Script.modify.
    unfold Script.bind_s at 1. unfold Script.opciones_selector.
    rewrite bind_s_get. reflexivity.
Qed.

(** X21.  When the catalog answers the request for the institutions with an
    object whose "result" is not a list, the value is stored in the session
    and the run ends on the options of the selector, with a [TypeError] that
    nothing catches. *)
Theorem selector_needs_a_list
    (s : Script.Session) (p : list Script.elemento) (d : DataFrame)
    (r : Response) (items : list (string * json)) (v : json) :
  Script.df_local s = Some d ->
  truthy (Script.instituciones s) = false ->
  requests_get (Script.base_url ++ "/api/3/action/organization_list")%string 10
  = Ok r ->
  status_ok r = true ->
  json_ r = Ok (JDict items) ->
  lookup "result" items = Some v ->
  is_list v = false ->
  exists e,
    Script.paso2_selector requests_get s p
    = (Raise e, Script.set_instituciones v s,
       (p ++ [Script.Divider])
       ++ [Script.Subheader "Paso 2: Seleccionar recurso en la PNDA"])
    /\ exn_cls e = TypeError.
Proof.
  intros Hdf Hempty Hget Hst Hjson Hres Hv.
  assert (Hrun : obtener_instituciones requests_get Script.base_url [] = (Ok v, [])).
  { apply try_except_value. unfold obtener_instituciones_try. cbv zeta.
    rewrite (listing_start requests_get _ r _ _ [] Hget Hst Hjson).
    now rewrite (py_get_found _ _ _ _ Hres). }
  unfold Script.paso2_selector. rewrite bind_s_get, Hdf, !bind_s_show.
  unfold Script.bind_s at 1. unfold Script.paso2_instituciones.
  rewrite bind_s_get, Hempty. cbn [negb].
  rewrite (bind_s_call _ _ _ _ _ _ Hrun). unfold Script.modify.
  cbn [map]. rewrite app_nil_r.
  unfold Script.bind_s at 1. unfold Script.opciones_selector.
  rewrite bind_s_get.
  cbn [Script.instituciones Script.set_instituciones].
  destruct v; try discriminate Hv; eexists; split; reflexivity.
Qed.

(** X22.  For a selection that is not the placeholder, the datasets held by
    the session are kept exactly when they are a non-empty list whose first
    element names the selected institution as its organization; nothing is
    requested then.  When the session holds none, or the first element
    names another organization, they are replaced by what
    [obtener_datasets_institucion] returns for the selection. *)
Theorem datasets_reload_rule
    (institucion_sel : string) (s : Script.Session) (p : list Script.elemento) :
  institucion_sel <> "-- Selecciona --" ->
  (forall x rest org,
      Script.datasets_institucion s = JList (JDict x :: rest) ->
      get_or x "organization" (JDict []) = JDict org ->
      get_or org "name" JNull = JStr institucion_sel ->
      Script.paso2_datasets requests_get institucion_sel s p = (Ok tt, s, p))
  /\ (forall v log,
        obtener_datasets_institucion requests_get Script.base_url institucion_sel []
        = (Ok v, log) ->
        truthy (Script.datasets_institucion s) = false
        \/ (exists x rest org,
               Script.datasets_institucion s = JList (JDict x :: rest)
               /\ get_or x "organization" (JDict []) = JDict org
               /\ get_or org "name" JNull <> JStr institucion_sel) ->
        Script.paso2_datasets requests_get institucion_sel s p
        = (Ok tt, Script.set_datasets_institucion v s, p ++ map Script.Mensaje log)).
Proof.
  intros Hsel. apply String.eqb_neq in Hsel.
  split.
  - intros x rest org Hd Horg Hname.
    assert (Htest : Script.datasets_obsoletos (Script.datasets_institucion s)
                      institucion_sel [] = (Ok false, [])).
    { rewrite Hd. unfold Script.datasets_obsoletos, Script.primera_organizacion.
      cbn [truthy negb]. rewrite py_get_dict, bind_ret, Horg, py_get_dict, bind_ret.
      rewrite Hname. unfold Script.distinto_de. now rewrite String.eqb_refl. }
    unfold Script.paso2_datasets. rewrite Hsel. cbn [negb].
    rewrite bind_s_get, (bind_s_call _ _ _ _ _ _ Htest).
    cbn [map]. now rewrite app_nil_r.
  - intros v log Hrun Hcase.
    assert (Htest : Script.datasets_obsoletos (Script.datasets_institucion s)
                      institucion_sel [] = (Ok true, [])).
    { destruct Hcase as [Hempty|(x & rest & org & Hd & Horg & Hname)].
      - unfold Script.datasets_obsoletos. now rewrite Hempty.
      - rewrite Hd. unfold Script.datasets_obsoletos, Script.primera_organizacion.
        cbn [truthy negb]. rewrite py_get_dict, bind_ret, Horg, py_get_dict, bind_ret.
        unfold Script.distinto_de, ret.
        destruct (get_or org "name" JNull) as [| | | |t| |]; try reflexivity.
        destruct (String.eqb t institucion_sel) eqn:E; [|reflexivity].
        apply String.eqb_eq in E. now subst t. }
    unfold Script.paso2_datasets. rewrite Hsel. cbn [negb].
    rewrite bind_s_get, (bind_s_call _ _ _ _ _ _ Htest).
    cbn [map]. rewrite app_nil_r, (bind_s_call _ _ _ _ _ _ Hrun). reflexivity.
Qed.

End Selector.

Lemma labels_where_nonempty (q : Series -> bool) (df : DataFrame) :
  labels_where q df <> [] <-> exists c, In c (data df) /\ q (snd c) = true.
Proof.
  unfold labels_where. split.
  - destruct (filter (fun c => q (snd c)) (data df)) as [|c l] eqn:E;
      [intros H; now elim H|intros _].
    exists c. apply (filter_In (fun c => q (snd c))). rewrite E. now left.
  - intros (c & Hin & Hq) H. apply map_eq_nil in H.
    assert (Hc : In c (filter (fun c => q (snd c)) (data df)))
      by (apply filter_In; auto).
    now rewrite H in Hc.
Qed.

(** X23.  For a table with distinct labels, a pane of the comparison shows
    the heading of the numeric columns exactly when the table has a column
    of numeric dtype, the
    heading of the repeated text exactly when it has a string column with
    fewer distinct values than 80% of its rows, and the heading of the text
    without repetition exactly when it has a string column that is not so. *)
Theorem panel_sections (nombre : string) (df : DataFrame) :
  wf df ->
  (In (Script.Markdown "🔢 **Columnas numéricas**") (Script.panel nombre df)
   <-> exists c, In c (data df) /\ is_numeric_dtype (snd c) = true)
  /\ (In (Script.Markdown
            "🔤 **Columnas de texto con valores repetidos (categóricas)**")
         (Script.panel nombre df)
      <-> exists c, In c (data df) /\ repeated_text (snd c) = true)
  /\ (In (Script.Markdown "🧩 **Columnas de texto sin valores repetidos**")
         (Script.panel nombre df)
      <-> exists c, In c (data df) /\ unique_text (snd c) = true).
Proof.
  intros _.
  destruct (resumen_por_tipo_labels df) as (Hn & Hr & Hu).
  rewrite <- !labels_where_nonempty, <- Hn, <- Hr, <- Hu.
  unfold Script.panel. cbv zeta.
  destruct (df_num (resumen_por_tipo df)) as [|n ln];
    destruct (df_text_rep (resumen_por_tipo df)) as [|r lr];
    destruct (df_text_uni (resumen_por_tipo df)) as [|u lu];
    cbn [map app];
    (split; [|split]); (split; [intros H | intros H]);
    try discriminate;
    try (now elim H);
    cbn [In] in *;
    repeat match goal with
      | H : _ \/ _ |- _ => destruct H as [H|H]
      | H : False |- _ => elim H
      end;
    try discriminate;
    auto 12.
Qed.

(* ----------------------------------------------------------------- *)
(** *** The steps of the script on the example worlds *)

Lemma upload_replaces_local_table_witness :
  Script.paso1_cargar_archivo ex_read_csv_roto (Some "datos.csv") ex_sesion_local []
  = (Ok tt, Script.session_inicial,
     [Script.Mensaje
        {| msg_nivel := Error;
           msg_texto := "No se pudo leer el archivo: Error tokenizing data" |}]).
Proof.
  assert (H : raises_exceptions (ex_read_csv_roto "datos.csv"))
    by (intros e [= <-]; reflexivity).
  exact (upload_replaces_local_table ex_read_csv_roto "datos.csv" ex_sesion_local [] H).
Defined.

Lemma resources_are_asked_once_witness :
  exists v s' p',
    Script.paso2_recursos ex_head_roto "d1" Script.session_inicial [] = (Ok v, s', p')
    /\ lookup "d1" (Script.recursos_dataset s') = Some v.
Proof.
  assert (H1 : forall url t, raises_exceptions (ex_head_roto url t))
    by (intros url t e [= <-]; reflexivity).
  assert (H2 : forall url t r, ex_head_roto url t = Ok r -> raises_exceptions (json_ r))
    by (intros url t r H; discriminate H).
  destruct (resources_are_asked_once ex_head_roto "d1" Script.session_inicial [] H1 H2)
    as (v & s' & p' & Hrun & Hv & _).
  exists v, s', p'. split; assumption.
Defined.

Lemma download_button_keeps_the_table_on_failure_witness :
  Script.instituciones ex_sesion_pnda = Script.instituciones ex_sesion_pnda
  /\ Script.datasets_institucion ex_sesion_pnda = Script.datasets_institucion ex_sesion_pnda
  /\ Script.recursos_dataset ex_sesion_pnda = Script.recursos_dataset ex_sesion_pnda
  /\ Script.df_local ex_sesion_pnda = Script.df_local ex_sesion_pnda
  /\ (Script.df_ckan ex_sesion_pnda = Script.df_ckan ex_sesion_pnda
      \/ exists id df log,
           lookup "id" ex_recurso_sin_tamano = Some id
           /\ descargar_recurso_ckan ex_get_roto ex_read_csv_roto ex_py_repr
                (format_json ex_py_repr id) Script.base_url []
              = (Ok (Some df), log)
           /\ Script.df_ckan ex_sesion_pnda = Some df).
Proof.
  exact (download_button_keeps_the_table_on_failure
           ex_get_roto ex_read_csv_roto ex_py_repr ex_recurso_sin_tamano
           ex_sesion_pnda ex_sesion_pnda []
           [Script.Mensaje
              {| msg_nivel := Error;
                 msg_texto := "Error al descargar o leer el recurso CKAN: 'result'" |}]
           (Ok tt) eq_refl).
Defined.

Lemma institutions_requested_while_empty_witness :
  Script.paso2_selector ex_get_roto ex_sesion_local []
  = (Ok (Some [JStr "-- Selecciona --"]), ex_sesion_local,
     [Script.Divider;
      Script.Subheader "Paso 2: Seleccionar recurso en la PNDA";
      Script.Mensaje
        {| msg_nivel := Warning;
           msg_texto := "No se pudieron obtener instituciones: Connection refused" |}]).
Proof.
  exact (proj2 (institutions_requested_while_empty ex_get_roto ex_sesion_local []
                  ex_letras_df eq_refl)
           {| exn_cls := RequestException; exn_str := "Connection refused" |}
           eq_refl eq_refl eq_refl).
Defined.

Lemma selector_needs_a_list_witness :
  exists e,
    Script.paso2_selector ex_get_result_null ex_sesion_local []
    = (Raise e, Script.set_instituciones JNull ex_sesion_local,
       [Script.Divider; Script.Subheader "Paso 2: Seleccionar recurso en la PNDA"])
    /\ exn_cls e = TypeError.
Proof.
  exact (selector_needs_a_list ex_get_result_null ex_sesion_local [] ex_letras_df
           (ex_respuesta 200 (Ok (JDict [("result", JNull)])) [])
           [("result", JNull)] JNull
           eq_refl eq_refl eq_refl eq_refl eq_refl eq_refl eq_refl).
Defined.

Lemma datasets_reload_rule_witness :
  Script.paso2_datasets ex_get_roto "inegi" ex_sesion_inegi [] = (Ok tt, ex_sesion_inegi, [])
  /\ Script.paso2_datasets ex_get_roto "inegi" ex_sesion_local []
     = (Ok tt, ex_sesion_local,
        [Script.Mensaje
           {| msg_nivel := Warning;
              msg_texto := "No se pudieron obtener datasets: HTTPError" |}]).
Proof.
  assert (Hsel : "inegi"%string <> "-- Selecciona --"%string) by discriminate.
  split.
  - exact (proj1 (datasets_reload_rule ex_get_roto "inegi" ex_sesion_inegi [] Hsel)
             [("id", JStr "d1"); ("organization", JDict [("name", JStr "inegi")])]
             [] [("name", JStr "inegi")] eq_refl eq_refl eq_refl).
  - exact (proj2 (datasets_reload_rule ex_get_roto "inegi" ex_sesion_local [] Hsel)
             (JList []) _ eq_refl (or_introl eq_refl)).
Defined.

Lemma panel_sections_witness :
  wf ex_letras_df
  /\ In (Script.Markdown
           "🔤 **Columnas de texto con valores repetidos (categóricas)**")
        (Script.panel "PNDA" ex_letras_df).
Proof.
  assert (Hwf : wf ex_letras_df).
  { split; simpl; repeat constructor. simpl. tauto. }
  split; [exact Hwf|].
  apply (proj1 (proj2 (panel_sections "PNDA" ex_letras_df Hwf))).
  exists ("letras", ex_letras). split; [left; reflexivity | reflexivity].
Defined.

